(** * Learning-management backend: authorization guard, enrollment state
    machine and learning-record aggregation

    A shallow embedding of the request handlers of
    [src/lib/auth-helpers.ts], [src/app/api/enrollments/route.ts],
    [src/app/api/enrollments/[id]/route.ts],
    [src/app/api/learning-records/route.ts] and
    [src/app/api/learning-records/[id]/route.ts].

    Conventions of the embedding.
    - The persistent store is a record of tables, each table a list of rows
      in insertion order; a handler is a function from the store to a
      response and the store it leaves behind.
    - An instant (a JS [Date], an ISO date-time string) is its number of
      milliseconds since the epoch, a [Z].  [toISOString().split('T')[0]]
      is the UTC calendar day, and two such strings are equal exactly when
      the day numbers are, so a calendar date is the day number.
    - A JS [number] that holds a count of minutes or a percentage is a [Z]
      (the embedding covers integer-valued inputs); [undefined] and [null]
      are [None].
    - The store answers every query; the one refusal it is given is that of
      an insert whose identifier is already in use.
    - Identifiers are the strings the handlers compare with [===]; path and
      body identifiers are taken after [uuidSchema] accepted them.
    - Every [new Date()] of one request reads the same clock value [now]. *)

From Stdlib Require Import ZArith List String Bool Lia Sorted.
Import ListNotations.

Open Scope string_scope.
Open Scope list_scope.
Open Scope Z_scope.

(** ** JavaScript values *)

Definition Instant := Z.
Definition uuid := string.

(** [new Date(t).toISOString().split('T')[0]]: the UTC calendar day. *)
Definition iso_date (t : Instant) : Z := t / 86400000.

(** [Math.round((endTime.getTime() - startTime.getTime()) / (1000 * 60))].
    [Math.round] rounds halves towards plus infinity, so on a quotient of
    integers it is the floor of the quotient plus one half. *)
Definition round_minutes (startTime endTime : Instant) : Z :=
  (endTime - startTime + 30000) / (1000 * 60).

(** Truthiness of a [number | null | undefined]: [0] is falsy. *)
Definition truthy_number (n : option Z) : bool :=
  match n with
  | Some v => negb (v =? 0)
  | None => false
  end.

(** [n || 0] on a [number | null | undefined]. *)
Definition or_zero (n : option Z) : Z :=
  match n with
  | Some v => v
  | None => 0
  end.

(** [a !== b] on [number | null | undefined] operands. *)
Definition option_Z_eqb (a b : option Z) : bool :=
  match a, b with
  | Some x, Some y => x =? y
  | None, None => true
  | _, _ => false
  end.

Definition is_some {A : Type} (o : option A) : bool :=
  match o with
  | Some _ => true
  | None => false
  end.

(** A defined patch key overrides the stored column. *)
Definition override {A : Type} (patch : option A) (old : option A) : option A :=
  match patch with
  | Some v => Some v
  | None => old
  end.

(** The result of awaiting a promise: it rejects or it resolves. *)
Inductive Outcome (A : Type) : Type :=
| Thrown
| Resolved (a : A).

Arguments Thrown {A}.
Arguments Resolved {A} a.

(** ** Identity: [src/types/next-auth.d.ts] *)

Inductive UserRole : Type := admin | learner.

Definition UserRole_eqb (a b : UserRole) : bool :=
  match a, b with
  | admin, admin | learner, learner => true
  | _, _ => false
  end.

Record SessionUser : Type := {
  id : string;
  role : UserRole
}.

(** The type [Session] declares [user] as always present; [Session | null]
    is [option Session]. *)
Record Session : Type := {
  user : SessionUser
}.

(** ** Store: [src/types/database.ts] *)

Inductive EnrollmentStatus : Type :=
| assigned
| in_progress
| completed
| cancelled.

Definition EnrollmentStatus_eqb (a b : EnrollmentStatus) : bool :=
  match a, b with
  | assigned, assigned
  | in_progress, in_progress
  | completed, completed
  | cancelled, cancelled => true
  | _, _ => false
  end.

Module Users.
Record Row : Type := {
  id : uuid;
  role : option UserRole
}.
End Users.

Module Courses.
Record Row : Type := {
  id : uuid;
  is_active : option bool
}.
End Courses.

Module Enrollments.
Record Row : Type := {
  id : uuid;
  learner_id : uuid;
  course_id : uuid;
  status : EnrollmentStatus;
  progress_percentage : option Z;
  assigned_by : option uuid;
  assigned_at : option Instant;
  started_at : option Instant;
  completed_at : option Instant;
  due_date : option string;
  created_at : option Instant;
  updated_at : option Instant
}.

(** The object handed to [.update(...)]: a key is present or absent. *)
Record Update : Type := {
  u_progress_percentage : option Z;
  u_status : option EnrollmentStatus;
  u_due_date : option string;
  u_started_at : option Instant;
  u_completed_at : option Instant;
  u_updated_at : option Instant
}.

Definition apply (u : Update) (r : Row) : Row :=
  {| id := id r;
     learner_id := learner_id r;
     course_id := course_id r;
     status := match u_status u with Some s => s | None => status r end;
     progress_percentage := override (u_progress_percentage u) (progress_percentage r);
     assigned_by := assigned_by r;
     assigned_at := assigned_at r;
     started_at := override (u_started_at u) (started_at r);
     completed_at := override (u_completed_at u) (completed_at r);
     due_date := override (u_due_date u) (due_date r);
     created_at := created_at r;
     updated_at := override (u_updated_at u) (updated_at r) |}.

(** [.update(u).eq("id", i)] *)
Definition update_eq_id (u : Update) (i : uuid) (rows : list Row) : list Row :=
  map (fun r => if String.eqb (id r) i then apply u r else r) rows.

Definition set_progress_percentage (v : Z) (u : Update) : Update :=
  {| u_progress_percentage := Some v; u_status := u_status u;
     u_due_date := u_due_date u; u_started_at := u_started_at u;
     u_completed_at := u_completed_at u; u_updated_at := u_updated_at u |}.

Definition set_status (v : EnrollmentStatus) (u : Update) : Update :=
  {| u_progress_percentage := u_progress_percentage u; u_status := Some v;
     u_due_date := u_due_date u; u_started_at := u_started_at u;
     u_completed_at := u_completed_at u; u_updated_at := u_updated_at u |}.

Definition set_due_date (v : string) (u : Update) : Update :=
  {| u_progress_percentage := u_progress_percentage u; u_status := u_status u;
     u_due_date := Some v; u_started_at := u_started_at u;
     u_completed_at := u_completed_at u; u_updated_at := u_updated_at u |}.

Definition set_started_at (v : Instant) (u : Update) : Update :=
  {| u_progress_percentage := u_progress_percentage u; u_status := u_status u;
     u_due_date := u_due_date u; u_started_at := Some v;
     u_completed_at := u_completed_at u; u_updated_at := u_updated_at u |}.

Definition set_completed_at (v : Instant) (u : Update) : Update :=
  {| u_progress_percentage := u_progress_percentage u; u_status := u_status u;
     u_due_date := u_due_date u; u_started_at := u_started_at u;
     u_completed_at := Some v; u_updated_at := u_updated_at u |}.

(** [{ updated_at: new Date().toISOString() }] *)
Definition touched (now : Instant) : Update :=
  {| u_progress_percentage := None; u_status := None; u_due_date := None;
     u_started_at := None; u_completed_at := None; u_updated_at := Some now |}.
End Enrollments.

Module LearningRecords.
Record Row : Type := {
  id : uuid;
  enrollment_id : uuid;
  course_id : uuid;
  learner_id : uuid;
  session_start_time : Instant;
  session_end_time : option Instant;
  session_duration_minutes : option Z;
  session_date : Z;
  progress_percentage : option Z;
  understanding_level : option Z;
  learning_memo : option string;
  cumulative_learning_minutes : option Z;
  created_at : option Instant;
  updated_at : option Instant
}.

Record Update : Type := {
  u_session_end_time : option Instant;
  u_session_duration_minutes : option Z;
  u_cumulative_learning_minutes : option Z;
  u_progress_percentage : option Z;
  u_understanding_level : option Z;
  u_learning_memo : option string;
  u_updated_at : option Instant
}.

Definition apply (u : Update) (r : Row) : Row :=
  {| id := id r;
     enrollment_id := enrollment_id r;
     course_id := course_id r;
     learner_id := learner_id r;
     session_start_time := session_start_time r;
     session_end_time := override (u_session_end_time u) (session_end_time r);
     session_duration_minutes :=
       override (u_session_duration_minutes u) (session_duration_minutes r);
     session_date := session_date r;
     progress_percentage := override (u_progress_percentage u) (progress_percentage r);
     understanding_level := override (u_understanding_level u) (understanding_level r);
     learning_memo := override (u_learning_memo u) (learning_memo r);
     cumulative_learning_minutes :=
       override (u_cumulative_learning_minutes u) (cumulative_learning_minutes r);
     created_at := created_at r;
     updated_at := override (u_updated_at u) (updated_at r) |}.

Definition update_eq_id (u : Update) (i : uuid) (rows : list Row) : list Row :=
  map (fun r => if String.eqb (id r) i then apply u r else r) rows.

(** [.update({ cumulative_learning_minutes: v })] *)
Definition only_cumulative (v : Z) : Update :=
  {| u_session_end_time := None; u_session_duration_minutes := None;
     u_cumulative_learning_minutes := Some v; u_progress_percentage := None;
     u_understanding_level := None; u_learning_memo := None;
     u_updated_at := None |}.

(** [.eq("enrollment_id", e)] *)
Definition of_enrollment (e : uuid) (rows : list Row) : list Row :=
  filter (fun r => String.eqb (enrollment_id r) e) rows.

(** [.not("session_duration_minutes", "is", null)] *)
Definition with_duration (rows : list Row) : list Row :=
  filter (fun r => is_some (session_duration_minutes r)) rows.

(** [rows.reduce((sum, record) => sum + (record.session_duration_minutes || 0), 0)] *)
Definition total_minutes (rows : list Row) : Z :=
  fold_left (fun sum record => sum + or_zero (session_duration_minutes record)) rows 0.

(** [.order("session_start_time", { ascending: false }).limit(1)]: the row
    with the greatest start time, the earliest inserted one among equals. *)
Fixpoint latest (rows : list Row) : option Row :=
  match rows with
  | [] => None
  | r :: rest =>
      match latest rest with
      | Some r' =>
          if session_start_time r <? session_start_time r' then Some r' else Some r
      | None => Some r
      end
  end.
End LearningRecords.

Record DB : Type := {
  users : list Users.Row;
  courses : list Courses.Row;
  enrollments : list Enrollments.Row;
  learning_records : list LearningRecords.Row
}.

Definition set_enrollments (rows : list Enrollments.Row) (db : DB) : DB :=
  {| users := users db; courses := courses db;
     enrollments := rows; learning_records := learning_records db |}.

Definition set_learning_records (rows : list LearningRecords.Row) (db : DB) : DB :=
  {| users := users db; courses := courses db;
     enrollments := enrollments db; learning_records := rows |}.

(** [.single()]: the row when the selection has exactly one, otherwise no
    data and the error PGRST116. *)
Definition single {A : Type} (rows : list A) : option A :=
  match rows with
  | [r] => Some r
  | _ => None
  end.

(** ** [src/lib/auth-helpers.ts] *)

Module AuthHelpers.

(** [session?.user?.role === "admin"] *)
Definition isAdmin (session : option Session) : bool :=
  match session with
  | Some s => UserRole_eqb (role (user s)) admin
  | None => false
  end.

Definition isLearner (session : option Session) : bool :=
  match session with
  | Some s => UserRole_eqb (role (user s)) learner
  | None => false
  end.

Definition hasRole (session : option Session) (r : UserRole) : bool :=
  match session with
  | Some s => UserRole_eqb (role (user s)) r
  | None => false
  end.

(** [!!session?.user] *)
Definition isAuthenticated (session : option Session) : bool :=
  is_some session.

(** [session || (await getServerSession())]: the server session is awaited
    only when no session is passed. *)
Definition currentSession (session : option Session)
    (getServerSession : Outcome (option Session)) : Outcome (option Session) :=
  match session with
  | Some s => Resolved (Some s)
  | None => getServerSession
  end.

Definition canAccessResource (resourceUserId : string) (session : option Session)
    (getServerSession : Outcome (option Session)) : Outcome bool :=
  match currentSession session getServerSession with
  | Thrown => Thrown
  | Resolved cur =>
      if negb (isAuthenticated cur) then Resolved false
      else if isAdmin cur then Resolved true
      else
        match cur with
        | Some s => Resolved (String.eqb (id (user s)) resourceUserId)
        | None => Thrown
        end
  end.

(** The enrollment lookup of [canAccessCourse] sits in a [try]: a store
    that throws is caught and answered by [false]. *)
Definition canAccessCourse (courseId : string) (session : option Session)
    (getServerSession : Outcome (option Session)) (store : Outcome DB) : Outcome bool :=
  match currentSession session getServerSession with
  | Thrown => Thrown
  | Resolved cur =>
      if negb (isAuthenticated cur) then Resolved false
      else if isAdmin cur then Resolved true
      else
        match cur, store with
        | Some s, Resolved db =>
            Resolved
              (is_some
                 (single
                    (filter
                       (fun e =>
                          String.eqb (Enrollments.course_id e) courseId
                          && String.eqb (Enrollments.learner_id e) (id (user s)))
                       (enrollments db))))
        | Some _, Thrown => Resolved false
        | None, _ => Thrown
        end
  end.

(** A caller is unauthenticated when the session the helper ends up with
    is [null]: none was passed and the server has none. *)
Definition unauthenticated (session : option Session)
    (getServerSession : Outcome (option Session)) : Prop :=
  session = None /\ getServerSession = Resolved None.

(** The record lookup of [canAccessLearningRecord] sits in a [try] as
    well; no row, several rows and a store that throws all answer
    [false]. *)
Definition canAccessLearningRecord (recordId : string) (session : option Session)
    (getServerSession : Outcome (option Session)) (store : Outcome DB) : Outcome bool :=
  match currentSession session getServerSession with
  | Thrown => Thrown
  | Resolved cur =>
      if negb (isAuthenticated cur) then Resolved false
      else if isAdmin cur then Resolved true
      else
        match cur, store with
        | Some s, Resolved db =>
            Resolved
              (match single
                       (filter (fun r => String.eqb (LearningRecords.id r) recordId)
                          (learning_records db)) with
               | Some data => String.eqb (LearningRecords.learner_id data) (id (user s))
               | None => false
               end)
        | Some _, Thrown => Resolved false
        | None, _ => Thrown
        end
  end.

End AuthHelpers.

(** ** [src/lib/validations.ts] *)

Module Validations.

(** [z.number().min(0).max(100)] *)
Definition percentageSchema (p : Z) : bool := (0 <=? p) && (p <=? 100).

(** [z.union([z.literal(1), ..., z.literal(5)])] *)
Definition understandingLevelSchema (l : Z) : bool := (1 <=? l) && (l <=? 5).

(** [z.number().min(1).max(1440)] *)
Definition durationSchema (d : Z) : bool := (1 <=? d) && (d <=? 1440).

(** [z.string().max(1000)] *)
Definition memoSchema (m : string) : bool :=
  (Z.of_nat (String.length m) <=? 1000).

(** An [.optional()] key passes when absent. *)
Definition optional {A : Type} (check : A -> bool) (v : option A) : bool :=
  match v with
  | Some a => check a
  | None => true
  end.

Record EnrollmentCreateSchema : Type := {
  ec_learner_id : uuid;
  ec_course_id : uuid;
  ec_due_date : option string;
  ec_status : option EnrollmentStatus
}.

(** [enrollmentStatusSchema.default("assigned")] *)
Definition ec_status_parsed (body : EnrollmentCreateSchema) : EnrollmentStatus :=
  match ec_status body with
  | Some s => s
  | None => assigned
  end.

Record EnrollmentUpdateSchema : Type := {
  eu_progress_percentage : option Z;
  eu_status : option EnrollmentStatus;
  eu_due_date : option string;
  eu_started_at : option Instant;
  eu_completed_at : option Instant
}.

Definition enrollmentUpdateSchema (body : EnrollmentUpdateSchema) : bool :=
  optional percentageSchema (eu_progress_percentage body).

Record LearningRecordCreateSchema : Type := {
  lc_enrollment_id : uuid;
  lc_course_id : uuid;
  lc_learner_id : uuid;
  lc_session_start_time : Instant;
  lc_session_end_time : option Instant;
  lc_session_duration_minutes : option Z;
  lc_progress_percentage : option Z;
  lc_understanding_level : option Z;
  lc_learning_memo : option string
}.

Definition learningRecordCreateSchema (body : LearningRecordCreateSchema) : bool :=
  optional durationSchema (lc_session_duration_minutes body)
  && optional percentageSchema (lc_progress_percentage body)
  && optional understandingLevelSchema (lc_understanding_level body)
  && optional memoSchema (lc_learning_memo body).

Record LearningRecordUpdateSchema : Type := {
  lu_session_end_time : option Instant;
  lu_session_duration_minutes : option Z;
  lu_progress_percentage : option Z;
  lu_understanding_level : option Z;
  lu_learning_memo : option string
}.

Definition learningRecordUpdateSchema (body : LearningRecordUpdateSchema) : bool :=
  optional durationSchema (lu_session_duration_minutes body)
  && optional percentageSchema (lu_progress_percentage body)
  && optional understandingLevelSchema (lu_understanding_level body)
  && optional memoSchema (lu_learning_memo body).

End Validations.

(** ** Responses *)

(** The error responses of the handlers, named after the failure they
    report; [http_status] is the status code each is sent with. *)
Inductive ApiError : Type :=
| Unauthorized          (* 認証が必要です *)
| InsufficientRole      (* 権限が不足しています *)
| ValidationFailed      (* 入力値が正しくありません *)
| Forbidden             (* ...する権限がありません / 管理者権限が必要です *)
| NotFound              (* ...が見つかりません *)
| NotALearner           (* 管理者を受講者として割り当てることはできません *)
| InactiveCourse        (* 指定されたコースが見つからないか無効です / 無効なコースには... *)
| DuplicateEnrollment   (* この受講者は既にこのコースに割り当てられています *)
| HasDependentRecords   (* この受講割り当てには学習記録が存在するため削除できません *)
| CancelledEnrollment   (* キャンセルされた受講割り当てには学習記録を作成できません *)
| StaleEditWindow       (* 当日作成された学習記録のみ更新/削除可能です *)
| StoreFailed.          (* ...に失敗しました *)

Inductive Response (A : Type) : Type :=
| Success (status : Z) (data : A)
| Failure (error : ApiError).

Arguments Success {A} status data.
Arguments Failure {A} error.

(** What a request reads from outside the store: the clock and, for an
    insert, the identifier the store generates for the new row. *)
Record Env : Type := {
  now : Instant;
  gen_id : uuid
}.

(** [withAuth(handler)]: 401 without a session, otherwise the handler runs
    with it (no [requireRole] option is passed by these routes). *)
Definition withAuth {A : Type} (getServerSession : option Session)
    (handler : Session -> DB -> Response A * DB) (db : DB) : Response A * DB :=
  match getServerSession with
  | Some session => handler session db
  | None => (Failure Unauthorized, db)
  end.

(** ** [src/app/api/enrollments/route.ts] *)

Module EnrollmentsRoute.
Import Validations AuthHelpers.

Definition POST_handler (env : Env) (validatedData : EnrollmentCreateSchema)
    (session : Session) (db : DB) : Response Enrollments.Row * DB :=
  if negb (isAdmin (Some session)) then (Failure Forbidden, db)
  else
    match single (filter (fun u => String.eqb (Users.id u) (ec_learner_id validatedData))
                    (users db)) with
    | None => (Failure NotFound, db)
    | Some learner_row =>
        match Users.role learner_row with
        | Some learner =>
            match single (filter (fun c => String.eqb (Courses.id c)
                                             (ec_course_id validatedData))
                            (courses db)) with
            | None => (Failure NotFound, db)
            | Some course =>
                if negb (match Courses.is_active course with
                         | Some b => b
                         | None => false
                         end)
                then (Failure InactiveCourse, db)
                else
                  match single
                          (filter
                             (fun e =>
                                String.eqb (Enrollments.learner_id e)
                                  (ec_learner_id validatedData)
                                && String.eqb (Enrollments.course_id e)
                                     (ec_course_id validatedData))
                             (enrollments db)) with
                  | Some _ => (Failure DuplicateEnrollment, db)
                  | None =>
                      (* the primary key refuses an identifier already in use *)
                      if existsb (fun e => String.eqb (Enrollments.id e) (gen_id env))
                           (enrollments db)
                      then (Failure StoreFailed, db)
                      else
                        (* columns the insert leaves out are null *)
                        let newEnrollment :=
                          {| Enrollments.id := gen_id env;
                             Enrollments.learner_id := ec_learner_id validatedData;
                             Enrollments.course_id := ec_course_id validatedData;
                             Enrollments.status := ec_status_parsed validatedData;
                             Enrollments.progress_percentage := None;
                             Enrollments.assigned_by := Some (id (user session));
                             Enrollments.assigned_at := Some (now env);
                             Enrollments.started_at := None;
                             Enrollments.completed_at := None;
                             Enrollments.due_date := ec_due_date validatedData;
                             Enrollments.created_at := Some (now env);
                             Enrollments.updated_at := Some (now env) |} in
                        (Success 201 newEnrollment,
                         set_enrollments (enrollments db ++ [newEnrollment]) db)
                  end
            end
        | _ => (Failure NotALearner, db)
        end
    end.

Definition POST (getServerSession : option Session) (env : Env)
    (validatedData : EnrollmentCreateSchema) (db : DB) : Response Enrollments.Row * DB :=
  withAuth getServerSession (POST_handler env validatedData) db.

End EnrollmentsRoute.

(** ** [src/app/api/enrollments/[id]/route.ts] *)

Module EnrollmentsIdRoute.
Import Validations AuthHelpers.

(** [query.eq("id", enrollmentId)], narrowed by
    [query.eq("learner_id", session.user.id)] for a non-admin, then
    [.single()]; no row or several rows is the error PGRST116, a 404. *)
Definition GET_handler (enrollmentId : uuid) (session : Session) (db : DB)
    : Response Enrollments.Row * DB :=
  let query := filter (fun e => String.eqb (Enrollments.id e) enrollmentId)
                 (enrollments db) in
  let query :=
    if negb (isAdmin (Some session))
    then filter (fun e => String.eqb (Enrollments.learner_id e) (id (user session))) query
    else query in
  match single query with
  | Some enrollment => (Success 200 enrollment, db)
  | None => (Failure NotFound, db)
  end.

Definition GET (getServerSession : option Session) (enrollmentId : uuid) (db : DB)
    : Response Enrollments.Row * DB :=
  withAuth getServerSession (GET_handler enrollmentId) db.

(** The admin branch: every supplied key is copied. *)
Definition adminUpdateData (validatedData : EnrollmentUpdateSchema)
    (updateData : Enrollments.Update) : Enrollments.Update :=
  let updateData :=
    match eu_progress_percentage validatedData with
    | Some p => Enrollments.set_progress_percentage p updateData
    | None => updateData
    end in
  let updateData :=
    match eu_status validatedData with
    | Some s => Enrollments.set_status s updateData
    | None => updateData
    end in
  let updateData :=
    match eu_due_date validatedData with
    | Some d => Enrollments.set_due_date d updateData
    | None => updateData
    end in
  let updateData :=
    match eu_started_at validatedData with
    | Some t => Enrollments.set_started_at t updateData
    | None => updateData
    end in
  match eu_completed_at validatedData with
  | Some t => Enrollments.set_completed_at t updateData
  | None => updateData
  end.

(** The learner branch, statement by statement. *)
Definition learnerUpdateData (now : Instant) (existingEnrollment : Enrollments.Row)
    (validatedData : EnrollmentUpdateSchema) (updateData : Enrollments.Update)
    : Enrollments.Update :=
  let updateData :=
    match eu_progress_percentage validatedData with
    | Some p => Enrollments.set_progress_percentage p updateData
    | None => updateData
    end in
  let updateData :=
    match eu_status validatedData with
    | Some requested =>
        if EnrollmentStatus_eqb (Enrollments.status existingEnrollment) assigned
           && EnrollmentStatus_eqb requested in_progress
        then Enrollments.set_started_at now (Enrollments.set_status requested updateData)
        else if EnrollmentStatus_eqb (Enrollments.status existingEnrollment) in_progress
                && EnrollmentStatus_eqb requested completed
                && (option_Z_eqb (eu_progress_percentage validatedData) (Some 100)
                    || option_Z_eqb (Enrollments.progress_percentage existingEnrollment)
                         (Some 100))
        then Enrollments.set_progress_percentage 100
               (Enrollments.set_completed_at now
                  (Enrollments.set_status requested updateData))
        else updateData
    | None => updateData
    end in
  let updateData :=
    match eu_started_at validatedData with
    | Some t =>
        if EnrollmentStatus_eqb (Enrollments.status existingEnrollment) assigned
        then Enrollments.set_status in_progress (Enrollments.set_started_at t updateData)
        else updateData
    | None => updateData
    end in
  match eu_completed_at validatedData with
  | Some t =>
      if option_Z_eqb (eu_progress_percentage validatedData) (Some 100)
      then Enrollments.set_progress_percentage 100
             (Enrollments.set_status completed
                (Enrollments.set_completed_at t updateData))
      else updateData
  | None => updateData
  end.

Definition PUT_handler (env : Env) (enrollmentId : uuid)
    (validatedData : EnrollmentUpdateSchema) (session : Session) (db : DB)
    : Response Enrollments.Row * DB :=
  if negb (enrollmentUpdateSchema validatedData) then (Failure ValidationFailed, db)
  else
    match single (filter (fun e => String.eqb (Enrollments.id e) enrollmentId)
                    (enrollments db)) with
    | None => (Failure NotFound, db)
    | Some existingEnrollment =>
        if negb (isAdmin (Some session))
           && negb (String.eqb (Enrollments.learner_id existingEnrollment)
                      (id (user session)))
        then (Failure Forbidden, db)
        else
          let updateData := Enrollments.touched (now env) in
          let updateData :=
            if isAdmin (Some session)
            then adminUpdateData validatedData updateData
            else learnerUpdateData (now env) existingEnrollment validatedData updateData in
          (Success 200 (Enrollments.apply updateData existingEnrollment),
           set_enrollments
             (Enrollments.update_eq_id updateData enrollmentId (enrollments db)) db)
    end.

Definition PUT (getServerSession : option Session) (env : Env) (enrollmentId : uuid)
    (validatedData : EnrollmentUpdateSchema) (db : DB) : Response Enrollments.Row * DB :=
  withAuth getServerSession (PUT_handler env enrollmentId validatedData) db.

(** Admin only; refused with 409 while a learning record refers to the
    enrollment ([.eq("enrollment_id", enrollmentId).limit(1)]). *)
Definition DELETE_handler (enrollmentId : uuid) (session : Session) (db : DB)
    : Response unit * DB :=
  if negb (isAdmin (Some session)) then (Failure Forbidden, db)
  else
    match single (filter (fun e => String.eqb (Enrollments.id e) enrollmentId)
                    (enrollments db)) with
    | None => (Failure NotFound, db)
    | Some existingEnrollment =>
        let learningRecords :=
          firstn 1
            (filter (fun r => String.eqb (LearningRecords.enrollment_id r) enrollmentId)
               (learning_records db)) in
        if (0 <? Z.of_nat (List.length learningRecords))
        then (Failure HasDependentRecords, db)
        else
          (Success 200 tt,
           set_enrollments
             (filter (fun e => negb (String.eqb (Enrollments.id e) enrollmentId))
                (enrollments db)) db)
    end.

Definition DELETE (getServerSession : option Session) (enrollmentId : uuid) (db : DB)
    : Response unit * DB :=
  withAuth getServerSession (DELETE_handler enrollmentId) db.

End EnrollmentsIdRoute.

(** ** [src/app/api/learning-records/route.ts] *)

Module LearningRecordsRoute.
Import Validations AuthHelpers.

(** [sessionDurationMinutes]: the supplied value, or the rounded
    difference when it is falsy and an end time is given. *)
Definition sessionDurationMinutes (validatedData : LearningRecordCreateSchema)
    : option Z :=
  if negb (truthy_number (lc_session_duration_minutes validatedData))
     && is_some (lc_session_end_time validatedData)
  then
    match lc_session_end_time validatedData with
    | Some endTime =>
        Some (round_minutes (lc_session_start_time validatedData) endTime)
    | None => lc_session_duration_minutes validatedData
    end
  else lc_session_duration_minutes validatedData.

(** [existingRecords]: the rows of the enrollment with a duration. *)
Definition existingRecords (enrollmentId : uuid) (db : DB) : list LearningRecords.Row :=
  LearningRecords.with_duration
    (LearningRecords.of_enrollment enrollmentId (learning_records db)).

Definition cumulativeLearningMinutes (validatedData : LearningRecordCreateSchema)
    (db : DB) : Z :=
  let totalExistingMinutes :=
    LearningRecords.total_minutes
      (existingRecords (lc_enrollment_id validatedData) db) in
  totalExistingMinutes + or_zero (sessionDurationMinutes validatedData).

Definition learningRecordData (env : Env) (validatedData : LearningRecordCreateSchema)
    (db : DB) : LearningRecords.Row :=
  {| LearningRecords.id := gen_id env;
     LearningRecords.enrollment_id := lc_enrollment_id validatedData;
     LearningRecords.course_id := lc_course_id validatedData;
     LearningRecords.learner_id := lc_learner_id validatedData;
     LearningRecords.session_start_time := lc_session_start_time validatedData;
     LearningRecords.session_end_time := lc_session_end_time validatedData;
     LearningRecords.session_duration_minutes := sessionDurationMinutes validatedData;
     LearningRecords.session_date := iso_date (lc_session_start_time validatedData);
     LearningRecords.progress_percentage := lc_progress_percentage validatedData;
     LearningRecords.understanding_level := lc_understanding_level validatedData;
     LearningRecords.learning_memo := lc_learning_memo validatedData;
     LearningRecords.cumulative_learning_minutes :=
       Some (cumulativeLearningMinutes validatedData db);
     LearningRecords.created_at := Some (now env);
     LearningRecords.updated_at := Some (now env) |}.

(** The enrollment update that follows the insert when the body carries
    a progress percentage. *)
Definition updateData (now : Instant) (enrollment : Enrollments.Row)
    (progress_percentage : Z) : Enrollments.Update :=
  let updateData :=
    Enrollments.set_progress_percentage progress_percentage (Enrollments.touched now) in
  let updateData :=
    if EnrollmentStatus_eqb (Enrollments.status enrollment) assigned
    then Enrollments.set_started_at now (Enrollments.set_status in_progress updateData)
    else updateData in
  if progress_percentage =? 100
  then Enrollments.set_completed_at now (Enrollments.set_status completed updateData)
  else updateData.

Definition POST_handler (env : Env) (validatedData : LearningRecordCreateSchema)
    (session : Session) (db : DB) : Response LearningRecords.Row * DB :=
  if negb (learningRecordCreateSchema validatedData) then (Failure ValidationFailed, db)
  else if negb (isAdmin (Some session))
          && negb (String.eqb (lc_learner_id validatedData) (id (user session)))
  then (Failure Forbidden, db)
  else
    match single
            (filter
               (fun e =>
                  String.eqb (Enrollments.id e) (lc_enrollment_id validatedData)
                  && String.eqb (Enrollments.learner_id e) (lc_learner_id validatedData)
                  && String.eqb (Enrollments.course_id e) (lc_course_id validatedData))
               (enrollments db)) with
    | None => (Failure NotFound, db)
    | Some enrollment =>
        if EnrollmentStatus_eqb (Enrollments.status enrollment) cancelled
        then (Failure CancelledEnrollment, db)
        else
          match single (filter (fun c => String.eqb (Courses.id c)
                                           (lc_course_id validatedData))
                          (courses db)) with
          | None => (Failure InactiveCourse, db)
          | Some course =>
              if negb (match Courses.is_active course with
                       | Some b => b
                       | None => false
                       end)
              then (Failure InactiveCourse, db)
              else
                (* the primary key refuses an identifier already in use *)
                if existsb (fun r => String.eqb (LearningRecords.id r) (gen_id env))
                     (learning_records db)
                then (Failure StoreFailed, db)
                else
                  let newLearningRecord := learningRecordData env validatedData db in
                  let db :=
                    set_learning_records
                      (learning_records db ++ [newLearningRecord]) db in
                  let db :=
                    match lc_progress_percentage validatedData with
                    | Some p =>
                        set_enrollments
                          (Enrollments.update_eq_id (updateData (now env) enrollment p)
                             (lc_enrollment_id validatedData) (enrollments db)) db
                    | None => db
                    end in
                  (Success 201 newLearningRecord, db)
          end
    end.

Definition POST (getServerSession : option Session) (env : Env)
    (validatedData : LearningRecordCreateSchema) (db : DB)
    : Response LearningRecords.Row * DB :=
  withAuth getServerSession (POST_handler env validatedData) db.

End LearningRecordsRoute.

(** ** [src/app/api/learning-records/[id]/route.ts] *)

Module LearningRecordsIdRoute.
Import Validations AuthHelpers.

(** [new Date(existingRecord.created_at!)]: a [null] column is the epoch. *)
Definition recordDate (existingRecord : LearningRecords.Row) : Z :=
  iso_date (or_zero (LearningRecords.created_at existingRecord)).

(** The same-day window, from which an admin is exempt. *)
Definition outsideEditWindow (now : Instant) (session : Session)
    (existingRecord : LearningRecords.Row) : bool :=
  negb (isAdmin (Some session))
  && negb (recordDate existingRecord =? iso_date now).

Definition sessionDurationMinutes (existingRecord : LearningRecords.Row)
    (validatedData : LearningRecordUpdateSchema) : option Z :=
  if is_some (lu_session_end_time validatedData)
     && negb (truthy_number (lu_session_duration_minutes validatedData))
  then
    match lu_session_end_time validatedData with
    | Some endTime =>
        Some (round_minutes (LearningRecords.session_start_time existingRecord) endTime)
    | None => lu_session_duration_minutes validatedData
    end
  else lu_session_duration_minutes validatedData.

(** [otherRecords]: the rows of the enrollment other than the updated
    one, with a duration. *)
Definition otherRecords (learningRecordId : uuid) (enrollmentId : uuid) (db : DB)
    : list LearningRecords.Row :=
  LearningRecords.with_duration
    (filter (fun r => negb (String.eqb (LearningRecords.id r) learningRecordId))
       (LearningRecords.of_enrollment enrollmentId (learning_records db))).

Definition cumulativeLearningMinutes (learningRecordId : uuid)
    (existingRecord : LearningRecords.Row) (validatedData : LearningRecordUpdateSchema)
    (db : DB) : option Z :=
  match sessionDurationMinutes existingRecord validatedData with
  | Some d =>
      if negb (option_Z_eqb (Some d) (LearningRecords.session_duration_minutes existingRecord))
      then
        let otherTotalMinutes :=
          LearningRecords.total_minutes
            (otherRecords learningRecordId
               (LearningRecords.enrollment_id existingRecord) db) in
        Some (otherTotalMinutes + d)
      else None
  | None => None
  end.

Definition updateData (now : Instant) (learningRecordId : uuid)
    (existingRecord : LearningRecords.Row) (validatedData : LearningRecordUpdateSchema)
    (db : DB) : LearningRecords.Update :=
  {| LearningRecords.u_session_end_time := lu_session_end_time validatedData;
     LearningRecords.u_session_duration_minutes :=
       sessionDurationMinutes existingRecord validatedData;
     LearningRecords.u_cumulative_learning_minutes :=
       cumulativeLearningMinutes learningRecordId existingRecord validatedData db;
     LearningRecords.u_progress_percentage := lu_progress_percentage validatedData;
     LearningRecords.u_understanding_level := lu_understanding_level validatedData;
     LearningRecords.u_learning_memo := lu_learning_memo validatedData;
     LearningRecords.u_updated_at := Some now |}.

(** The enrollment update that follows the record update when the patch
    carries a progress percentage. *)
Definition enrollmentUpdateData (now : Instant) (progress_percentage : Z)
    : Enrollments.Update :=
  let enrollmentUpdateData :=
    Enrollments.set_progress_percentage progress_percentage (Enrollments.touched now) in
  if progress_percentage =? 100
  then Enrollments.set_completed_at now
         (Enrollments.set_status completed enrollmentUpdateData)
  else enrollmentUpdateData.

Definition PUT_handler (env : Env) (learningRecordId : uuid)
    (validatedData : LearningRecordUpdateSchema) (session : Session) (db : DB)
    : Response LearningRecords.Row * DB :=
  if negb (learningRecordUpdateSchema validatedData) then (Failure ValidationFailed, db)
  else
    match single (filter (fun r => String.eqb (LearningRecords.id r) learningRecordId)
                    (learning_records db)) with
    | None => (Failure NotFound, db)
    | Some existingRecord =>
        if negb (isAdmin (Some session))
           && negb (String.eqb (LearningRecords.learner_id existingRecord)
                      (id (user session)))
        then (Failure Forbidden, db)
        else if outsideEditWindow (now env) session existingRecord
        then (Failure StaleEditWindow, db)
        else
          let updateData :=
            updateData (now env) learningRecordId existingRecord validatedData db in
          let updatedRecord := LearningRecords.apply updateData existingRecord in
          let db :=
            set_learning_records
              (LearningRecords.update_eq_id updateData learningRecordId
                 (learning_records db)) db in
          let db :=
            match lu_progress_percentage validatedData with
            | Some p =>
                set_enrollments
                  (Enrollments.update_eq_id (enrollmentUpdateData (now env) p)
                     (LearningRecords.enrollment_id existingRecord)
                     (enrollments db)) db
            | None => db
            end in
          (Success 200 updatedRecord, db)
    end.

Definition PUT (getServerSession : option Session) (env : Env) (learningRecordId : uuid)
    (validatedData : LearningRecordUpdateSchema) (db : DB)
    : Response LearningRecords.Row * DB :=
  withAuth getServerSession (PUT_handler env learningRecordId validatedData) db.

(** After the row is gone: when it had a truthy duration, the total of
    the remaining rows with a duration is written onto the latest
    remaining row of the enrollment, provided some row with a duration
    remains. *)
Definition recomputeAfterDelete (existingRecord : LearningRecords.Row)
    (rows : list LearningRecords.Row) : list LearningRecords.Row :=
  if truthy_number (LearningRecords.session_duration_minutes existingRecord)
  then
    let remainingRecords :=
      LearningRecords.with_duration
        (LearningRecords.of_enrollment
           (LearningRecords.enrollment_id existingRecord) rows) in
    let newCumulativeMinutes := LearningRecords.total_minutes remainingRecords in
    if (0 <? Z.of_nat (List.length remainingRecords))
    then
      match LearningRecords.latest
              (LearningRecords.of_enrollment
                 (LearningRecords.enrollment_id existingRecord) rows) with
      | Some latestRecord =>
          LearningRecords.update_eq_id
            (LearningRecords.only_cumulative newCumulativeMinutes)
            (LearningRecords.id latestRecord) rows
      | None => rows
      end
    else rows
  else rows.

Definition DELETE_handler (env : Env) (learningRecordId : uuid)
    (session : Session) (db : DB) : Response unit * DB :=
  match single (filter (fun r => String.eqb (LearningRecords.id r) learningRecordId)
                  (learning_records db)) with
  | None => (Failure NotFound, db)
  | Some existingRecord =>
      if negb (isAdmin (Some session))
         && negb (String.eqb (LearningRecords.learner_id existingRecord)
                    (id (user session)))
      then (Failure Forbidden, db)
      else if outsideEditWindow (now env) session existingRecord
      then (Failure StaleEditWindow, db)
      else
        let rows :=
          filter (fun r => negb (String.eqb (LearningRecords.id r) learningRecordId))
            (learning_records db) in
        (Success 200 tt,
         set_learning_records (recomputeAfterDelete existingRecord rows) db)
  end.

Definition DELETE (getServerSession : option Session) (env : Env)
    (learningRecordId : uuid) (db : DB) : Response unit * DB :=
  withAuth getServerSession (DELETE_handler env learningRecordId) db.

(** The access check runs with the handler's own session, so the server
    session is not awaited again; a check that says no is a 403, whether
    or not the record exists. *)
Definition GET_handler (learningRecordId : uuid) (session : Session) (db : DB)
    : Response LearningRecords.Row * DB :=
  match canAccessLearningRecord learningRecordId (Some session) Thrown (Resolved db) with
  | Resolved true =>
      match single (filter (fun r => String.eqb (LearningRecords.id r) learningRecordId)
                      (learning_records db)) with
      | Some learningRecord => (Success 200 learningRecord, db)
      | None => (Failure NotFound, db)
      end
  | Resolved false => (Failure Forbidden, db)
  | Thrown => (Failure StoreFailed, db)
  end.

Definition GET (getServerSession : option Session) (learningRecordId : uuid) (db : DB)
    : Response LearningRecords.Row * DB :=
  withAuth getServerSession (GET_handler learningRecordId) db.

End LearningRecordsIdRoute.

(** ** The exposed operations *)

Inductive Request : Type :=
| CreateEnrollment (body : Validations.EnrollmentCreateSchema)
| UpdateEnrollmentProgress (enrollmentId : uuid) (body : Validations.EnrollmentUpdateSchema)
| GetEnrollment (enrollmentId : uuid)
| CreateLearningRecord (body : Validations.LearningRecordCreateSchema)
| UpdateLearningRecord (learningRecordId : uuid) (body : Validations.LearningRecordUpdateSchema)
| DeleteLearningRecord (learningRecordId : uuid).

(** One request: who sends it, what it reads from outside, what it asks. *)
Record Call : Type := {
  caller : option Session;
  env : Env;
  request : Request
}.

(** The store a request leaves behind. *)
Definition step (c : Call) (db : DB) : DB :=
  match request c with
  | CreateEnrollment body => snd (EnrollmentsRoute.POST (caller c) (env c) body db)
  | UpdateEnrollmentProgress i body =>
      snd (EnrollmentsIdRoute.PUT (caller c) (env c) i body db)
  | GetEnrollment i => snd (EnrollmentsIdRoute.GET (caller c) i db)
  | CreateLearningRecord body => snd (LearningRecordsRoute.POST (caller c) (env c) body db)
  | UpdateLearningRecord i body =>
      snd (LearningRecordsIdRoute.PUT (caller c) (env c) i body db)
  | DeleteLearningRecord i => snd (LearningRecordsIdRoute.DELETE (caller c) (env c) i db)
  end.

(** Requests served one after the other. *)
Definition run (calls : list Call) (db : DB) : DB :=
  fold_left (fun d c => step c d) calls db.

(** An operation is rejected when it answers with an error and leaves the
    store as it found it. *)
Definition rejected {A : Type} (db : DB) (result : Response A * DB) : Prop :=
  (exists error, fst result = Failure error) /\ snd result = db.

(** The enrollment with a given identifier, as [.eq("id", i).single()]
    reads it. *)
Definition getEnrollment (i : uuid) (db : DB) : option Enrollments.Row :=
  single (filter (fun e => String.eqb (Enrollments.id e) i) (enrollments db)).

Definition getRecord (i : uuid) (db : DB) : option LearningRecords.Row :=
  single (filter (fun r => String.eqb (LearningRecords.id r) i) (learning_records db)).

(** The enrollment a new learning record refers to, as the creation reads
    it: [.eq("id", ...).eq("learner_id", ...).eq("course_id", ...).single()]. *)
Definition enrollmentOfRecord (body : Validations.LearningRecordCreateSchema) (db : DB)
    : option Enrollments.Row :=
  single
    (filter
       (fun e =>
          String.eqb (Enrollments.id e) (Validations.lc_enrollment_id body)
          && String.eqb (Enrollments.learner_id e) (Validations.lc_learner_id body)
          && String.eqb (Enrollments.course_id e) (Validations.lc_course_id body))
       (enrollments db)).

(** The caller may act on rows owned by [owner]: an admin, or the owner. *)
Definition mayActFor (session : Session) (owner : uuid) : Prop :=
  role (user session) = admin \/ owner = id (user session).

(** The spec's running total: the sum of [sessionDurationMinutes] over the
    learning records of an enrollment, an absent duration counting 0. *)
Definition sum_of_durations (enrollmentId : uuid) (rows : list LearningRecords.Row) : Z :=
  fold_right
    (fun r acc => or_zero (LearningRecords.session_duration_minutes r) + acc) 0
    (LearningRecords.of_enrollment enrollmentId rows).

(** A write to the enrollment table made with the admin's unrestricted
    rights: the creation of an enrollment or a direct update by an admin. *)
Definition privileged_write (c : Call) : bool :=
  match request c with
  | CreateEnrollment _ | UpdateEnrollmentProgress _ _ => AuthHelpers.isAdmin (caller c)
  | _ => false
  end.

(** An enrollment that enters [completed] does so with full progress and a
    completion date. *)
Definition completes_consistently (e e' : Enrollments.Row) : Prop :=
  Enrollments.status e <> completed ->
  Enrollments.status e' = completed ->
  Enrollments.progress_percentage e' = Some 100
  /\ Enrollments.completed_at e' <> None.

(** An update object that writes [completed] writes progress 100 and a
    completion date with it. *)
Definition consistent_update (u : Enrollments.Update) : Prop :=
  Enrollments.u_status u = Some completed ->
  Enrollments.u_progress_percentage u = Some 100
  /\ Enrollments.u_completed_at u <> None.

(** The two halves of the invariant on one enrollment. *)
Definition completed_has_date (e : Enrollments.Row) : Prop :=
  Enrollments.status e = completed -> Enrollments.completed_at e <> None.

Definition completed_has_full_progress (e : Enrollments.Row) : Prop :=
  Enrollments.status e = completed -> Enrollments.progress_percentage e = Some 100.

(** What a request carrying the progress value [p] keeps of the invariant
    on an enrollment, from the row [e] it finds to the row [e'] it
    leaves: the completion date of a completed enrollment always; full
    progress and a completion date when the enrollment enters
    [completed]; and the full progress of a completed enrollment unless
    the request carries another progress value. *)
Definition keeps_completion (p : option Z) (e e' : Enrollments.Row) : Prop :=
  (completed_has_date e -> completed_has_date e')
  /\ completes_consistently e e'
  /\ (p = None \/ p = Some 100 ->
      completed_has_full_progress e -> completed_has_full_progress e').

(** The progress an update object may carry for a request with progress
    [p]: none, the request's, or 100. *)
Definition writes_progress (p : option Z) (u : Enrollments.Update) : Prop :=
  Enrollments.u_progress_percentage u = None
  \/ Enrollments.u_progress_percentage u = p
  \/ Enrollments.u_progress_percentage u = Some 100.

(** The reconciliation invariant for one enrollment: the latest record of
    the enrollment, when there is one, carries the sum of the durations of
    all its records. *)
Definition reconciled (enrollmentId : uuid) (db : DB) : Prop :=
  forall r,
    LearningRecords.latest
      (LearningRecords.of_enrollment enrollmentId (learning_records db)) = Some r ->
    LearningRecords.cumulative_learning_minutes r
    = Some (sum_of_durations enrollmentId (learning_records db)).

(** ** Sample data *)

Module Sample.
Import Validations.

Definition learner1 : Session := {| user := {| id := "learner-1"; role := learner |} |}.
Definition learner2 : Session := {| user := {| id := "learner-2"; role := learner |} |}.
Definition admin1 : Session := {| user := {| id := "admin-1"; role := admin |} |}.

(** 2024-01-02T00:00:00Z is day 19724; [day d] is noon of that day plus [d]. *)
Definition day (d : Z) : Instant := (19724 + d) * 86400000 + 43200000.

Definition at_time (t : Instant) (i : uuid) : Env := {| now := t; gen_id := i |}.

Definition enrollment1 (st : EnrollmentStatus) (p : option Z) : Enrollments.Row :=
  {| Enrollments.id := "enrollment-1";
     Enrollments.learner_id := "learner-1";
     Enrollments.course_id := "course-1";
     Enrollments.status := st;
     Enrollments.progress_percentage := p;
     Enrollments.assigned_by := Some "admin-1";
     Enrollments.assigned_at := Some (day 0);
     Enrollments.started_at := None;
     Enrollments.completed_at := None;
     Enrollments.due_date := None;
     Enrollments.created_at := Some (day 0);
     Enrollments.updated_at := Some (day 0) |}.

Definition record1 (i : uuid) (start : Instant) (minutes : option Z) (total : Z)
    (created : Instant) : LearningRecords.Row :=
  {| LearningRecords.id := i;
     LearningRecords.enrollment_id := "enrollment-1";
     LearningRecords.course_id := "course-1";
     LearningRecords.learner_id := "learner-1";
     LearningRecords.session_start_time := start;
     LearningRecords.session_end_time := None;
     LearningRecords.session_duration_minutes := minutes;
     LearningRecords.session_date := iso_date start;
     LearningRecords.progress_percentage := None;
     LearningRecords.understanding_level := None;
     LearningRecords.learning_memo := None;
     LearningRecords.cumulative_learning_minutes := Some total;
     LearningRecords.created_at := Some created;
     LearningRecords.updated_at := Some created |}.

(** One learner, one active course, and nothing else. *)
Definition empty_store : DB :=
  {| users := [ {| Users.id := "learner-1"; Users.role := Some learner |};
                {| Users.id := "learner-2"; Users.role := Some learner |};
                {| Users.id := "admin-1"; Users.role := Some admin |} ];
     courses := [ {| Courses.id := "course-1"; Courses.is_active := Some true |} ];
     enrollments := [];
     learning_records := [] |}.

Definition store (st : EnrollmentStatus) (p : option Z) (rows : list LearningRecords.Row)
    : DB :=
  set_learning_records rows (set_enrollments [enrollment1 st p] empty_store).

Definition enrollmentPatch (st : option EnrollmentStatus) (p : option Z)
    (started completed_ : option Instant) : EnrollmentUpdateSchema :=
  {| eu_progress_percentage := p; eu_status := st; eu_due_date := None;
     eu_started_at := started; eu_completed_at := completed_ |}.

Definition newRecord (start : Instant) (finish : option Instant) (minutes p : option Z)
    : LearningRecordCreateSchema :=
  {| lc_enrollment_id := "enrollment-1"; lc_course_id := "course-1";
     lc_learner_id := "learner-1"; lc_session_start_time := start;
     lc_session_end_time := finish; lc_session_duration_minutes := minutes;
     lc_progress_percentage := p; lc_understanding_level := None;
     lc_learning_memo := None |}.

Definition recordPatch (finish : option Instant) (minutes p : option Z)
    : LearningRecordUpdateSchema :=
  {| lu_session_end_time := finish; lu_session_duration_minutes := minutes;
     lu_progress_percentage := p; lu_understanding_level := None;
     lu_learning_memo := None |}.

End Sample.

(** ** Role-restricted routes *)

Definition set_users (rows : list Users.Row) (db : DB) : DB :=
  {| users := rows; courses := courses db;
     enrollments := enrollments db; learning_records := learning_records db |}.

Definition set_courses (rows : list Courses.Row) (db : DB) : DB :=
  {| users := users db; courses := rows;
     enrollments := enrollments db; learning_records := learning_records db |}.

(** What the admin-only deletions of users and courses answer beyond the
    common errors. *)
Inductive Refusal : Type :=
| Common (error : ApiError)
| OwnAccount            (* 自分自身を削除することはできません, 400 *)
| HasEnrollments        (* ...受講割り当てが存在する / 受講者が割り当てられているため削除できません, 409 *)
| HasLearningRecords.   (* ...学習記録が存在するため削除できません, 409 *)

(** [None] is the 200 answer. *)
Definition Deletion : Type := (option Refusal * DB)%type.

(** ** [src/app/api/courses/[id]/route.ts] *)

Module CoursesIdRoute.

(** [DELETE]: admin only; refused while an enrollment or a learning
    record refers to the course. *)
Definition DELETE (getServerSession : option Session) (courseId : uuid) (db : DB)
    : Deletion :=
  match getServerSession with
  | None => (Some (Common Unauthorized), db)
  | Some session =>
      if negb (AuthHelpers.isAdmin (Some session)) then (Some (Common Forbidden), db)
      else
        match single (filter (fun c => String.eqb (Courses.id c) courseId) (courses db)) with
        | None => (Some (Common NotFound), db)
        | Some existingCourse =>
            let enrollments_ :=
              firstn 1
                (filter (fun e => String.eqb (Enrollments.course_id e) courseId)
                   (enrollments db)) in
            if (0 <? Z.of_nat (List.length enrollments_)) then (Some HasEnrollments, db)
            else
              let learningRecords :=
                firstn 1
                  (filter (fun r => String.eqb (LearningRecords.course_id r) courseId)
                     (learning_records db)) in
              if (0 <? Z.of_nat (List.length learningRecords))
              then (Some HasLearningRecords, db)
              else
                (None,
                 set_courses
                   (filter (fun c => negb (String.eqb (Courses.id c) courseId))
                      (courses db)) db)
        end
  end.

End CoursesIdRoute.

(** ** [src/app/api/users/[id]/route.ts] *)

Module UsersIdRoute.

(** [DELETE], under [withAdminAuth], that is [withAuth] with
    [requireRole: "admin"]: 401 without a session, 403 for another role.
    An admin cannot delete the account they are signed in with, nor a user
    who still has enrollments or learning records. *)
Definition DELETE (getServerSession : option Session) (userId : uuid) (db : DB)
    : Deletion :=
  match getServerSession with
  | None => (Some (Common Unauthorized), db)
  | Some session =>
      if negb (AuthHelpers.hasRole (Some session) admin)
      then (Some (Common InsufficientRole), db)
      else if String.eqb userId (id (user session)) then (Some OwnAccount, db)
      else
        match single (filter (fun u => String.eqb (Users.id u) userId) (users db)) with
        | None => (Some (Common NotFound), db)
        | Some existingUser =>
            let enrollments_ :=
              firstn 1
                (filter (fun e => String.eqb (Enrollments.learner_id e) userId)
                   (enrollments db)) in
            if (0 <? Z.of_nat (List.length enrollments_)) then (Some HasEnrollments, db)
            else
              let learningRecords :=
                firstn 1
                  (filter (fun r => String.eqb (LearningRecords.learner_id r) userId)
                     (learning_records db)) in
              if (0 <? Z.of_nat (List.length learningRecords))
              then (Some HasLearningRecords, db)
              else
                (None,
                 set_users
                   (filter (fun u => negb (String.eqb (Users.id u) userId))
                      (users db)) db)
        end
  end.

End UsersIdRoute.

(** ** [src/lib/api-helpers.ts] *)

Module ApiHelpers.

Record PaginationMeta : Type := {
  total : Z;
  page : Z;
  limit : Z;
  totalPages : Z;
  hasNext : bool;
  hasPrev : bool
}.

(** [Math.ceil(total / limit)]: the ceiling of a quotient of integers is
    the negated floor of the negated quotient ([limit] is not 0: the query
    schemas require [limit >= 1]). *)
Definition ceil_div (total limit : Z) : Z := - ((- total) / limit).

Definition calculatePagination (total page limit : Z) : PaginationMeta :=
  let totalPages := ceil_div total limit in
  {| total := total;
     page := page;
     limit := limit;
     totalPages := totalPages;
     hasNext := page <? totalPages;
     hasPrev := 1 <? page |}.

(** A date argument of [validateDateRange]: absent (or the empty string),
    or a string that [new Date] parses to an instant or to an invalid
    date, whose time is [NaN]. *)
Inductive DateArg : Type :=
| Absent
| InvalidDate
| ValidDate (t : Instant).

Inductive DateRangeError : Type :=
| FromAfterTo        (* 開始日は終了日より前である必要があります *)
| LongerThanAYear.   (* 日付範囲は1年以内で指定してください *)

Definition oneYearMs : Z := 365 * 24 * 60 * 60 * 1000.

(** Comparisons with [NaN] are false, so an invalid date passes. *)
Definition validateDateRange (dateFrom dateTo : DateArg) : option DateRangeError :=
  match dateFrom, dateTo with
  | ValidDate from, ValidDate to =>
      if to <? from then Some FromAfterTo
      else if oneYearMs <? to - from then Some LongerThanAYear
      else None
  | _, _ => None
  end.

End ApiHelpers.

(** ** [src/middleware.ts] *)

Module Middleware.

Inductive Decision : Type :=
| next
| redirect (path : string).

Definition protectedRoutes : list string :=
  ["/dashboard"; "/admin"; "/learner"; "/courses"; "/users"; "/learning-records"; "/items"].

Definition adminOnlyRoutes : list string :=
  ["/admin"; "/users"; "/courses/create"; "/courses/edit"; "/courses/assign"].

Definition learnerOnlyRoutes : list string :=
  ["/learner"; "/learning-records/create"; "/learning-records/edit"].

(** [routes.some((route) => pathname.startsWith(route))] *)
Definition startsWithSome (routes : list string) (pathname : string) : bool :=
  existsb (fun route => String.prefix route pathname) routes.

Definition dashboardUrl (userRole : UserRole) : string :=
  if UserRole_eqb userRole admin then "/admin" else "/learner".

(** The decision for one page request; a redirect is given by the path it
    points to on the same origin. *)
Definition middleware (pathname : string) (session : option Session) : Decision :=
  let isProtectedRoute := startsWithSome protectedRoutes pathname in
  let isAdminOnlyRoute := startsWithSome adminOnlyRoutes pathname in
  let isLearnerOnlyRoute := startsWithSome learnerOnlyRoutes pathname in
  let isLoginPage := String.eqb pathname "/login" in
  match session with
  | Some s =>
      let userRole := role (user s) in
      if isLoginPage then redirect (dashboardUrl userRole)
      else if isAdminOnlyRoute && negb (UserRole_eqb userRole admin)
      then redirect "/learner"
      else if isLearnerOnlyRoute && negb (UserRole_eqb userRole learner)
      then redirect "/admin"
      else if String.eqb pathname "/" || String.eqb pathname "/dashboard"
      then redirect (dashboardUrl userRole)
      else next
  | None =>
      if isProtectedRoute then redirect "/login" else next
  end.

End Middleware.

(** ** Operations beyond the learner-facing requests *)

Inductive Operation : Type :=
| Serve (c : Call)
| DeleteEnrollment (caller : option Session) (enrollmentId : uuid)
| DeleteCourse (caller : option Session) (courseId : uuid)
| DeleteUser (caller : option Session) (userId : uuid).

Definition perform (o : Operation) (db : DB) : DB :=
  match o with
  | Serve c => step c db
  | DeleteEnrollment s i => snd (EnrollmentsIdRoute.DELETE s i db)
  | DeleteCourse s i => snd (CoursesIdRoute.DELETE s i db)
  | DeleteUser s i => snd (UsersIdRoute.DELETE s i db)
  end.

Definition perform_all (ops : list Operation) (db : DB) : DB :=
  fold_left (fun d o => perform o d) ops db.

(** The error a response carries, if any. *)
Definition error_of {A : Type} (r : Response A) : option ApiError :=
  match r with
  | Failure e => Some e
  | Success _ _ => None
  end.

(** Whether an operation is refused, whatever the error. *)
Definition refused (o : Operation) (db : DB) : bool :=
  match o with
  | Serve c =>
      match request c with
      | CreateEnrollment body =>
          is_some (error_of (fst (EnrollmentsRoute.POST (caller c) (env c) body db)))
      | UpdateEnrollmentProgress i body =>
          is_some (error_of (fst (EnrollmentsIdRoute.PUT (caller c) (env c) i body db)))
      | GetEnrollment i =>
          is_some (error_of (fst (EnrollmentsIdRoute.GET (caller c) i db)))
      | CreateLearningRecord body =>
          is_some (error_of (fst (LearningRecordsRoute.POST (caller c) (env c) body db)))
      | UpdateLearningRecord i body =>
          is_some (error_of (fst (LearningRecordsIdRoute.PUT (caller c) (env c) i body db)))
      | DeleteLearningRecord i =>
          is_some (error_of (fst (LearningRecordsIdRoute.DELETE (caller c) (env c) i db)))
      end
  | DeleteEnrollment s i => is_some (error_of (fst (EnrollmentsIdRoute.DELETE s i db)))
  | DeleteCourse s i => is_some (fst (CoursesIdRoute.DELETE s i db))
  | DeleteUser s i => is_some (fst (UsersIdRoute.DELETE s i db))
  end.

(** ** The order that keeps the running totals right *)

(** A duration that adds nothing to the sum: absent, or 0. *)
Definition counts_nothing (duration : option Z) : bool := or_zero duration =? 0.

(** The record is the one [.order("session_start_time", { ascending:
    false }).limit(1)] returns for its enrollment. *)
Definition is_latest (r : LearningRecords.Row) (rows : list LearningRecords.Row) : bool :=
  match LearningRecords.latest
          (LearningRecords.of_enrollment (LearningRecords.enrollment_id r) rows) with
  | Some l => String.eqb (LearningRecords.id l) (LearningRecords.id r)
  | None => false
  end.

(** The latest record of the enrollment among [rows], when there is one,
    carries the sum of the durations of the enrollment's records. *)
Definition carries_total (enrollmentId : uuid) (rows : list LearningRecords.Row) : bool :=
  match LearningRecords.latest (LearningRecords.of_enrollment enrollmentId rows) with
  | Some l =>
      option_Z_eqb (LearningRecords.cumulative_learning_minutes l)
        (Some (sum_of_durations enrollmentId rows))
  | None => true
  end.

(** The delete of [r] recomputes: [r] has a truthy duration and a
    remaining record of its enrollment has a duration. *)
Definition recomputes (r : LearningRecords.Row) (remaining : list LearningRecords.Row)
    : bool :=
  truthy_number (LearningRecords.session_duration_minutes r)
  && (0 <? Z.of_nat
             (List.length
                (LearningRecords.with_duration
                   (LearningRecords.of_enrollment (LearningRecords.enrollment_id r)
                      remaining)))).

(** The order a request has to keep for the running totals to stay
    right.  A request that is refused keeps it.  Of the others,
    - a new record starts after every record its enrollment already has,
      or counts nothing;
    - an update that changes what a record counts aims at the latest
      record of its enrollment;
    - a delete recomputes, or removes a record that counts nothing and is
      not the latest, or removes the latest record when the latest of the
      others carries their total. *)
Definition ordered (c : Call) (db : DB) : bool :=
  refused (Serve c) db
  || match request c with
     | CreateLearningRecord body =>
         forallb
           (fun r => LearningRecords.session_start_time r
                     <? Validations.lc_session_start_time body)
           (LearningRecords.of_enrollment (Validations.lc_enrollment_id body)
              (learning_records db))
         || counts_nothing (LearningRecordsRoute.sessionDurationMinutes body)
     | UpdateLearningRecord i body =>
         match getRecord i db with
         | Some r =>
             is_latest r (learning_records db)
             || (or_zero (override (LearningRecordsIdRoute.sessionDurationMinutes r body)
                            (LearningRecords.session_duration_minutes r))
                 =? or_zero (LearningRecords.session_duration_minutes r))
         | None => true
         end
     | DeleteLearningRecord i =>
         match getRecord i db with
         | Some r =>
             let remaining :=
               filter (fun x => negb (String.eqb (LearningRecords.id x) i))
                 (learning_records db) in
             recomputes r remaining
             || (negb (is_latest r (learning_records db))
                 && counts_nothing (LearningRecords.session_duration_minutes r))
             || (is_latest r (learning_records db)
                 && carries_total (LearningRecords.enrollment_id r) remaining)
         | None => true
         end
     | _ => true
     end.

(** The enrollment whose learning records a request is about. *)
Definition enrollment_touched (c : Call) (db : DB) : option uuid :=
  match request c with
  | CreateLearningRecord body => Some (Validations.lc_enrollment_id body)
  | UpdateLearningRecord i _ | DeleteLearningRecord i =>
      option_map LearningRecords.enrollment_id (getRecord i db)
  | _ => None
  end.

(** The order as far as one enrollment goes: requests about other
    enrollments, and requests about none, are free. *)
Definition ordered_in (enrollmentId : uuid) (c : Call) (db : DB) : bool :=
  match enrollment_touched c db with
  | Some touched => negb (String.eqb touched enrollmentId) || ordered c db
  | None => true
  end.


(** ** Well-formedness of the store *)

(** At most one enrollment per learner and course. *)
Definition one_enrollment_per_pair (db : DB) : Prop :=
  forall learnerId courseId : uuid,
    (List.length
       (filter
          (fun e =>
             String.eqb (Enrollments.learner_id e) learnerId
             && String.eqb (Enrollments.course_id e) courseId)
          (enrollments db)) <= 1)%nat.

(** Every learning record refers to an enrollment of the same learner in
    the same course. *)
Definition records_refer_to_enrollments (db : DB) : Prop :=
  forall r,
    In r (learning_records db) ->
    exists e,
      In e (enrollments db)
      /\ Enrollments.id e = LearningRecords.enrollment_id r
      /\ Enrollments.learner_id e = LearningRecords.learner_id r
      /\ Enrollments.course_id e = LearningRecords.course_id r.

(** The learner and the course of every enrollment are rows of the store:
    a user has the identifier in [learner_id], a course the one in
    [course_id].  The column [assigned_by] is not followed. *)
Definition enrollments_refer_to_learners_and_courses (db : DB) : Prop :=
  forall e,
    In e (enrollments db) ->
    (exists u, In u (users db) /\ Users.id u = Enrollments.learner_id e)
    /\ (exists c, In c (courses db) /\ Courses.id c = Enrollments.course_id e).

(** Identifiers are unique in the two tables the handlers write. *)
Definition unique_keys (db : DB) : Prop :=
  NoDup (map Enrollments.id (enrollments db))
  /\ NoDup (map LearningRecords.id (learning_records db)).

(** The rows that do not belong to a given learner. *)
Definition enrollments_of_others (learnerId : uuid) (db : DB) : list Enrollments.Row :=
  filter (fun e => negb (String.eqb (Enrollments.learner_id e) learnerId)) (enrollments db).

Definition records_of_others (learnerId : uuid) (db : DB) : list LearningRecords.Row :=
  filter (fun r => negb (String.eqb (LearningRecords.learner_id r) learnerId))
    (learning_records db).

(** ** What the learner paths may write *)

(** The status and the due date an update object of the learner paths
    may carry. *)
Definition learner_kind (u : Enrollments.Update) : Prop :=
  Enrollments.u_due_date u = None
  /\ (Enrollments.u_status u = None
      \/ Enrollments.u_status u = Some in_progress
      \/ Enrollments.u_status u = Some completed).

(** What no request other than an admin's own enrollment write does to an
    enrollment. *)
Definition kept_from_learners (e e' : Enrollments.Row) : Prop :=
  (Enrollments.status e' = cancelled -> Enrollments.status e = cancelled)
  /\ (Enrollments.status e' = assigned -> Enrollments.status e = assigned)
  /\ Enrollments.due_date e' = Enrollments.due_date e
  /\ Enrollments.learner_id e' = Enrollments.learner_id e
  /\ Enrollments.course_id e' = Enrollments.course_id e
  /\ Enrollments.assigned_by e' = Enrollments.assigned_by e
  /\ Enrollments.assigned_at e' = Enrollments.assigned_at e.

(** The progress value a request carries, if any. *)
Definition request_progress (r : Request) : option Z :=
  match r with
  | UpdateEnrollmentProgress _ body => Validations.eu_progress_percentage body
  | CreateLearningRecord body => Validations.lc_progress_percentage body
  | UpdateLearningRecord _ body => Validations.lu_progress_percentage body
  | _ => None
  end.

(** An enrollment enters [completed] on evidence of full progress. *)
Definition completes_on_evidence (p : option Z) (e e' : Enrollments.Row) : Prop :=
  Enrollments.status e <> completed ->
  Enrollments.status e' = completed ->
  p = Some 100 \/ Enrollments.progress_percentage e = Some 100.

(** ** components/ui/pagination.tsx *)

Module PaginationComponent.

(** An entry of the page list: a page number or the string ["ellipsis"]. *)
Inductive PageItem : Type :=
| page (n : Z)
| ellipsis.

Definition PageItem_eqb (a b : PageItem) : bool :=
  match a, b with
  | page n, page m => n =? m
  | ellipsis, ellipsis => true
  | _, _ => false
  end.

(** [for (let i = from; i <= to; i++) pages.push(i)] *)
Definition pushRange (from to : Z) (pages : list PageItem) : list PageItem :=
  pages ++ map (fun k => page (from + Z.of_nat k)) (seq 0 (Z.to_nat (to - from + 1))).

(** [new Set(pages)] spread into an array: a set keeps its values in the
    order of their first insertion, and adding a value it has does
    nothing; the string ["ellipsis"] is a value like any other. *)
Definition Set_add (set : list PageItem) (value : PageItem) : list PageItem :=
  if existsb (PageItem_eqb value) set then set else set ++ [value].

Definition Set_of (pages : list PageItem) : list PageItem :=
  fold_left Set_add pages [].

(** The callback of [filter] looks at [arr[index - 1]], the entry before
    [page] in the array that is being filtered. *)
Fixpoint filter_adjacent (before : option PageItem) (arr : list PageItem)
    : list PageItem :=
  match arr with
  | [] => []
  | item :: rest =>
      let keep :=
        match item with
        | ellipsis => true
        | page _ =>
            match before with
            | None => true
            | Some previous => negb (PageItem_eqb previous item)
            end
        end in
      (if keep then [item] else []) ++ filter_adjacent (Some item) rest
  end.

Definition generatePageNumbers (currentPage totalPages showSiblings : Z)
    : list PageItem :=
  let pages := [page 1] in
  let pages :=
    if currentPage <=? showSiblings + 2 then
      let pages := pushRange 2 (Z.min totalPages (showSiblings + 3)) pages in
      if totalPages >? showSiblings + 3
      then pages ++ [ellipsis] ++ [page totalPages]
      else pages
    else if currentPage >=? totalPages - showSiblings - 1 then
      let pages :=
        if totalPages >? showSiblings + 3 then pages ++ [ellipsis] else pages in
      pushRange (Z.max 2 (totalPages - showSiblings - 2)) totalPages pages
    else
      let pages := pages ++ [ellipsis] in
      let pages := pushRange (currentPage - showSiblings) (currentPage + showSiblings)
                     pages in
      pages ++ [ellipsis] ++ [page totalPages] in
  filter_adjacent None (Set_of pages).

(** What the component shows: nothing for a single page, otherwise the
    page list between a previous and a next button. *)
Record Rendered : Type := {
  previousDisabled : bool;
  pageNumbers : list PageItem;
  nextDisabled : bool
}.

Definition Pagination (currentPage totalPages showSiblings : Z) : option Rendered :=
  if totalPages <=? 1 then None
  else
    Some {| previousDisabled := currentPage <=? 1;
            pageNumbers := generatePageNumbers currentPage totalPages showSiblings;
            nextDisabled := currentPage >=? totalPages |}.

(** The page numbers of a list, in order. *)
Definition numbers (pages : list PageItem) : list Z :=
  flat_map (fun item => match item with page n => [n] | ellipsis => [] end) pages.

Definition ellipses (pages : list PageItem) : nat :=
  List.length (filter (PageItem_eqb ellipsis) pages).

(** Consecutive page numbers. *)
Definition consecutive (from to : Z) : list Z :=
  map (fun k => from + Z.of_nat k) (seq 0 (Z.to_nat (to - from + 1))).

(** A list of the component: increasing page numbers that start with 1,
    contain the given pages, and at most one ellipsis. *)
Record well_formed (currentPage totalPages : Z) (pages : list PageItem) : Prop := {
  first_page : hd_error pages = Some (page 1);
  current_page : In (page currentPage) pages;
  last_page : In (page totalPages) pages;
  increasing : StronglySorted Z.lt (numbers pages);
  within : forall n, In (page n) pages -> 1 <= n <= totalPages;
  one_ellipsis : (ellipses pages <= 1)%nat
}.

End PaginationComponent.

(** ** Theorems *)

(** *** Selections and updates *)

Lemma single_map :
  forall (A B : Type) (f : A -> B) (l : list A),
    single (map f l) = option_map f (single l).
Proof.
  intros A B f [|a [|b l]]; reflexivity.
Qed.

Lemma filter_none :
  forall (A : Type) (p : A -> bool) (l : list A),
    (forall x, In x l -> p x = false) -> filter p l = [].
Proof.
  intros A p l; induction l as [|a l IH]; intros H; simpl.
  - reflexivity.
  - rewrite (H a (or_introl eq_refl)). apply IH.
    intros x Hx. apply H. right. exact Hx.
Qed.

Lemma single_In :
  forall (A : Type) (p : A -> bool) (l : list A) (a : A),
    single (filter p l) = Some a -> In a l /\ p a = true.
Proof.
  intros A p l a H.
  apply filter_In.
  destruct (filter p l) as [|x [|y t]]; simpl in H; try discriminate.
  injection H as ->. left. reflexivity.
Qed.

Lemma enrollments_filter_update_eq_id :
  forall (u : Enrollments.Update) (i : uuid) (rows : list Enrollments.Row),
    filter (fun e => String.eqb (Enrollments.id e) i) (Enrollments.update_eq_id u i rows)
    = map (Enrollments.apply u) (filter (fun e => String.eqb (Enrollments.id e) i) rows).
Proof.
  intros u i rows. unfold Enrollments.update_eq_id.
  induction rows as [|r rows IH]; simpl.
  - reflexivity.
  - destruct (String.eqb (Enrollments.id r) i) eqn:E; simpl.
    + rewrite E. simpl. f_equal. exact IH.
    + rewrite E. exact IH.
Qed.

Lemma getEnrollment_update_eq_id :
  forall (u : Enrollments.Update) (i : uuid) (db : DB) (e : Enrollments.Row),
    getEnrollment i db = Some e ->
    getEnrollment i (set_enrollments (Enrollments.update_eq_id u i (enrollments db)) db)
    = Some (Enrollments.apply u e).
Proof.
  intros u i db e H. unfold getEnrollment in *. simpl.
  rewrite enrollments_filter_update_eq_id, single_map, H. reflexivity.
Qed.

Lemma isAdmin_learner :
  forall session : Session,
    role (user session) = learner -> AuthHelpers.isAdmin (Some session) = false.
Proof.
  intros session H. unfold AuthHelpers.isAdmin. rewrite H. reflexivity.
Qed.

Lemma isAdmin_admin :
  forall session : Session,
    role (user session) = admin -> AuthHelpers.isAdmin (Some session) = true.
Proof.
  intros session H. unfold AuthHelpers.isAdmin. rewrite H. reflexivity.
Qed.

(** *** Authorization *)

(** C9: for an unauthenticated caller [canAccessResource] and
    [canAccessCourse] resolve to [false] for every resource owner and every
    course, whatever the store holds or does, and neither throws. *)
Theorem C9_unauthenticated_access_denied :
  forall (session : option Session) (getServerSession : Outcome (option Session)),
    AuthHelpers.unauthenticated session getServerSession ->
    forall (resourceUserId courseId : string) (store : Outcome DB),
      AuthHelpers.canAccessResource resourceUserId session getServerSession
        = Resolved false
      /\ AuthHelpers.canAccessCourse courseId session getServerSession store
        = Resolved false.
Proof.
  intros session getServerSession [Hs Hg] resourceUserId courseId store.
  subst session getServerSession.
  split; reflexivity.
Qed.

Lemma C9_unauthenticated_access_denied_witness :
  AuthHelpers.canAccessResource "u1" None (Resolved None) = Resolved false
  /\ AuthHelpers.canAccessCourse "c1" None (Resolved None) Thrown = Resolved false.
Proof.
  apply (@C9_unauthenticated_access_denied None (Resolved None)).
  split; reflexivity.
Defined.

(** C10: a learner who asks for an enrollment that is not theirs gets
    NotFound, and the response is the one they get from a store in which
    no enrollment has that identifier. *)
Theorem C10_foreign_enrollment_not_found :
  forall (session : Session) (enrollmentId : uuid) (db db' : DB),
    role (user session) = learner ->
    (forall e, In e (enrollments db) ->
               Enrollments.id e = enrollmentId ->
               Enrollments.learner_id e <> id (user session)) ->
    (forall e, In e (enrollments db') -> Enrollments.id e <> enrollmentId) ->
    EnrollmentsIdRoute.GET (Some session) enrollmentId db = (Failure NotFound, db)
    /\ fst (EnrollmentsIdRoute.GET (Some session) enrollmentId db)
       = fst (EnrollmentsIdRoute.GET (Some session) enrollmentId db').
Proof.
  intros session enrollmentId db db' Hrole Hforeign Habsent.
  assert (Hdb : EnrollmentsIdRoute.GET (Some session) enrollmentId db
                = (Failure NotFound, db)).
  { unfold EnrollmentsIdRoute.GET, withAuth, EnrollmentsIdRoute.GET_handler.
    rewrite (isAdmin_learner session Hrole). simpl.
    rewrite (@filter_none _ _ (filter _ (enrollments db))); [reflexivity|].
    intros e He. apply filter_In in He. destruct He as [He Hid].
    apply String.eqb_eq in Hid. apply String.eqb_neq. apply Hforeign; assumption. }
  split; [exact Hdb|]. rewrite Hdb.
  unfold EnrollmentsIdRoute.GET, withAuth, EnrollmentsIdRoute.GET_handler.
  rewrite (isAdmin_learner session Hrole). simpl.
  rewrite (@filter_none _ (fun e => String.eqb (Enrollments.id e) enrollmentId)
             (enrollments db')); [reflexivity|].
  intros e He. apply String.eqb_neq. apply Habsent. exact He.
Qed.

Lemma C10_foreign_enrollment_not_found_witness :
  EnrollmentsIdRoute.GET (Some Sample.learner2) "enrollment-1"
    (Sample.store in_progress (Some 40) [])
  = (Failure NotFound, Sample.store in_progress (Some 40) [])
  /\ fst (EnrollmentsIdRoute.GET (Some Sample.learner2) "enrollment-1"
            (Sample.store in_progress (Some 40) []))
     = fst (EnrollmentsIdRoute.GET (Some Sample.learner2) "enrollment-1" Sample.empty_store).
Proof.
  apply (@C10_foreign_enrollment_not_found Sample.learner2 "enrollment-1"
           (Sample.store in_progress (Some 40) []) Sample.empty_store).
  - reflexivity.
  - intros e [He|[]] _. subst e. simpl. discriminate.
  - intros e [].
Defined.

(** *** Enrollment state machine *)

(** C2, as stated, fails: a learner who asks for [completed] with progress
    100 on an [assigned] enrollment is answered 200, and the progress is
    written although the status is not. *)
Lemma C2_counterexample :
  let result :=
    EnrollmentsIdRoute.PUT (Some Sample.learner1)
      (Sample.at_time (Sample.day 1) "unused") "enrollment-1"
      (Sample.enrollmentPatch (Some completed) (Some 100) None None)
      (Sample.store assigned (Some 0) []) in
  ~ rejected (Sample.store assigned (Some 0) []) result
  /\ option_map (fun e => (Enrollments.status e, Enrollments.progress_percentage e))
       (getEnrollment "enrollment-1" (snd result))
     = Some (assigned, Some 100).
Proof.
  split.
  - intros [[error Herror] _]. vm_compute in Herror. discriminate Herror.
  - vm_compute. reflexivity.
Qed.

(** C2, amended: on an [assigned] enrollment a learner's request for
    [completed] that carries no completion date is accepted, never
    rejected; the requested status is dropped (the status stays [assigned],
    or becomes [in_progress] when a start date is sent along), the
    completion date is untouched, and a supplied progress value is stored. *)
Theorem C2_learner_completed_request_is_dropped :
  forall (session : Session) (env : Env) (enrollmentId : uuid)
         (body : Validations.EnrollmentUpdateSchema) (db : DB) (e : Enrollments.Row),
    role (user session) = learner ->
    getEnrollment enrollmentId db = Some e ->
    Enrollments.learner_id e = id (user session) ->
    Enrollments.status e = assigned ->
    Validations.enrollmentUpdateSchema body = true ->
    Validations.eu_status body = Some completed ->
    Validations.eu_completed_at body = None ->
    exists (e' : Enrollments.Row) (db' : DB),
      EnrollmentsIdRoute.PUT (Some session) env enrollmentId body db = (Success 200 e', db')
      /\ getEnrollment enrollmentId db' = Some e'
      /\ Enrollments.status e'
         = (if is_some (Validations.eu_started_at body) then in_progress else assigned)
      /\ Enrollments.started_at e'
         = override (Validations.eu_started_at body) (Enrollments.started_at e)
      /\ Enrollments.completed_at e' = Enrollments.completed_at e
      /\ Enrollments.progress_percentage e'
         = override (Validations.eu_progress_percentage body)
             (Enrollments.progress_percentage e).
Proof.
  intros session env enrollmentId body db e Hrole Hget Hown Hst Hvalid Hreq Hnone.
  unfold EnrollmentsIdRoute.PUT, withAuth, EnrollmentsIdRoute.PUT_handler.
  unfold getEnrollment in Hget.
  rewrite Hvalid, Hget, (isAdmin_learner session Hrole), Hown, String.eqb_refl.
  cbn [negb andb].
  eexists. eexists. split; [reflexivity|].
  split.
  { apply getEnrollment_update_eq_id. exact Hget. }
  unfold EnrollmentsIdRoute.learnerUpdateData.
  rewrite Hreq, Hnone, Hst. simpl.
  destruct (Validations.eu_progress_percentage body) as [p|];
    destruct (Validations.eu_started_at body) as [t|]; simpl;
    repeat split; try reflexivity; rewrite Hst; reflexivity.
Qed.

Lemma C2_learner_completed_request_is_dropped_witness :
  exists (e' : Enrollments.Row) (db' : DB),
    EnrollmentsIdRoute.PUT (Some Sample.learner1)
      (Sample.at_time (Sample.day 1) "unused") "enrollment-1"
      (Sample.enrollmentPatch (Some completed) (Some 100) None None)
      (Sample.store assigned (Some 0) [])
    = (Success 200 e', db')
    /\ getEnrollment "enrollment-1" db' = Some e'
    /\ Enrollments.status e' = assigned
    /\ Enrollments.started_at e' = None
    /\ Enrollments.completed_at e' = None
    /\ Enrollments.progress_percentage e' = Some 100.
Proof.
  apply (@C2_learner_completed_request_is_dropped Sample.learner1
           (Sample.at_time (Sample.day 1) "unused") "enrollment-1"
           (Sample.enrollmentPatch (Some completed) (Some 100) None None)
           (Sample.store assigned (Some 0) [])
           (Sample.enrollment1 assigned (Some 0))); reflexivity.
Defined.

(** C7, on the code: a [cancelled] enrollment leaves its terminal state
    through two learner requests.  The enrollment update accepts a
    completion date with progress 100 whatever the current status, and the
    learning-record update propagates progress 100 without the check for
    [cancelled] that the creation of a record makes. *)
Lemma C7_cancelled_enrollment_completed_by_learner :
  option_map Enrollments.status
    (getEnrollment "enrollment-1"
       (step {| caller := Some Sample.learner1;
                env := Sample.at_time (Sample.day 1) "unused";
                request :=
                  UpdateEnrollmentProgress "enrollment-1"
                    (Sample.enrollmentPatch None (Some 100) None (Some (Sample.day 1))) |}
          (Sample.store cancelled (Some 40) [])))
  = Some completed
  /\ option_map Enrollments.status
       (getEnrollment "enrollment-1"
          (step {| caller := Some Sample.learner1;
                   env := Sample.at_time (Sample.day 1) "unused";
                   request :=
                     UpdateLearningRecord "record-1"
                       (Sample.recordPatch None None (Some 100)) |}
             (Sample.store cancelled (Some 40)
                [Sample.record1 "record-1" (Sample.day 1) (Some 30) 30 (Sample.day 1)])))
     = Some completed
  /\ fst (LearningRecordsRoute.POST (Some Sample.learner1)
            (Sample.at_time (Sample.day 1) "record-2")
            (Sample.newRecord (Sample.day 1) None (Some 30) (Some 100))
            (Sample.store cancelled (Some 40) []))
     = Failure CancelledEnrollment.
Proof.
  repeat split; vm_compute; reflexivity.
Qed.

(** C8, on the code: for an [assigned] enrollment and progress 40 the
    creation of a record moves the enrollment to [in_progress] and stamps
    [started_at], the update of a record leaves it [assigned] and
    unstarted; with progress 100 both complete the enrollment, but only
    the creation stamps [started_at]. *)
Lemma C8_update_skips_first_study_transition :
  let db :=
    Sample.store assigned (Some 0)
      [Sample.record1 "record-1" (Sample.day 1) (Some 30) 30 (Sample.day 1)] in
  let created :=
    step {| caller := Some Sample.learner1;
            env := Sample.at_time (Sample.day 1) "record-2";
            request :=
              CreateLearningRecord
                (Sample.newRecord (Sample.day 1) None (Some 30) (Some 40)) |} db in
  let updated :=
    step {| caller := Some Sample.learner1;
            env := Sample.at_time (Sample.day 1) "unused";
            request :=
              UpdateLearningRecord "record-1" (Sample.recordPatch None None (Some 40)) |}
      db in
  option_map (fun e => (Enrollments.status e, Enrollments.started_at e,
                        Enrollments.progress_percentage e))
    (getEnrollment "enrollment-1" created)
  = Some (in_progress, Some (Sample.day 1), Some 40)
  /\ option_map (fun e => (Enrollments.status e, Enrollments.started_at e,
                           Enrollments.progress_percentage e))
       (getEnrollment "enrollment-1" updated)
     = Some (assigned, None, Some 40)
  /\ Enrollments.apply
       (LearningRecordsRoute.updateData (Sample.day 1)
          (Sample.enrollment1 assigned (Some 0)) 40)
       (Sample.enrollment1 assigned (Some 0))
     <> Enrollments.apply
          (LearningRecordsIdRoute.enrollmentUpdateData (Sample.day 1) 40)
          (Sample.enrollment1 assigned (Some 0))
  /\ (let e := Sample.enrollment1 assigned (Some 0) in
      let by_create :=
        Enrollments.apply (LearningRecordsRoute.updateData (Sample.day 1) e 100) e in
      let by_update :=
        Enrollments.apply (LearningRecordsIdRoute.enrollmentUpdateData (Sample.day 1) 100) e in
      (Enrollments.status by_create, Enrollments.started_at by_create)
      = (completed, Some (Sample.day 1))
      /\ (Enrollments.status by_update, Enrollments.started_at by_update)
         = (completed, None)).
Proof.
  repeat split; try (vm_compute; reflexivity).
  vm_compute. discriminate.
Qed.

(** C3, as stated, fails: an admin may create an enrollment that is
    [completed] from the start, with no progress and no completion date;
    and a learner's new record with progress 40 lowers the progress of a
    [completed] enrollment. *)
Lemma C3_counterexample :
  (exists e,
      In e (enrollments
              (run [ {| caller := Some Sample.admin1;
                        env := Sample.at_time (Sample.day 0) "enrollment-1";
                        request :=
                          CreateEnrollment
                            {| Validations.ec_learner_id := "learner-1";
                               Validations.ec_course_id := "course-1";
                               Validations.ec_due_date := None;
                               Validations.ec_status := Some completed |} |} ]
                 Sample.empty_store))
      /\ Enrollments.status e = completed
      /\ ~ (Enrollments.progress_percentage e = Some 100
            /\ Enrollments.completed_at e <> None))
  /\ (exists e,
         In e (enrollments
                 (run [ {| caller := Some Sample.admin1;
                           env := Sample.at_time (Sample.day 0) "enrollment-1";
                           request :=
                             CreateEnrollment
                               {| Validations.ec_learner_id := "learner-1";
                                  Validations.ec_course_id := "course-1";
                                  Validations.ec_due_date := None;
                                  Validations.ec_status := None |} |};
                        {| caller := Some Sample.learner1;
                           env := Sample.at_time (Sample.day 1) "record-1";
                           request :=
                             CreateLearningRecord
                               (Sample.newRecord (Sample.day 1) None (Some 30) (Some 100)) |};
                        {| caller := Some Sample.learner1;
                           env := Sample.at_time (Sample.day 2) "record-2";
                           request :=
                             CreateLearningRecord
                               (Sample.newRecord (Sample.day 2) None (Some 30) (Some 40)) |} ]
                    Sample.empty_store))
         /\ Enrollments.status e = completed
         /\ ~ (Enrollments.progress_percentage e = Some 100
               /\ Enrollments.completed_at e <> None)).
Proof.
  split.
  - eexists. split; [vm_compute; left; reflexivity|].
    split; [reflexivity|]. intros [_ H]. apply H. reflexivity.
  - eexists. split; [vm_compute; left; reflexivity|].
    split; [reflexivity|]. intros [H _]. discriminate H.
Qed.

Lemma completes_consistently_refl :
  forall e, completes_consistently e e.
Proof.
  intros e H1 H2. contradiction.
Qed.

Lemma completes_consistently_apply :
  forall u e, consistent_update u -> completes_consistently e (Enrollments.apply u e).
Proof.
  intros u e Hu Hold Hnew. unfold consistent_update in Hu.
  simpl in Hnew |- *.
  destruct (Enrollments.u_status u) as [s|].
  - subst s. destruct (Hu eq_refl) as [Hp Hc]. rewrite Hp.
    destruct (Enrollments.u_completed_at u); [|contradiction].
    split; [reflexivity|discriminate].
  - contradiction.
Qed.

Lemma consistent_learnerUpdateData :
  forall now e body,
    consistent_update
      (EnrollmentsIdRoute.learnerUpdateData now e body (Enrollments.touched now)).
Proof.
  intros now e body. unfold consistent_update, EnrollmentsIdRoute.learnerUpdateData.
  destruct (Validations.eu_progress_percentage body) as [p|];
    destruct (Validations.eu_status body) as [[| | |]|];
    destruct (Enrollments.status e);
    destruct (Validations.eu_started_at body) as [ts|];
    destruct (Validations.eu_completed_at body) as [tc|];
    cbn [EnrollmentStatus_eqb andb orb];
    repeat match goal with
           | |- context [option_Z_eqb ?a ?b] => destruct (option_Z_eqb a b)
           end;
    cbn; intros H; try discriminate H; split; try reflexivity; discriminate.
Qed.

Lemma consistent_create_updateData :
  forall now e p, consistent_update (LearningRecordsRoute.updateData now e p).
Proof.
  intros now e p. unfold consistent_update, LearningRecordsRoute.updateData.
  destruct (p =? 100) eqn:Hp.
  - apply Z.eqb_eq in Hp. subst p.
    destruct (EnrollmentStatus_eqb (Enrollments.status e) assigned); cbn;
      intros _; split; [reflexivity|discriminate|reflexivity|discriminate].
  - destruct (EnrollmentStatus_eqb (Enrollments.status e) assigned); cbn;
      intros H; discriminate H.
Qed.

Lemma consistent_enrollmentUpdateData :
  forall now p, consistent_update (LearningRecordsIdRoute.enrollmentUpdateData now p).
Proof.
  intros now p. unfold consistent_update, LearningRecordsIdRoute.enrollmentUpdateData.
  destruct (p =? 100) eqn:Hp; cbn.
  - apply Z.eqb_eq in Hp. subst p. intros _. split; [reflexivity|discriminate].
  - intros H. discriminate H.
Qed.

Ltac split_handler :=
  repeat match goal with
         | |- context [match single ?l with _ => _ end] => destruct (single l)
         | |- context [match Users.role ?u with _ => _ end] =>
             destruct (Users.role u) as [[|]|]
         | |- context [match Validations.lc_progress_percentage ?b with _ => _ end] =>
             destruct (Validations.lc_progress_percentage b)
         | |- context [match Validations.lu_progress_percentage ?b with _ => _ end] =>
             destruct (Validations.lu_progress_percentage b)
         | |- context [if ?b then _ else _] => destruct b
         end.

Lemma keeps_completion_refl : forall p e, keeps_completion p e e.
Proof.
  intros p e. split; [|split]; auto using completes_consistently_refl.
Qed.

Lemma keeps_completion_apply :
  forall p u e,
    consistent_update u -> writes_progress p u ->
    keeps_completion p e (Enrollments.apply u e).
Proof.
  intros p u e Hu Hp. split; [|split].
  - unfold completed_has_date. cbn [Enrollments.apply Enrollments.status
                                     Enrollments.completed_at].
    intros Hdate Hst. unfold consistent_update in Hu.
    destruct (Enrollments.u_status u) as [s|].
    + subst s. destruct (Hu eq_refl) as [_ Hc].
      destruct (Enrollments.u_completed_at u); [discriminate|contradiction].
    + destruct (Enrollments.u_completed_at u); [discriminate|]. exact (Hdate Hst).
  - apply completes_consistently_apply. exact Hu.
  - unfold completed_has_full_progress. cbn [Enrollments.apply Enrollments.status
                                              Enrollments.progress_percentage].
    intros Hreq Hfull Hst. unfold consistent_update in Hu.
    destruct (Enrollments.u_status u) as [s|].
    + subst s. destruct (Hu eq_refl) as [Hw _]. rewrite Hw. reflexivity.
    + destruct Hp as [Hw|[Hw|Hw]]; rewrite Hw; cbn [override].
      * exact (Hfull Hst).
      * destruct Hreq as [->| ->]; [exact (Hfull Hst)|reflexivity].
      * reflexivity.
Qed.

Lemma keeps_completion_update_eq_id :
  forall p u i rows,
    consistent_update u -> writes_progress p u ->
    Forall2 (keeps_completion p) rows (Enrollments.update_eq_id u i rows).
Proof.
  intros p u i rows Hu Hp. unfold Enrollments.update_eq_id.
  induction rows as [|r rows IH]; cbn [map]; constructor; [|exact IH].
  destruct (String.eqb (Enrollments.id r) i).
  - apply keeps_completion_apply; assumption.
  - apply keeps_completion_refl.
Qed.

Lemma keeps_completion_same :
  forall p rows, Forall2 (keeps_completion p) rows rows.
Proof.
  intros p rows. induction rows; constructor; auto using keeps_completion_refl.
Qed.

Lemma writes_progress_learnerUpdateData :
  forall now e body,
    writes_progress (Validations.eu_progress_percentage body)
      (EnrollmentsIdRoute.learnerUpdateData now e body (Enrollments.touched now)).
Proof.
  intros now e body. unfold writes_progress, EnrollmentsIdRoute.learnerUpdateData.
  destruct (Validations.eu_progress_percentage body) as [p|];
    destruct (Validations.eu_status body) as [[| | |]|];
    destruct (Enrollments.status e);
    destruct (Validations.eu_started_at body) as [ts|];
    destruct (Validations.eu_completed_at body) as [tc|];
    cbn [EnrollmentStatus_eqb andb orb];
    repeat match goal with
           | |- context [option_Z_eqb ?a ?b] => destruct (option_Z_eqb a b)
           end;
    cbn; auto.
Qed.

Lemma writes_progress_create :
  forall now e p, writes_progress (Some p) (LearningRecordsRoute.updateData now e p).
Proof.
  intros now e p. unfold writes_progress, LearningRecordsRoute.updateData.
  destruct (EnrollmentStatus_eqb (Enrollments.status e) assigned);
    destruct (p =? 100); cbn; auto.
Qed.

Lemma writes_progress_update :
  forall now p,
    writes_progress (Some p) (LearningRecordsIdRoute.enrollmentUpdateData now p).
Proof.
  intros now p. unfold writes_progress, LearningRecordsIdRoute.enrollmentUpdateData.
  destruct (p =? 100); cbn; auto.
Qed.

(** C3, amended: on every path other than an admin's own write to the
    enrollment table -- a learner's enrollment update, and the creation,
    update or deletion of a learning record by anyone -- a completed
    enrollment keeps its completion date; an enrollment that enters
    [completed] has progress 100 and a completion date; and a completed
    enrollment keeps progress 100 unless the request carries another
    progress value. *)
Theorem C3_completion_is_kept_outside_admin_writes :
  forall (c : Call) (db : DB),
    privileged_write c = false ->
    Forall2 (keeps_completion (request_progress (request c)))
      (enrollments db) (enrollments (step c db)).
Proof.
  intros [[session|] clock [body|i body|i|body|i body|i]] db Hpriv;
    unfold privileged_write in Hpriv; cbn [request caller] in Hpriv;
    unfold step; cbn [request caller env request_progress];
    try apply keeps_completion_same.
  - unfold EnrollmentsRoute.POST, withAuth, EnrollmentsRoute.POST_handler.
    rewrite Hpriv. apply keeps_completion_same.
  - unfold EnrollmentsIdRoute.PUT, withAuth, EnrollmentsIdRoute.PUT_handler.
    rewrite Hpriv. split_handler; cbn [snd enrollments set_enrollments];
      try apply keeps_completion_same.
    apply keeps_completion_update_eq_id;
      [apply consistent_learnerUpdateData|apply writes_progress_learnerUpdateData].
  - unfold EnrollmentsIdRoute.GET, withAuth, EnrollmentsIdRoute.GET_handler.
    split_handler; apply keeps_completion_same.
  - unfold LearningRecordsRoute.POST, withAuth, LearningRecordsRoute.POST_handler.
    destruct (Validations.lc_progress_percentage body) as [p|];
      split_handler; cbn [snd enrollments set_enrollments set_learning_records];
      try apply keeps_completion_same.
    apply keeps_completion_update_eq_id;
      [apply consistent_create_updateData|apply writes_progress_create].
  - unfold LearningRecordsIdRoute.PUT, withAuth, LearningRecordsIdRoute.PUT_handler.
    destruct (Validations.lu_progress_percentage body) as [p|];
      split_handler; cbn [snd enrollments set_enrollments set_learning_records];
      try apply keeps_completion_same.
    apply keeps_completion_update_eq_id;
      [apply consistent_enrollmentUpdateData|apply writes_progress_update].
  - unfold LearningRecordsIdRoute.DELETE, withAuth, LearningRecordsIdRoute.DELETE_handler.
    split_handler; apply keeps_completion_same.
Qed.

Lemma C3_completion_is_kept_outside_admin_writes_witness :
  Forall2 (keeps_completion (Some 100))
    (enrollments (Sample.store in_progress (Some 40) []))
    (enrollments
       (step {| caller := Some Sample.learner1;
                env := Sample.at_time (Sample.day 1) "record-1";
                request :=
                  CreateLearningRecord
                    (Sample.newRecord (Sample.day 1) None (Some 30) (Some 100)) |}
          (Sample.store in_progress (Some 40) []))).
Proof.
  apply (C3_completion_is_kept_outside_admin_writes
           {| caller := Some Sample.learner1;
              env := Sample.at_time (Sample.day 1) "record-1";
              request :=
                CreateLearningRecord
                  (Sample.newRecord (Sample.day 1) None (Some 30) (Some 100)) |}
           (Sample.store in_progress (Some 40) [])).
  reflexivity.
Defined.

(** *** Learning-record aggregation *)

Lemma total_minutes_from :
  forall (rows : list LearningRecords.Row) (a : Z),
    fold_left (fun sum record => sum + or_zero (LearningRecords.session_duration_minutes record))
      rows a
    = a + fold_right
            (fun r acc => or_zero (LearningRecords.session_duration_minutes r) + acc) 0 rows.
Proof.
  induction rows as [|r rows IH]; intros a; simpl.
  - lia.
  - rewrite IH. lia.
Qed.

Lemma total_minutes_cons :
  forall r rows,
    LearningRecords.total_minutes (r :: rows)
    = or_zero (LearningRecords.session_duration_minutes r) + LearningRecords.total_minutes rows.
Proof.
  intros r rows. unfold LearningRecords.total_minutes.
  cbn [fold_left]. rewrite !total_minutes_from. lia.
Qed.

Lemma total_minutes_nil : LearningRecords.total_minutes [] = 0.
Proof. reflexivity. Qed.

(** Dropping the rows without a duration does not change the total. *)
Lemma total_minutes_with_duration :
  forall rows,
    LearningRecords.total_minutes (LearningRecords.with_duration rows)
    = LearningRecords.total_minutes rows.
Proof.
  induction rows as [|r rows IH]; [reflexivity|].
  unfold LearningRecords.with_duration in *. simpl.
  destruct (LearningRecords.session_duration_minutes r) as [d|] eqn:Hd; simpl.
  - rewrite !total_minutes_cons, IH. reflexivity.
  - rewrite total_minutes_cons, IH, Hd. reflexivity.
Qed.

Lemma total_minutes_app :
  forall l1 l2,
    LearningRecords.total_minutes (l1 ++ l2)
    = LearningRecords.total_minutes l1 + LearningRecords.total_minutes l2.
Proof.
  induction l1 as [|r l1 IH]; intros l2; cbn [app].
  - rewrite total_minutes_nil. lia.
  - rewrite !total_minutes_cons, IH. lia.
Qed.

Lemma sum_of_durations_total :
  forall e rows,
    sum_of_durations e rows
    = LearningRecords.total_minutes (LearningRecords.of_enrollment e rows).
Proof.
  intros e rows. unfold sum_of_durations, LearningRecords.total_minutes.
  rewrite total_minutes_from. lia.
Qed.

(** What a successful creation returns and leaves behind. *)
Lemma POST_learning_record_success :
  forall getServerSession env body db status r db',
    LearningRecordsRoute.POST getServerSession env body db = (Success status r, db') ->
    r = LearningRecordsRoute.learningRecordData env body db
    /\ learning_records db' = learning_records db ++ [r].
Proof.
  intros [session|] env body db status r db';
    unfold LearningRecordsRoute.POST, withAuth, LearningRecordsRoute.POST_handler;
    [|discriminate].
  split_handler; intros H; try discriminate H;
    injection H as _ <- <-; split; reflexivity.
Qed.

(** C4: the cumulative minutes written on a newly created record are the
    sum of the durations of the records the enrollment already had, an
    absent duration counting 0, plus the new record's own duration. *)
Theorem C4_cumulative_minutes_on_create :
  forall (getServerSession : option Session) (env : Env)
         (body : Validations.LearningRecordCreateSchema) (db db' : DB)
         (status : Z) (r : LearningRecords.Row),
    LearningRecordsRoute.POST getServerSession env body db = (Success status r, db') ->
    learning_records db' = learning_records db ++ [r]
    /\ LearningRecords.enrollment_id r = Validations.lc_enrollment_id body
    /\ LearningRecords.cumulative_learning_minutes r
       = Some (sum_of_durations (LearningRecords.enrollment_id r) (learning_records db)
               + or_zero (LearningRecords.session_duration_minutes r)).
Proof.
  intros getServerSession env body db db' status r H.
  apply POST_learning_record_success in H. destruct H as [Hr Hrows].
  split; [exact Hrows|]. subst r. split; [reflexivity|].
  cbn [LearningRecordsRoute.learningRecordData LearningRecords.enrollment_id
       LearningRecords.cumulative_learning_minutes
       LearningRecords.session_duration_minutes].
  unfold LearningRecordsRoute.cumulativeLearningMinutes,
    LearningRecordsRoute.existingRecords.
  rewrite total_minutes_with_duration, sum_of_durations_total. reflexivity.
Qed.

Lemma C4_cumulative_minutes_on_create_witness :
  exists (r : LearningRecords.Row) (db' : DB),
    LearningRecordsRoute.POST (Some Sample.learner1)
      (Sample.at_time (Sample.day 2) "record-3")
      (Sample.newRecord (Sample.day 2) None (Some 20) None)
      (Sample.store in_progress (Some 40)
         [Sample.record1 "record-1" (Sample.day 0) (Some 30) 30 (Sample.day 0);
          Sample.record1 "record-2" (Sample.day 1) None 30 (Sample.day 1)])
    = (Success 201 r, db')
    /\ LearningRecords.cumulative_learning_minutes r = Some 50.
Proof.
  eexists. eexists. split; [vm_compute; reflexivity|].
  pose proof
    (@C4_cumulative_minutes_on_create (Some Sample.learner1)
       (Sample.at_time (Sample.day 2) "record-3")
       (Sample.newRecord (Sample.day 2) None (Some 20) None)
       (Sample.store in_progress (Some 40)
          [Sample.record1 "record-1" (Sample.day 0) (Some 30) 30 (Sample.day 0);
           Sample.record1 "record-2" (Sample.day 1) None 30 (Sample.day 1)])
       _ 201 _ eq_refl) as [_ [_ H]].
  exact H.
Defined.

(** *** Same-day edit window *)

Lemma records_filter_update_eq_id :
  forall (u : LearningRecords.Update) (i : uuid) (rows : list LearningRecords.Row),
    filter (fun r => String.eqb (LearningRecords.id r) i)
      (LearningRecords.update_eq_id u i rows)
    = map (LearningRecords.apply u)
        (filter (fun r => String.eqb (LearningRecords.id r) i) rows).
Proof.
  intros u i rows. unfold LearningRecords.update_eq_id.
  induction rows as [|r rows IH]; simpl.
  - reflexivity.
  - destruct (String.eqb (LearningRecords.id r) i) eqn:E; simpl.
    + rewrite E. simpl. f_equal. exact IH.
    + rewrite E. exact IH.
Qed.

Lemma records_update_eq_id_ids :
  forall (u : LearningRecords.Update) (i : uuid) (rows : list LearningRecords.Row),
    map LearningRecords.id (LearningRecords.update_eq_id u i rows)
    = map LearningRecords.id rows.
Proof.
  intros u i rows. unfold LearningRecords.update_eq_id. rewrite map_map.
  apply map_ext. intros r. destruct (String.eqb (LearningRecords.id r) i); reflexivity.
Qed.

Lemma recomputeAfterDelete_ids :
  forall (r : LearningRecords.Row) (rows : list LearningRecords.Row),
    map LearningRecords.id (LearningRecordsIdRoute.recomputeAfterDelete r rows)
    = map LearningRecords.id rows.
Proof.
  intros r rows. unfold LearningRecordsIdRoute.recomputeAfterDelete.
  destruct (truthy_number _); [|reflexivity].
  destruct (0 <? _); [|reflexivity].
  destruct (LearningRecords.latest _); [|reflexivity].
  apply records_update_eq_id_ids.
Qed.

(** C5: outside the creation day the owning learner can neither update
    nor delete a learning record -- both answer StaleEditWindow and leave
    the store as it was -- while an admin's update and delete go through:
    the update answers 200 with the record that is now stored under the
    same identifier, and the delete leaves no record with that identifier. *)
Theorem C5_same_day_edit_window :
  forall (env : Env) (learningRecordId : uuid) (db : DB) (r : LearningRecords.Row)
         (body : Validations.LearningRecordUpdateSchema),
    getRecord learningRecordId db = Some r ->
    LearningRecordsIdRoute.recordDate r <> iso_date (now env) ->
    Validations.learningRecordUpdateSchema body = true ->
    (forall owner : Session,
        role (user owner) = learner ->
        LearningRecords.learner_id r = id (user owner) ->
        LearningRecordsIdRoute.PUT (Some owner) env learningRecordId body db
        = (Failure StaleEditWindow, db)
        /\ LearningRecordsIdRoute.DELETE (Some owner) env learningRecordId db
           = (Failure StaleEditWindow, db))
    /\ (forall administrator : Session,
           role (user administrator) = admin ->
           (exists r' db',
               LearningRecordsIdRoute.PUT (Some administrator) env learningRecordId body db
               = (Success 200 r', db')
               /\ getRecord learningRecordId db' = Some r')
           /\ (exists db',
                  LearningRecordsIdRoute.DELETE (Some administrator) env learningRecordId db
                  = (Success 200 tt, db')
                  /\ forall x, In x (learning_records db') ->
                               LearningRecords.id x <> learningRecordId)).
Proof.
  intros env i db r body Hget Hdate Hvalid.
  apply Z.eqb_neq in Hdate.
  unfold getRecord in Hget.
  split.
  - intros owner Hrole Hown.
    unfold LearningRecordsIdRoute.PUT, LearningRecordsIdRoute.DELETE, withAuth,
      LearningRecordsIdRoute.PUT_handler, LearningRecordsIdRoute.DELETE_handler,
      LearningRecordsIdRoute.outsideEditWindow.
    rewrite Hvalid, Hget, (isAdmin_learner owner Hrole), Hown, String.eqb_refl, Hdate.
    split; reflexivity.
  - intros administrator Hrole.
    unfold LearningRecordsIdRoute.PUT, LearningRecordsIdRoute.DELETE, withAuth,
      LearningRecordsIdRoute.PUT_handler, LearningRecordsIdRoute.DELETE_handler,
      LearningRecordsIdRoute.outsideEditWindow.
    rewrite Hvalid, Hget, (isAdmin_admin administrator Hrole).
    cbn [negb andb]. split.
    + eexists. eexists. split; [reflexivity|].
      unfold getRecord.
      destruct (Validations.lu_progress_percentage body);
        cbn [learning_records set_learning_records set_enrollments];
        rewrite records_filter_update_eq_id, single_map, Hget; reflexivity.
    + eexists. split; [reflexivity|].
      cbn [learning_records set_learning_records].
      intros x Hx Heq.
      apply (in_map LearningRecords.id) in Hx.
      rewrite recomputeAfterDelete_ids in Hx.
      apply in_map_iff in Hx. destruct Hx as [y [Hy Hin]].
      apply filter_In in Hin. destruct Hin as [_ Hne].
      rewrite Hy, Heq, String.eqb_refl in Hne. discriminate Hne.
Qed.

Lemma C5_same_day_edit_window_witness :
  (LearningRecordsIdRoute.PUT (Some Sample.learner1)
     (Sample.at_time (Sample.day 1) "unused") "record-1"
     (Sample.recordPatch None (Some 45) None)
     (Sample.store in_progress (Some 40)
        [Sample.record1 "record-1" (Sample.day 0) (Some 30) 30 (Sample.day 0)])
   = (Failure StaleEditWindow,
      Sample.store in_progress (Some 40)
        [Sample.record1 "record-1" (Sample.day 0) (Some 30) 30 (Sample.day 0)])
   /\ LearningRecordsIdRoute.DELETE (Some Sample.learner1)
        (Sample.at_time (Sample.day 1) "unused") "record-1"
        (Sample.store in_progress (Some 40)
           [Sample.record1 "record-1" (Sample.day 0) (Some 30) 30 (Sample.day 0)])
      = (Failure StaleEditWindow,
         Sample.store in_progress (Some 40)
           [Sample.record1 "record-1" (Sample.day 0) (Some 30) 30 (Sample.day 0)]))
  /\ (exists r' db',
         LearningRecordsIdRoute.PUT (Some Sample.admin1)
           (Sample.at_time (Sample.day 1) "unused") "record-1"
           (Sample.recordPatch None (Some 45) None)
           (Sample.store in_progress (Some 40)
              [Sample.record1 "record-1" (Sample.day 0) (Some 30) 30 (Sample.day 0)])
         = (Success 200 r', db')
         /\ getRecord "record-1" db' = Some r').
Proof.
  destruct
    (@C5_same_day_edit_window (Sample.at_time (Sample.day 1) "unused") "record-1"
       (Sample.store in_progress (Some 40)
          [Sample.record1 "record-1" (Sample.day 0) (Some 30) 30 (Sample.day 0)])
       (Sample.record1 "record-1" (Sample.day 0) (Some 30) 30 (Sample.day 0))
       (Sample.recordPatch None (Some 45) None))
    as [Hlearner Hadmin].
  - reflexivity.
  - vm_compute. discriminate.
  - reflexivity.
  - split.
    + apply (Hlearner Sample.learner1); reflexivity.
    + apply (Hadmin Sample.admin1). reflexivity.
Defined.

(** *** Derived durations *)

Lemma existsb_none :
  forall (A : Type) (p : A -> bool) (l : list A),
    (forall x, In x l -> p x = false) -> existsb p l = false.
Proof.
  intros A p l H. induction l as [|a l IH]; simpl.
  - reflexivity.
  - rewrite (H a (or_introl eq_refl)). apply IH.
    intros x Hx. apply H. right. exact Hx.
Qed.

(** C6: the code diverges from the claim.  A duration of -60 minutes that
    is sent is refused by the schema ([min(1)]) and nothing is written;
    the same -60 minutes derived from an end time one hour before the
    start is not checked: the creation answers 201 and stores the record
    with [session_duration_minutes] -60 and [cumulative_learning_minutes]
    -60, and the update of a 30-minute record stores -60 and a cumulative
    total of -60 as well. *)
Lemma C6_negative_derived_duration_is_stored :
  let db := Sample.store in_progress (Some 40) [] in
  let at_creation := Sample.at_time (Sample.day 1) "record-1" in
  let sent :=
    LearningRecordsRoute.POST (Some Sample.learner1) at_creation
      (Sample.newRecord (Sample.day 1) None (Some (-60)) None) db in
  let derived :=
    LearningRecordsRoute.POST (Some Sample.learner1) at_creation
      (Sample.newRecord (Sample.day 1) (Some (Sample.day 1 - 3600000)) None None) db in
  let db1 :=
    Sample.store in_progress (Some 40)
      [Sample.record1 "record-1" (Sample.day 1) (Some 30) 30 (Sample.day 1)] in
  let at_update := Sample.at_time (Sample.day 1 + 60000) "unused" in
  let sent_update :=
    LearningRecordsIdRoute.PUT (Some Sample.learner1) at_update "record-1"
      (Sample.recordPatch None (Some (-60)) None) db1 in
  let derived_update :=
    LearningRecordsIdRoute.PUT (Some Sample.learner1) at_update "record-1"
      (Sample.recordPatch (Some (Sample.day 1 - 3600000)) None None) db1 in
  sent = (Failure ValidationFailed, db)
  /\ (exists r,
         fst derived = Success 201 r
         /\ getRecord "record-1" (snd derived) = Some r
         /\ LearningRecords.session_duration_minutes r = Some (-60)
         /\ LearningRecords.cumulative_learning_minutes r = Some (-60))
  /\ sent_update = (Failure ValidationFailed, db1)
  /\ (exists r,
         fst derived_update = Success 200 r
         /\ getRecord "record-1" (snd derived_update) = Some r
         /\ LearningRecords.session_duration_minutes r = Some (-60)
         /\ LearningRecords.cumulative_learning_minutes r = Some (-60)).
Proof.
  cbv zeta. split; [vm_compute; reflexivity|].
  split; [eexists; repeat split; vm_compute; reflexivity|].
  split; [vm_compute; reflexivity|].
  eexists; repeat split; vm_compute; reflexivity.
Qed.

(** *** Reconciliation of the running total *)


Lemma latest_In :
  forall rows r, LearningRecords.latest rows = Some r -> In r rows.
Proof.
  induction rows as [|x rows IH]; simpl; intros r H.
  - discriminate H.
  - destruct (LearningRecords.latest rows) as [r'|].
    + destruct (LearningRecords.session_start_time x <? LearningRecords.session_start_time r');
        injection H as <-; [right; apply IH; reflexivity|left; reflexivity].
    + injection H as <-. left. reflexivity.
Qed.

Lemma latest_greatest :
  forall rows r,
    LearningRecords.latest rows = Some r ->
    forall x, In x rows ->
              LearningRecords.session_start_time x <= LearningRecords.session_start_time r.
Proof.
  induction rows as [|y rows IH]; simpl; intros r H x Hx.
  - contradiction.
  - destruct (LearningRecords.latest rows) as [r'|] eqn:Hl.
    + specialize (IH r' eq_refl).
      destruct (Z.ltb_spec (LearningRecords.session_start_time y)
                  (LearningRecords.session_start_time r')) as [Hlt|Hge];
        injection H as <-; destruct Hx as [<-|Hx]; try lia.
      * apply IH. exact Hx.
      * specialize (IH x Hx). lia.
    + injection H as <-. destruct Hx as [<-|Hx]; [lia|].
      destruct rows as [|z rows]; [contradiction|]. simpl in Hl.
      destruct (LearningRecords.latest rows) as [w|];
        [destruct (_ <? _)|]; discriminate Hl.
Qed.

Lemma of_enrollment_In :
  forall e rows x,
    In x (LearningRecords.of_enrollment e rows)
    <-> In x rows /\ LearningRecords.enrollment_id x = e.
Proof.
  intros e rows x. unfold LearningRecords.of_enrollment.
  rewrite filter_In, String.eqb_eq. reflexivity.
Qed.


Lemma getRecord_In :
  forall i db r,
    getRecord i db = Some r -> In r (learning_records db) /\ LearningRecords.id r = i.
Proof.
  intros i db r H. unfold getRecord in H. apply single_In in H.
  destruct H as [Hin Hid]. apply String.eqb_eq in Hid. split; assumption.
Qed.

(** A selection that passes over the rows with identifier [i] does not
    see an update of those rows. *)
Lemma filter_update_eq_id_outside :
  forall (q : LearningRecords.Row -> bool) u i rows,
    (forall x, In x rows -> LearningRecords.id x = i -> q x = false) ->
    (forall x, q (LearningRecords.apply u x) = q x) ->
    filter q (LearningRecords.update_eq_id u i rows) = filter q rows.
Proof.
  intros q u i rows Hout Hq. unfold LearningRecords.update_eq_id.
  induction rows as [|x rows IH]; simpl; [reflexivity|].
  rewrite IH by (intros y Hy; apply Hout; right; exact Hy).
  destruct (String.eqb_spec (LearningRecords.id x) i) as [Hid|Hid].
  - rewrite Hq, (Hout x (or_introl eq_refl) Hid). reflexivity.
  - reflexivity.
Qed.

Lemma filter_remove_outside :
  forall (q : LearningRecords.Row -> bool) i rows,
    (forall x, In x rows -> LearningRecords.id x = i -> q x = false) ->
    filter q (filter (fun r => negb (String.eqb (LearningRecords.id r) i)) rows)
    = filter q rows.
Proof.
  intros q i rows Hout.
  induction rows as [|x rows IH]; simpl; [reflexivity|].
  rewrite <- IH by (intros y Hy; apply Hout; right; exact Hy).
  destruct (String.eqb_spec (LearningRecords.id x) i) as [Hid|Hid]; simpl.
  - rewrite (Hout x (or_introl eq_refl) Hid). reflexivity.
  - reflexivity.
Qed.


Lemma total_minutes_partition :
  forall (p : LearningRecords.Row -> bool) rows,
    LearningRecords.total_minutes rows
    = LearningRecords.total_minutes (filter p rows)
      + LearningRecords.total_minutes (filter (fun x => negb (p x)) rows).
Proof.
  intros p rows. induction rows as [|x rows IH]; [reflexivity|].
  cbn [filter]. destruct (p x); cbn [negb]; rewrite !total_minutes_cons, IH; lia.
Qed.





Lemma existsb_some :
  forall (A : Type) (p : A -> bool) (l : list A) (a : A),
    In a l -> p a = true -> existsb p l = true.
Proof.
  intros A p l a Hin Hp. apply existsb_exists. exists a. split; assumption.
Qed.

Lemma latest_map :
  forall (f : LearningRecords.Row -> LearningRecords.Row) rows,
    (forall x, LearningRecords.session_start_time (f x)
               = LearningRecords.session_start_time x) ->
    LearningRecords.latest (map f rows) = option_map f (LearningRecords.latest rows).
Proof.
  intros f rows Hf. induction rows as [|x rows IH]; [reflexivity|].
  cbn [map LearningRecords.latest]. rewrite IH.
  destruct (LearningRecords.latest rows) as [r|]; cbn [option_map]; [|reflexivity].
  rewrite !Hf. destruct (_ <? _); reflexivity.
Qed.

Lemma latest_app_last :
  forall rows r,
    (forall x, In x rows ->
               LearningRecords.session_start_time x < LearningRecords.session_start_time r) ->
    LearningRecords.latest (rows ++ [r]) = Some r.
Proof.
  intros rows r H. induction rows as [|x rows IH]; [reflexivity|].
  cbn [app LearningRecords.latest].
  rewrite IH by (intros y Hy; apply H; right; exact Hy).
  assert (Hlt := H x (or_introl eq_refl)). apply Z.ltb_lt in Hlt. rewrite Hlt. reflexivity.
Qed.

Lemma of_enrollment_update_eq_id :
  forall e u i rows,
    LearningRecords.of_enrollment e (LearningRecords.update_eq_id u i rows)
    = LearningRecords.update_eq_id u i (LearningRecords.of_enrollment e rows).
Proof.
  intros e u i rows. unfold LearningRecords.of_enrollment, LearningRecords.update_eq_id.
  rewrite filter_map_swap. f_equal. apply filter_ext. intros a.
  destruct (String.eqb (LearningRecords.id a) i); reflexivity.
Qed.

Lemma filter_comm :
  forall (A : Type) (p q : A -> bool) (l : list A),
    filter p (filter q l) = filter q (filter p l).
Proof.
  intros A p q l. induction l as [|a l IH]; [reflexivity|].
  cbn [filter]. destruct (p a) eqn:Hp; destruct (q a) eqn:Hq; cbn [filter];
    rewrite ?Hp, ?Hq, IH; reflexivity.
Qed.

Lemma single_filter_eq :
  forall (A : Type) (l : list A) (a : A), single l = Some a -> l = [a].
Proof.
  intros A [|x [|y l]] a H; try discriminate H. injection H as ->. reflexivity.
Qed.

(** The total of an enrollment after the update of the record [r]: the
    total of the other records plus the duration now stored. *)
Lemma total_after_update :
  forall u i rows r,
    single (filter (fun x => String.eqb (LearningRecords.id x) i) rows) = Some r ->
    LearningRecords.total_minutes
      (LearningRecords.update_eq_id u i
         (LearningRecords.of_enrollment (LearningRecords.enrollment_id r) rows))
    = LearningRecords.total_minutes
        (filter (fun x => negb (String.eqb (LearningRecords.id x) i))
           (LearningRecords.of_enrollment (LearningRecords.enrollment_id r) rows))
      + or_zero (LearningRecords.session_duration_minutes (LearningRecords.apply u r)).
Proof.
  intros u i rows r Hget. apply single_filter_eq in Hget.
  rewrite (total_minutes_partition
             (fun x => String.eqb (LearningRecords.id x) i)
             (LearningRecords.update_eq_id _ _ _)).
  rewrite records_filter_update_eq_id.
  unfold LearningRecords.of_enrollment at 1. rewrite filter_comm, Hget.
  cbn [filter]. rewrite String.eqb_refl. cbn [map].
  rewrite total_minutes_cons, total_minutes_nil.
  rewrite filter_update_eq_id_outside.
  - lia.
  - intros z _ Hz. rewrite Hz, String.eqb_refl. reflexivity.
  - intros z. reflexivity.
Qed.

(** What a successful update and a successful delete leave behind. *)
Lemma PUT_learning_record_success :
  forall getServerSession env i body db status r' db',
    LearningRecordsIdRoute.PUT getServerSession env i body db = (Success status r', db') ->
    exists r,
      getRecord i db = Some r
      /\ r' = LearningRecords.apply
                (LearningRecordsIdRoute.updateData (now env) i r body db) r
      /\ learning_records db'
         = LearningRecords.update_eq_id
             (LearningRecordsIdRoute.updateData (now env) i r body db) i
             (learning_records db).
Proof.
  intros [session|] env i body db status r' db';
    unfold LearningRecordsIdRoute.PUT, withAuth, LearningRecordsIdRoute.PUT_handler,
      getRecord;
    [|discriminate].
  destruct (single _) as [r|]; split_handler; intros H; try discriminate H;
    injection H as _ <- <-; exists r; repeat split.
Qed.

Lemma DELETE_learning_record_success :
  forall getServerSession env i db status u db',
    LearningRecordsIdRoute.DELETE getServerSession env i db = (Success status u, db') ->
    exists r,
      getRecord i db = Some r
      /\ learning_records db'
         = LearningRecordsIdRoute.recomputeAfterDelete r
             (filter (fun x => negb (String.eqb (LearningRecords.id x) i))
                (learning_records db)).
Proof.
  intros [session|] env i db status u db';
    unfold LearningRecordsIdRoute.DELETE, withAuth, LearningRecordsIdRoute.DELETE_handler,
      getRecord;
    [|discriminate].
  destruct (single _) as [r|]; split_handler; intros H; try discriminate H;
    injection H as _ _ <-; exists r; repeat split.
Qed.

Lemma total_minutes_only_cumulative :
  forall v i rows,
    LearningRecords.total_minutes
      (LearningRecords.update_eq_id (LearningRecords.only_cumulative v) i rows)
    = LearningRecords.total_minutes rows.
Proof.
  intros v i rows. induction rows as [|x rows IH]; [reflexivity|].
  unfold LearningRecords.update_eq_id in *. cbn [map].
  rewrite !total_minutes_cons, IH.
  destruct (String.eqb (LearningRecords.id x) i); reflexivity.
Qed.

Lemma option_Z_eqb_eq : forall a b, option_Z_eqb a b = true <-> a = b.
Proof.
  intros [x|] [y|]; cbn; split; intros H; try discriminate H; try reflexivity.
  - apply Z.eqb_eq in H. subst. reflexivity.
  - injection H as ->. apply Z.eqb_refl.
Qed.

Lemma carries_total_reconciled :
  forall e db, carries_total e (learning_records db) = true <-> reconciled e db.
Proof.
  intros e db. unfold carries_total, reconciled.
  destruct (LearningRecords.latest _) as [l|].
  - rewrite option_Z_eqb_eq. split.
    + intros H r Hr. injection Hr as <-. exact H.
    + intros H. apply H. reflexivity.
  - split; [intros _ r Hr; discriminate Hr|reflexivity].
Qed.



Lemma latest_app_earlier :
  forall rows r,
    forallb (fun x => LearningRecords.session_start_time x
                      <? LearningRecords.session_start_time r) rows = false ->
    LearningRecords.latest (rows ++ [r]) = LearningRecords.latest rows.
Proof.
  intros rows r. induction rows as [|x rows IH]; [discriminate|].
  cbn [forallb app LearningRecords.latest]. intros H.
  destruct (forallb _ rows) eqn:Hrest.
  - rewrite andb_true_r in H. apply Z.ltb_ge in H.
    rewrite latest_app_last
      by (intros y Hy; apply Z.ltb_lt; exact (proj1 (forallb_forall _ _) Hrest y Hy)).
    assert (Hx : (LearningRecords.session_start_time x
                  <? LearningRecords.session_start_time r) = false)
      by (apply Z.ltb_ge; exact H).
    rewrite Hx.
    destruct (LearningRecords.latest rows) as [l|] eqn:Hl; [|reflexivity].
    pose proof (proj1 (forallb_forall _ _) Hrest l (latest_In _ _ Hl)) as Hlt.
    apply Z.ltb_lt in Hlt.
    assert (Hxl : (LearningRecords.session_start_time x
                   <? LearningRecords.session_start_time l) = false)
      by (apply Z.ltb_ge; lia).
    rewrite Hxl. reflexivity.
  - rewrite IH by reflexivity. reflexivity.
Qed.

Lemma latest_remove_other :
  forall rows l i,
    LearningRecords.latest rows = Some l ->
    LearningRecords.id l <> i ->
    LearningRecords.latest
      (filter (fun x => negb (String.eqb (LearningRecords.id x) i)) rows) = Some l.
Proof.
  induction rows as [|x rows IH]; intros l i Hl Hne; [discriminate Hl|].
  cbn [LearningRecords.latest] in Hl. cbn [filter].
  destruct (LearningRecords.latest rows) as [l'|] eqn:Hrest.
  - destruct (LearningRecords.session_start_time x
              <? LearningRecords.session_start_time l') eqn:Hlt; injection Hl as <-.
    + specialize (IH l' i eq_refl Hne).
      destruct (negb (String.eqb (LearningRecords.id x) i)); [|exact IH].
      cbn [LearningRecords.latest]. rewrite IH, Hlt. reflexivity.
    + apply String.eqb_neq in Hne. rewrite Hne. cbn [negb LearningRecords.latest].
      destruct (LearningRecords.latest (filter _ rows)) as [l''|] eqn:Hl''; [|reflexivity].
      apply latest_In, filter_In in Hl''. destruct Hl'' as [Hin _].
      pose proof (latest_greatest _ _ Hrest _ Hin) as Hle. apply Z.ltb_ge in Hlt.
      assert (Hx : (LearningRecords.session_start_time x
                    <? LearningRecords.session_start_time l'') = false)
        by (apply Z.ltb_ge; lia).
      rewrite Hx. reflexivity.
  - injection Hl as <-. apply String.eqb_neq in Hne. rewrite Hne.
    cbn [negb LearningRecords.latest].
    destruct rows as [|y rows]; [reflexivity|].
    cbn [LearningRecords.latest] in Hrest.
    destruct (LearningRecords.latest rows); [destruct (_ <? _)|]; discriminate Hrest.
Qed.

(** The sum of an enrollment without the record [r]. *)
Lemma sum_without :
  forall e i rows r,
    single (filter (fun x => String.eqb (LearningRecords.id x) i) rows) = Some r ->
    sum_of_durations e rows
    = sum_of_durations e
        (filter (fun x => negb (String.eqb (LearningRecords.id x) i)) rows)
      + (if String.eqb (LearningRecords.enrollment_id r) e
         then or_zero (LearningRecords.session_duration_minutes r) else 0).
Proof.
  intros e i rows r Hget. apply single_filter_eq in Hget.
  rewrite !sum_of_durations_total.
  rewrite (total_minutes_partition
             (fun x => String.eqb (LearningRecords.id x) i)
             (LearningRecords.of_enrollment e rows)).
  unfold LearningRecords.of_enrollment.
  rewrite (filter_comm _ (fun x => String.eqb (LearningRecords.id x) i)), Hget.
  rewrite (filter_comm _ (fun x => negb (String.eqb (LearningRecords.id x) i))).
  cbn [filter]. destruct (String.eqb (LearningRecords.enrollment_id r) e).
  - rewrite total_minutes_cons, total_minutes_nil. lia.
  - rewrite total_minutes_nil. lia.
Qed.


(** The total after a creation. *)


(** The total after an update. *)




(** The total after a delete. *)





Lemma no_recompute :
  forall r rows,
    recomputes r rows = false ->
    LearningRecordsIdRoute.recomputeAfterDelete r rows = rows.
Proof.
  intros r rows Hre. unfold recomputes in Hre.
  unfold LearningRecordsIdRoute.recomputeAfterDelete.
  destruct (truthy_number _); [|reflexivity].
  cbn [andb] in Hre. rewrite Hre. reflexivity.
Qed.


(** Steps and runs. *)










(** The order is needed. *)

Lemma latest_nonempty :
  forall rows x, In x rows -> exists l, LearningRecords.latest rows = Some l.
Proof.
  intros [|a rows] x Hx; [contradiction|]. cbn [LearningRecords.latest].
  destruct (LearningRecords.latest rows); [destruct (_ <? _)|]; eexists; reflexivity.
Qed.

Lemma not_carried :
  forall e rows l total,
    LearningRecords.latest (LearningRecords.of_enrollment e rows) = Some l ->
    LearningRecords.cumulative_learning_minutes l = Some total ->
    sum_of_durations e rows <> total ->
    carries_total e rows = false.
Proof.
  intros e rows l total Hl Hcum Hne. unfold carries_total. rewrite Hl, Hcum.
  cbn [option_Z_eqb]. apply Z.eqb_neq. intros H. apply Hne. symmetry. exact H.
Qed.

Lemma carried :
  forall e rows l,
    carries_total e rows = true ->
    LearningRecords.latest (LearningRecords.of_enrollment e rows) = Some l ->
    LearningRecords.cumulative_learning_minutes l = Some (sum_of_durations e rows).
Proof.
  intros e rows l H Hl. unfold carries_total in H. rewrite Hl in H.
  apply option_Z_eqb_eq. exact H.
Qed.

Lemma unordered_create_breaks :
  forall rows new,
    carries_total (LearningRecords.enrollment_id new) rows = true ->
    forallb
      (fun x => LearningRecords.session_start_time x
                <? LearningRecords.session_start_time new)
      (LearningRecords.of_enrollment (LearningRecords.enrollment_id new) rows)
    || counts_nothing (LearningRecords.session_duration_minutes new) = false ->
    carries_total (LearningRecords.enrollment_id new) (rows ++ [new]) = false.
Proof.
  intros rows new Hbefore Horder. apply orb_false_iff in Horder.
  destruct Horder as [Hall Hcounts]. unfold counts_nothing in Hcounts.
  apply Z.eqb_neq in Hcounts.
  assert (Hof : LearningRecords.of_enrollment (LearningRecords.enrollment_id new)
                  (rows ++ [new])
                = LearningRecords.of_enrollment (LearningRecords.enrollment_id new) rows
                  ++ [new]).
  { unfold LearningRecords.of_enrollment. rewrite filter_app. cbn [filter].
    rewrite String.eqb_refl. reflexivity. }
  destruct (LearningRecords.latest
              (LearningRecords.of_enrollment (LearningRecords.enrollment_id new) rows))
    as [l|] eqn:Hl.
  - apply (not_carried _ _ l (sum_of_durations (LearningRecords.enrollment_id new) rows)).
    + rewrite Hof, latest_app_earlier by exact Hall. exact Hl.
    + apply carried; assumption.
    + rewrite !sum_of_durations_total, Hof, total_minutes_app, total_minutes_cons,
        total_minutes_nil. lia.
  - destruct (LearningRecords.of_enrollment (LearningRecords.enrollment_id new) rows)
      as [|a l]; [discriminate Hall|].
    cbn [LearningRecords.latest] in Hl.
    destruct (LearningRecords.latest l); [destruct (_ <? _)|]; discriminate Hl.
Qed.

Lemma other_latest :
  forall i rows r,
    single (filter (fun x => String.eqb (LearningRecords.id x) i) rows) = Some r ->
    is_latest r rows = false ->
    exists l,
      LearningRecords.latest
        (LearningRecords.of_enrollment (LearningRecords.enrollment_id r) rows) = Some l
      /\ LearningRecords.id l <> i.
Proof.
  intros i rows r Hget Hlatest.
  pose proof (single_In _ _ _ _ Hget) as [Hr Hri]. apply String.eqb_eq in Hri.
  destruct (latest_nonempty
              (LearningRecords.of_enrollment (LearningRecords.enrollment_id r) rows) r)
    as [l Hl]; [apply of_enrollment_In; split; [exact Hr|reflexivity]|].
  exists l. split; [exact Hl|]. unfold is_latest in Hlatest. rewrite Hl in Hlatest.
  apply String.eqb_neq in Hlatest. rewrite Hri in Hlatest. exact Hlatest.
Qed.

Lemma unordered_update_breaks :
  forall i u rows r,
    single (filter (fun x => String.eqb (LearningRecords.id x) i) rows) = Some r ->
    carries_total (LearningRecords.enrollment_id r) rows = true ->
    is_latest r rows = false ->
    or_zero (LearningRecords.session_duration_minutes (LearningRecords.apply u r))
    <> or_zero (LearningRecords.session_duration_minutes r) ->
    carries_total (LearningRecords.enrollment_id r) (LearningRecords.update_eq_id u i rows)
    = false.
Proof.
  intros i u rows r Hget Hbefore Hlatest Hcounts.
  destruct (other_latest _ _ _ Hget Hlatest) as (l & Hl & Hli).
  apply (not_carried _ _ l (sum_of_durations (LearningRecords.enrollment_id r) rows)).
  - rewrite of_enrollment_update_eq_id. unfold LearningRecords.update_eq_id.
    rewrite latest_map by (intros x; destruct (String.eqb _ _); reflexivity).
    rewrite Hl. cbn [option_map]. apply String.eqb_neq in Hli. rewrite Hli. reflexivity.
  - apply carried; assumption.
  - rewrite (sum_without _ _ _ _ Hget), String.eqb_refl.
    rewrite !sum_of_durations_total, of_enrollment_update_eq_id.
    rewrite (total_after_update _ _ _ _ Hget).
    unfold LearningRecords.of_enrollment.
    rewrite (filter_comm _ (fun x => negb (String.eqb (LearningRecords.id x) i))). lia.
Qed.

Lemma unordered_delete_breaks :
  forall i rows r,
    single (filter (fun x => String.eqb (LearningRecords.id x) i) rows) = Some r ->
    carries_total (LearningRecords.enrollment_id r) rows = true ->
    (negb (is_latest r rows)
     && counts_nothing (LearningRecords.session_duration_minutes r))
    || (is_latest r rows
        && carries_total (LearningRecords.enrollment_id r)
             (filter (fun x => negb (String.eqb (LearningRecords.id x) i)) rows)) = false ->
    carries_total (LearningRecords.enrollment_id r)
      (filter (fun x => negb (String.eqb (LearningRecords.id x) i)) rows) = false.
Proof.
  intros i rows r Hget Hbefore Horder.
  destruct (is_latest r rows) eqn:Hlatest; cbn [negb andb orb] in Horder;
    [exact Horder|].
  rewrite orb_false_r in Horder. unfold counts_nothing in Horder.
  apply Z.eqb_neq in Horder.
  destruct (other_latest _ _ _ Hget Hlatest) as (l & Hl & Hli).
  apply (not_carried _ _ l (sum_of_durations (LearningRecords.enrollment_id r) rows)).
  - unfold LearningRecords.of_enrollment. rewrite filter_comm.
    apply latest_remove_other; assumption.
  - apply carried; assumption.
  - rewrite (sum_without (LearningRecords.enrollment_id r) _ _ _ Hget), String.eqb_refl.
    lia.
Qed.

(** A request that does not keep the order leaves its enrollment
    unreconciled: each condition of [ordered] is needed. *)
Lemma ordered_is_needed :
  forall (enrollmentId : uuid) (c : Call) (db : DB),
    reconciled enrollmentId db ->
    ordered_in enrollmentId c db = false ->
    ~ reconciled enrollmentId (step c db).
Proof.
  intros e c db Hrec Horder. apply carries_total_reconciled in Hrec.
  unfold ordered_in in Horder.
  destruct (enrollment_touched c db) as [touched|] eqn:Htouched; [|discriminate Horder].
  apply orb_false_iff in Horder. destruct Horder as [He Horder].
  apply negb_false_iff, String.eqb_eq in He. subst touched.
  unfold ordered in Horder.
  apply orb_false_iff in Horder. destruct Horder as [Haccepted Horder].
  revert Htouched Haccepted Horder.
  destruct c as [s clock [body|i body|i|body|i body|i]]; intros Htouched Haccepted Horder;
    cbn [request enrollment_touched] in Horder, Htouched; try discriminate Horder;
    unfold refused in Haccepted; cbn [request caller env] in Haccepted;
    unfold step; cbn [request caller env]; intros Hafter;
    apply carries_total_reconciled in Hafter.
  - injection Htouched as <-.
    destruct (LearningRecordsRoute.POST s clock body db) as [[status new|err] db'] eqn:Hpost;
      [|discriminate Haccepted].
    pose proof (POST_learning_record_success _ _ _ _ _ _ _ Hpost) as [Hnew Hrows].
    cbn [snd] in Hafter. rewrite Hrows in Hafter.
    assert (He : LearningRecords.enrollment_id new = Validations.lc_enrollment_id body)
      by (rewrite Hnew; reflexivity).
    rewrite <- He in Hafter. rewrite unordered_create_breaks in Hafter;
      [discriminate Hafter| |].
    + rewrite He. exact Hrec.
    + rewrite He, Hnew. exact Horder.
  - destruct (LearningRecordsIdRoute.PUT s clock i body db) as [[status r'|err] db']
      eqn:Hput; [|discriminate Haccepted].
    apply PUT_learning_record_success in Hput. destruct Hput as (r & Hget & _ & Hrows).
    rewrite Hget in Horder, Htouched. injection Htouched as <-.
    apply orb_false_iff in Horder. destruct Horder as [Hl Hc].
    cbn [snd] in Hafter. rewrite Hrows in Hafter.
    rewrite unordered_update_breaks in Hafter; [discriminate Hafter| | | |].
    + exact Hget.
    + exact Hrec.
    + exact Hl.
    + apply Z.eqb_neq in Hc. exact Hc.
  - destruct (LearningRecordsIdRoute.DELETE s clock i db) as [[status u|err] db']
      eqn:Hdel; [|discriminate Haccepted].
    apply DELETE_learning_record_success in Hdel. destruct Hdel as (r & Hget & Hrows).
    rewrite Hget in Horder, Htouched. injection Htouched as <-. cbv zeta in Horder.
    apply orb_false_iff in Horder. destruct Horder as [Horder Hlatest].
    apply orb_false_iff in Horder. destruct Horder as [Hre Hother].
    cbn [snd] in Hafter. rewrite Hrows, (no_recompute _ _ Hre) in Hafter.
    rewrite unordered_delete_breaks in Hafter; [discriminate Hafter| | |].
    + exact Hget.
    + exact Hrec.
    + rewrite Hother, Hlatest. reflexivity.
Qed.

(** ** Further properties of the handlers *)

(** *** Pagination and date ranges *)

Lemma ceil_div_bounds :
  forall total limit,
    1 <= limit ->
    (ApiHelpers.ceil_div total limit - 1) * limit < total
    /\ total <= ApiHelpers.ceil_div total limit * limit.
Proof.
  intros total limit Hl. unfold ApiHelpers.ceil_div.
  pose proof (Z.div_mod (- total) limit ltac:(lia)) as Hdm.
  pose proof (Z.mod_pos_bound (- total) limit ltac:(lia)) as Hb.
  nia.
Qed.

(** X1: with at least one row per page, the page count is the least
    number of pages that holds all rows, and [hasNext] says exactly that
    rows remain beyond the current page. *)
Theorem X1_pagination_covers_all_rows :
  forall total page limit : Z,
    1 <= limit ->
    (ApiHelpers.totalPages (ApiHelpers.calculatePagination total page limit) - 1) * limit
    < total
    <= ApiHelpers.totalPages (ApiHelpers.calculatePagination total page limit) * limit
    /\ (ApiHelpers.hasNext (ApiHelpers.calculatePagination total page limit) = true
        <-> page * limit < total).
Proof.
  intros total page limit Hl.
  cbn [ApiHelpers.calculatePagination ApiHelpers.totalPages ApiHelpers.hasNext].
  pose proof (ceil_div_bounds total limit Hl) as [Hlo Hhi].
  split; [split; assumption|].
  rewrite Z.ltb_lt. split; intros H; nia.
Qed.

Lemma X1_pagination_covers_all_rows_witness :
  (ApiHelpers.totalPages (ApiHelpers.calculatePagination 45 2 20) - 1) * 20
  < 45
  <= ApiHelpers.totalPages (ApiHelpers.calculatePagination 45 2 20) * 20
  /\ (ApiHelpers.hasNext (ApiHelpers.calculatePagination 45 2 20) = true
      <-> 2 * 20 < 45).
Proof.
  apply (X1_pagination_covers_all_rows 45 2 20). lia.
Defined.

(** X2: a date range is refused exactly when both ends parse to dates
    and the start lies after the end or more than 365 days before it; a
    range open on one side, and a range with an end that does not parse,
    are accepted. *)
Theorem X2_date_range_accepted :
  forall dateFrom dateTo : ApiHelpers.DateArg,
    ApiHelpers.validateDateRange dateFrom dateTo = None
    <-> (forall from to,
            dateFrom = ApiHelpers.ValidDate from -> dateTo = ApiHelpers.ValidDate to ->
            from <= to <= from + 365 * 86400000).
Proof.
  intros [| |f] [| |t]; cbn [ApiHelpers.validateDateRange];
    try (split; [intros _ from to H1 H2; discriminate|reflexivity]).
  unfold ApiHelpers.oneYearMs.
  destruct (Z.ltb_spec t f) as [H1|H1].
  - split; [discriminate|]. intros H. specialize (H f t eq_refl eq_refl). lia.
  - destruct (Z.ltb_spec (365 * 24 * 60 * 60 * 1000) (t - f)) as [H2|H2].
    + split; [discriminate|]. intros H. specialize (H f t eq_refl eq_refl). lia.
    + split; [|reflexivity]. intros _ from to Hf Ht.
      injection Hf as <-. injection Ht as <-. lia.
Qed.

Lemma X2_date_range_accepted_witness :
  ApiHelpers.validateDateRange (ApiHelpers.ValidDate (Sample.day 0)) ApiHelpers.InvalidDate
  = None.
Proof.
  apply X2_date_range_accepted. intros from to _ H. discriminate H.
Defined.

(** *** Page routing *)

(** X3: a page request is let through only where the caller is allowed:
    without a session, only outside the protected routes; a learner never
    on an admin-only route; an admin never on a learner-only route. *)
Theorem X3_middleware_lets_through_only_allowed_pages :
  forall (pathname : string) (session : option Session),
    Middleware.middleware pathname session = Middleware.next ->
    match session with
    | None => Middleware.startsWithSome Middleware.protectedRoutes pathname = false
    | Some s =>
        (role (user s) = learner ->
         Middleware.startsWithSome Middleware.adminOnlyRoutes pathname = false)
        /\ (role (user s) = admin ->
            Middleware.startsWithSome Middleware.learnerOnlyRoutes pathname = false)
    end.
Proof.
  intros pathname [[[uid r]]|]; unfold Middleware.middleware; cbn [user role].
  - destruct (String.eqb pathname "/login"); [discriminate|].
    destruct (Middleware.startsWithSome Middleware.adminOnlyRoutes pathname);
      destruct (Middleware.startsWithSome Middleware.learnerOnlyRoutes pathname);
      destruct r; cbn [UserRole_eqb negb andb];
      try discriminate; intros _; split; intros H; try reflexivity; discriminate H.
  - destruct (Middleware.startsWithSome Middleware.protectedRoutes pathname);
      [discriminate|reflexivity].
Qed.

Lemma X3_middleware_lets_through_only_allowed_pages_witness :
  (role (user Sample.learner1) = learner ->
   Middleware.startsWithSome Middleware.adminOnlyRoutes "/learning-records/create" = false)
  /\ (role (user Sample.learner1) = admin ->
      Middleware.startsWithSome Middleware.learnerOnlyRoutes "/learning-records/create"
      = false).
Proof.
  apply (X3_middleware_lets_through_only_allowed_pages "/learning-records/create"
           (Some Sample.learner1)).
  reflexivity.
Defined.

(** X4: a redirect is never answered by another redirect: the page a
    caller is sent to is let through for that caller. *)
Theorem X4_middleware_redirects_settle :
  forall (pathname : string) (session : option Session) (target : string),
    Middleware.middleware pathname session = Middleware.redirect target ->
    Middleware.middleware target session = Middleware.next.
Proof.
  intros pathname [[[uid r]]|] target; unfold Middleware.middleware at 1; cbn [user role].
  - destruct (String.eqb pathname "/login");
      [|destruct (Middleware.startsWithSome Middleware.adminOnlyRoutes pathname
                  && negb (UserRole_eqb r admin)) eqn:Ha;
        [|destruct (Middleware.startsWithSome Middleware.learnerOnlyRoutes pathname
                    && negb (UserRole_eqb r learner)) eqn:Hl;
          [|destruct (String.eqb pathname "/" || String.eqb pathname "/dashboard")]]];
      intros H; try discriminate H; injection H as <-; destruct r;
      try reflexivity;
      try (rewrite andb_false_r in Ha; discriminate Ha);
      try (rewrite andb_false_r in Hl; discriminate Hl).
  - destruct (Middleware.startsWithSome Middleware.protectedRoutes pathname);
      intros H; [injection H as <-; reflexivity|discriminate H].
Qed.

Lemma X4_middleware_redirects_settle_witness :
  Middleware.middleware "/learner" (Some Sample.learner1) = Middleware.next.
Proof.
  apply (X4_middleware_redirects_settle "/users/42" (Some Sample.learner1) "/learner").
  reflexivity.
Defined.

(** *** Guards of the deletions and of the single-record read *)

(** [.limit(1)] followed by [length > 0] asks whether the selection has a
    row. *)
Lemma limit_1_nonempty :
  forall (A : Type) (p : A -> bool) (l : list A),
    (0 <? Z.of_nat (List.length (firstn 1 (filter p l)))) = existsb p l.
Proof.
  intros A p l. induction l as [|a l IH]; [reflexivity|].
  cbn [filter existsb]. destruct (p a); [reflexivity|exact IH].
Qed.

(** X5: the deletion of an enrollment is for admins only, is refused with
    HasDependentRecords and without any change while a learning record
    refers to the enrollment, and otherwise removes the enrollment and
    nothing else. *)
Theorem X5_enrollment_delete_guard :
  forall (session : Session) (enrollmentId : uuid) (db : DB) (e : Enrollments.Row),
    getEnrollment enrollmentId db = Some e ->
    (role (user session) = learner ->
     EnrollmentsIdRoute.DELETE (Some session) enrollmentId db = (Failure Forbidden, db))
    /\ (role (user session) = admin ->
        (forall r, In r (learning_records db) ->
                   LearningRecords.enrollment_id r = enrollmentId ->
                   EnrollmentsIdRoute.DELETE (Some session) enrollmentId db
                   = (Failure HasDependentRecords, db))
        /\ ((forall r, In r (learning_records db) ->
                       LearningRecords.enrollment_id r <> enrollmentId) ->
            exists db',
              EnrollmentsIdRoute.DELETE (Some session) enrollmentId db = (Success 200 tt, db')
              /\ getEnrollment enrollmentId db' = None
              /\ (forall x, In x (enrollments db')
                            <-> In x (enrollments db) /\ Enrollments.id x <> enrollmentId)
              /\ learning_records db' = learning_records db)).
Proof.
  intros session i db e Hget. unfold getEnrollment in Hget.
  unfold EnrollmentsIdRoute.DELETE, withAuth, EnrollmentsIdRoute.DELETE_handler.
  split.
  - intros Hrole. rewrite (isAdmin_learner session Hrole). reflexivity.
  - intros Hrole. rewrite (isAdmin_admin session Hrole), Hget, limit_1_nonempty.
    cbn [negb]. split.
    + intros r Hr He.
      rewrite (existsb_some _ _ _ r Hr); [reflexivity|].
      apply String.eqb_eq. exact He.
    + intros Hnone. rewrite existsb_none.
      * eexists. split; [reflexivity|]. split; [|split; [|reflexivity]].
        -- unfold getEnrollment. cbn [enrollments set_enrollments].
           rewrite (@filter_none _ _ (filter _ (enrollments db))); [reflexivity|].
           intros x Hx. apply filter_In in Hx. destruct Hx as [_ Hx].
           apply negb_true_iff in Hx. exact Hx.
        -- intros x. cbn [enrollments set_enrollments].
           rewrite filter_In, negb_true_iff, String.eqb_neq. reflexivity.
      * intros x Hx. apply String.eqb_neq. apply Hnone. exact Hx.
Qed.

Lemma X5_enrollment_delete_guard_witness :
  EnrollmentsIdRoute.DELETE (Some Sample.admin1) "enrollment-1"
    (Sample.store in_progress (Some 40)
       [Sample.record1 "record-1" (Sample.day 0) (Some 30) 30 (Sample.day 0)])
  = (Failure HasDependentRecords,
     Sample.store in_progress (Some 40)
       [Sample.record1 "record-1" (Sample.day 0) (Some 30) 30 (Sample.day 0)]).
Proof.
  apply (proj1 (proj2 (X5_enrollment_delete_guard Sample.admin1 "enrollment-1"
                         (Sample.store in_progress (Some 40)
                            [Sample.record1 "record-1" (Sample.day 0) (Some 30) 30
                               (Sample.day 0)])
                         (Sample.enrollment1 in_progress (Some 40)) eq_refl) eq_refl)
           (Sample.record1 "record-1" (Sample.day 0) (Some 30) 30 (Sample.day 0))).
  - left. reflexivity.
  - reflexivity.
Defined.

(** X6: a learner who asks for a single learning record that is not
    theirs is answered Forbidden, whether a record with that identifier
    exists or not; the owner gets the record. *)
Theorem X6_learning_record_read_access :
  forall (session : Session) (learningRecordId : uuid) (db : DB),
    role (user session) = learner ->
    ((forall r, getRecord learningRecordId db = Some r ->
                LearningRecords.learner_id r <> id (user session)) ->
     LearningRecordsIdRoute.GET (Some session) learningRecordId db
     = (Failure Forbidden, db))
    /\ (forall r, getRecord learningRecordId db = Some r ->
                  LearningRecords.learner_id r = id (user session) ->
                  LearningRecordsIdRoute.GET (Some session) learningRecordId db
                  = (Success 200 r, db)).
Proof.
  intros session i db Hrole.
  unfold LearningRecordsIdRoute.GET, withAuth, LearningRecordsIdRoute.GET_handler,
    AuthHelpers.canAccessLearningRecord, AuthHelpers.currentSession, getRecord.
  cbn [AuthHelpers.isAuthenticated is_some negb].
  rewrite (isAdmin_learner session Hrole).
  split.
  - intros Hforeign. destruct (single _) as [r|]; [|reflexivity].
    specialize (Hforeign r eq_refl). apply String.eqb_neq in Hforeign.
    rewrite Hforeign. reflexivity.
  - intros r Hget Hown. rewrite Hget, Hown, String.eqb_refl. reflexivity.
Qed.

Lemma X6_learning_record_read_access_witness :
  LearningRecordsIdRoute.GET (Some Sample.learner2) "record-1"
    (Sample.store in_progress (Some 40)
       [Sample.record1 "record-1" (Sample.day 0) (Some 30) 30 (Sample.day 0)])
  = (Failure Forbidden,
     Sample.store in_progress (Some 40)
       [Sample.record1 "record-1" (Sample.day 0) (Some 30) 30 (Sample.day 0)])
  /\ LearningRecordsIdRoute.GET (Some Sample.learner2) "record-9"
       (Sample.store in_progress (Some 40)
          [Sample.record1 "record-1" (Sample.day 0) (Some 30) 30 (Sample.day 0)])
     = (Failure Forbidden,
        Sample.store in_progress (Some 40)
          [Sample.record1 "record-1" (Sample.day 0) (Some 30) 30 (Sample.day 0)]).
Proof.
  split.
  - apply (proj1 (X6_learning_record_read_access Sample.learner2 "record-1"
                    (Sample.store in_progress (Some 40)
                       [Sample.record1 "record-1" (Sample.day 0) (Some 30) 30
                          (Sample.day 0)]) eq_refl)).
    intros r Hr. vm_compute in Hr. injection Hr as <-. discriminate.
  - apply (proj1 (X6_learning_record_read_access Sample.learner2 "record-9"
                    (Sample.store in_progress (Some 40)
                       [Sample.record1 "record-1" (Sample.day 0) (Some 30) 30
                          (Sample.day 0)]) eq_refl)).
    intros r Hr. vm_compute in Hr. discriminate Hr.
Defined.

(** X7: whatever identifier is asked for, the deletion of a user leaves
    in place the account of the caller, every user when the caller is a
    learner, and every user who still has an enrollment or a learning
    record. *)
Theorem X7_user_delete_spares_own_and_referenced_accounts :
  forall (session : Session) (userId : uuid) (db : DB) (u : Users.Row),
    In u (users db) ->
    Users.id u = id (user session)
    \/ role (user session) = learner
    \/ (exists e, In e (enrollments db) /\ Enrollments.learner_id e = Users.id u)
    \/ (exists r, In r (learning_records db) /\ LearningRecords.learner_id r = Users.id u) ->
    In u (users (snd (UsersIdRoute.DELETE (Some session) userId db))).
Proof.
  intros session i db u Hu Hcase.
  unfold UsersIdRoute.DELETE, AuthHelpers.hasRole.
  destruct (UserRole_eqb (role (user session)) admin) eqn:Hadmin; cbn [negb];
    [|exact Hu].
  destruct (String.eqb_spec i (id (user session))) as [Hself|Hself]; [exact Hu|].
  destruct (single _) as [existing|]; [|exact Hu].
  rewrite !limit_1_nonempty.
  destruct (existsb _ (enrollments db)) eqn:He; [exact Hu|].
  destruct (existsb _ (learning_records db)) eqn:Hr; [exact Hu|].
  cbn [snd users set_users]. apply filter_In. split; [exact Hu|].
  apply negb_true_iff, String.eqb_neq. intros Hid.
  destruct Hcase as [Hown|[Hlearner|[[e [Hin Hrefers]]|[r [Hin Hrefers]]]]].
  - congruence.
  - rewrite Hlearner in Hadmin. discriminate Hadmin.
  - rewrite (existsb_some _ _ _ e Hin) in He; [discriminate He|].
    apply String.eqb_eq. congruence.
  - rewrite (existsb_some _ _ _ r Hin) in Hr; [discriminate Hr|].
    apply String.eqb_eq. congruence.
Qed.

Lemma X7_user_delete_spares_own_and_referenced_accounts_witness :
  In {| Users.id := "learner-1"; Users.role := Some learner |}
    (users (snd (UsersIdRoute.DELETE (Some Sample.admin1) "learner-1"
                   (Sample.store assigned None [])))).
Proof.
  apply (X7_user_delete_spares_own_and_referenced_accounts Sample.admin1 "learner-1"
           (Sample.store assigned None [])).
  - left. reflexivity.
  - right. right. left. exists (Sample.enrollment1 assigned None).
    split; [left; reflexivity|reflexivity].
Defined.

(** X8: an enrollment is created only by an admin, only for a user whose
    role is learner and only in an active course; the new row is appended
    with the requested status (assigned when none is sent), no progress,
    no start and no completion date, and the admin as assigner. *)
Theorem X8_enrollment_creation_postcondition :
  forall (getServerSession : option Session) (env : Env)
         (body : Validations.EnrollmentCreateSchema) (db db' : DB)
         (status : Z) (e : Enrollments.Row),
    EnrollmentsRoute.POST getServerSession env body db = (Success status e, db') ->
    (exists session,
        getServerSession = Some session /\ role (user session) = admin
        /\ Enrollments.assigned_by e = Some (id (user session)))
    /\ (exists u, In u (users db)
                  /\ Users.id u = Validations.ec_learner_id body
                  /\ Users.role u = Some learner)
    /\ (exists c, In c (courses db)
                  /\ Courses.id c = Validations.ec_course_id body
                  /\ Courses.is_active c = Some true)
    /\ enrollments db' = enrollments db ++ [e]
    /\ Enrollments.learner_id e = Validations.ec_learner_id body
    /\ Enrollments.course_id e = Validations.ec_course_id body
    /\ Enrollments.status e = Validations.ec_status_parsed body
    /\ Enrollments.progress_percentage e = None
    /\ Enrollments.started_at e = None
    /\ Enrollments.completed_at e = None.
Proof.
  intros [session|] env body db db' status e;
    unfold EnrollmentsRoute.POST, withAuth, EnrollmentsRoute.POST_handler;
    [|discriminate].
  unfold AuthHelpers.isAdmin.
  destruct (role (user session)) eqn:Hrole; cbn [UserRole_eqb negb]; [|discriminate].
  destruct (single (filter _ (users db))) as [u|] eqn:Hu; [|discriminate].
  destruct (Users.role u) as [[|]|] eqn:Hur; try discriminate.
  destruct (single (filter _ (courses db))) as [c|] eqn:Hc; [|discriminate].
  destruct (Courses.is_active c) as [[|]|] eqn:Hact; cbn [negb]; try discriminate.
  destruct (single (filter _ (enrollments db))); [discriminate|].
  destruct (existsb _ (enrollments db)); [discriminate|].
  intros H. injection H as _ <- <-.
  apply single_In in Hu. destruct Hu as [Hu Huid]. apply String.eqb_eq in Huid.
  apply single_In in Hc. destruct Hc as [Hc Hcid]. apply String.eqb_eq in Hcid.
  split; [exists session; repeat split; assumption|].
  split; [exists u; repeat split; assumption|].
  split; [exists c; repeat split; assumption|].
  repeat split.
Qed.

Lemma X8_enrollment_creation_postcondition_witness :
  exists e db',
    EnrollmentsRoute.POST (Some Sample.admin1) (Sample.at_time (Sample.day 0) "enrollment-1")
      {| Validations.ec_learner_id := "learner-1";
         Validations.ec_course_id := "course-1";
         Validations.ec_due_date := None;
         Validations.ec_status := None |} Sample.empty_store
    = (Success 201 e, db')
    /\ Enrollments.status e = assigned
    /\ Enrollments.assigned_by e = Some "admin-1".
Proof.
  eexists. eexists. split; [vm_compute; reflexivity|].
  destruct
    (X8_enrollment_creation_postcondition (Some Sample.admin1)
       (Sample.at_time (Sample.day 0) "enrollment-1")
       {| Validations.ec_learner_id := "learner-1";
          Validations.ec_course_id := "course-1";
          Validations.ec_due_date := None;
          Validations.ec_status := None |} Sample.empty_store _ 201 _ eq_refl)
    as [[session [Hs [_ Hby]]] [_ [_ [_ [_ [_ [Hst _]]]]]]].
  injection Hs as <-. split; [exact Hst|exact Hby].
Defined.

(** *** What each request writes *)

Lemma isAdmin_or_owner :
  forall session owner,
    negb (AuthHelpers.isAdmin (Some session)) && negb (String.eqb owner (id (user session)))
    = false ->
    mayActFor session owner.
Proof.
  intros session owner H. unfold mayActFor, AuthHelpers.isAdmin in *.
  destruct (role (user session)); [left; reflexivity|].
  right. cbn in H. apply negb_false_iff, String.eqb_eq in H. exact H.
Qed.

Lemma enrollment_POST_effect :
  forall getServerSession env body db,
    snd (EnrollmentsRoute.POST getServerSession env body db) = db
    \/ exists session u c e,
        getServerSession = Some session
        /\ single (filter (fun u => String.eqb (Users.id u) (Validations.ec_learner_id body))
                     (users db)) = Some u
        /\ single (filter (fun c => String.eqb (Courses.id c) (Validations.ec_course_id body))
                     (courses db)) = Some c
        /\ single
             (filter
                (fun e =>
                   String.eqb (Enrollments.learner_id e) (Validations.ec_learner_id body)
                   && String.eqb (Enrollments.course_id e) (Validations.ec_course_id body))
                (enrollments db)) = None
        /\ existsb (fun e => String.eqb (Enrollments.id e) (gen_id env)) (enrollments db)
           = false
        /\ Enrollments.id e = gen_id env
        /\ Enrollments.learner_id e = Validations.ec_learner_id body
        /\ Enrollments.course_id e = Validations.ec_course_id body
        /\ snd (EnrollmentsRoute.POST getServerSession env body db)
           = set_enrollments (enrollments db ++ [e]) db.
Proof.
  intros [session|] env body db;
    unfold EnrollmentsRoute.POST, withAuth, EnrollmentsRoute.POST_handler;
    [|left; reflexivity].
  destruct (negb (AuthHelpers.isAdmin (Some session))); [left; reflexivity|].
  destruct (single (filter _ (users db))) as [u|] eqn:Hu; [|left; reflexivity].
  destruct (Users.role u) as [[|]|]; try (left; reflexivity).
  destruct (single (filter _ (courses db))) as [c|] eqn:Hc; [|left; reflexivity].
  destruct (Courses.is_active c) as [[|]|]; cbn [negb]; try (left; reflexivity).
  destruct (single (filter _ (enrollments db))) eqn:Hdup; [left; reflexivity|].
  destruct (existsb _ (enrollments db)) eqn:Hfresh; [left; reflexivity|].
  right. exists session, u, c. eexists. repeat split; reflexivity.
Qed.

Lemma enrollment_PUT_effect :
  forall getServerSession env i body db,
    snd (EnrollmentsIdRoute.PUT getServerSession env i body db) = db
    \/ exists session e,
        getServerSession = Some session
        /\ getEnrollment i db = Some e
        /\ mayActFor session (Enrollments.learner_id e)
        /\ snd (EnrollmentsIdRoute.PUT getServerSession env i body db)
           = set_enrollments
               (Enrollments.update_eq_id
                  (if AuthHelpers.isAdmin (Some session)
                   then EnrollmentsIdRoute.adminUpdateData body (Enrollments.touched (now env))
                   else EnrollmentsIdRoute.learnerUpdateData (now env) e body
                          (Enrollments.touched (now env)))
                  i (enrollments db)) db.
Proof.
  intros [session|] env i body db;
    unfold EnrollmentsIdRoute.PUT, withAuth, EnrollmentsIdRoute.PUT_handler, getEnrollment;
    [|left; reflexivity].
  destruct (negb (Validations.enrollmentUpdateSchema body)); [left; reflexivity|].
  destruct (single _) as [e|] eqn:He; [|left; reflexivity].
  destruct (negb (AuthHelpers.isAdmin (Some session)) && _) eqn:Hmay; [left; reflexivity|].
  right. exists session, e. repeat split.
  apply isAdmin_or_owner. exact Hmay.
Qed.

Lemma enrollment_DELETE_effect :
  forall getServerSession i db,
    snd (EnrollmentsIdRoute.DELETE getServerSession i db) = db
    \/ (existsb (fun r => String.eqb (LearningRecords.enrollment_id r) i)
          (learning_records db) = false
        /\ snd (EnrollmentsIdRoute.DELETE getServerSession i db)
           = set_enrollments
               (filter (fun e => negb (String.eqb (Enrollments.id e) i)) (enrollments db))
               db).
Proof.
  intros [session|] i db;
    unfold EnrollmentsIdRoute.DELETE, withAuth, EnrollmentsIdRoute.DELETE_handler;
    [|left; reflexivity].
  destruct (negb _); [left; reflexivity|].
  destruct (single _); [|left; reflexivity].
  rewrite limit_1_nonempty.
  destruct (existsb _ _) eqn:Hrefs; [left; reflexivity|].
  right. split; reflexivity.
Qed.

Lemma record_POST_effect :
  forall getServerSession env body db,
    snd (LearningRecordsRoute.POST getServerSession env body db) = db
    \/ exists session e,
        getServerSession = Some session
        /\ mayActFor session (Validations.lc_learner_id body)
        /\ enrollmentOfRecord body db = Some e
        /\ existsb (fun r => String.eqb (LearningRecords.id r) (gen_id env))
             (learning_records db) = false
        /\ snd (LearningRecordsRoute.POST getServerSession env body db)
           = match Validations.lc_progress_percentage body with
             | Some p =>
                 set_enrollments
                   (Enrollments.update_eq_id
                      (LearningRecordsRoute.updateData (now env) e p)
                      (Validations.lc_enrollment_id body) (enrollments db))
                   (set_learning_records
                      (learning_records db
                       ++ [LearningRecordsRoute.learningRecordData env body db]) db)
             | None =>
                 set_learning_records
                   (learning_records db
                    ++ [LearningRecordsRoute.learningRecordData env body db]) db
             end.
Proof.
  intros [session|] env body db;
    unfold LearningRecordsRoute.POST, withAuth, LearningRecordsRoute.POST_handler,
      enrollmentOfRecord;
    [|left; reflexivity].
  destruct (negb (Validations.learningRecordCreateSchema body)); [left; reflexivity|].
  destruct (negb (AuthHelpers.isAdmin (Some session)) && _) eqn:Hmay; [left; reflexivity|].
  destruct (single (filter _ (enrollments db))) as [e|] eqn:He; [|left; reflexivity].
  destruct (EnrollmentStatus_eqb _ _); [left; reflexivity|].
  destruct (single (filter _ (courses db))) as [c|]; [|left; reflexivity].
  destruct (Courses.is_active c) as [[|]|]; cbn [negb]; try (left; reflexivity).
  destruct (existsb _ (learning_records db)) eqn:Hfresh; [left; reflexivity|].
  right. exists session, e. split; [reflexivity|].
  split; [apply isAdmin_or_owner; exact Hmay|].
  split; [reflexivity|]. split; [reflexivity|].
  destruct (Validations.lc_progress_percentage body); reflexivity.
Qed.

Lemma record_PUT_effect :
  forall getServerSession env i body db,
    snd (LearningRecordsIdRoute.PUT getServerSession env i body db) = db
    \/ exists session r,
        getServerSession = Some session
        /\ getRecord i db = Some r
        /\ mayActFor session (LearningRecords.learner_id r)
        /\ snd (LearningRecordsIdRoute.PUT getServerSession env i body db)
           = match Validations.lu_progress_percentage body with
             | Some p =>
                 set_enrollments
                   (Enrollments.update_eq_id
                      (LearningRecordsIdRoute.enrollmentUpdateData (now env) p)
                      (LearningRecords.enrollment_id r) (enrollments db))
                   (set_learning_records
                      (LearningRecords.update_eq_id
                         (LearningRecordsIdRoute.updateData (now env) i r body db) i
                         (learning_records db)) db)
             | None =>
                 set_learning_records
                   (LearningRecords.update_eq_id
                      (LearningRecordsIdRoute.updateData (now env) i r body db) i
                      (learning_records db)) db
             end.
Proof.
  intros [session|] env i body db;
    unfold LearningRecordsIdRoute.PUT, withAuth, LearningRecordsIdRoute.PUT_handler,
      getRecord;
    [|left; reflexivity].
  destruct (negb (Validations.learningRecordUpdateSchema body)); [left; reflexivity|].
  destruct (single _) as [r|] eqn:Hr; [|left; reflexivity].
  destruct (negb (AuthHelpers.isAdmin (Some session)) && _) eqn:Hmay; [left; reflexivity|].
  destruct (LearningRecordsIdRoute.outsideEditWindow _ _ _); [left; reflexivity|].
  right. exists session, r. split; [reflexivity|]. split; [reflexivity|].
  split; [apply isAdmin_or_owner; exact Hmay|].
  destruct (Validations.lu_progress_percentage body); reflexivity.
Qed.

Lemma record_DELETE_effect :
  forall getServerSession env i db,
    snd (LearningRecordsIdRoute.DELETE getServerSession env i db) = db
    \/ exists session r,
        getServerSession = Some session
        /\ getRecord i db = Some r
        /\ mayActFor session (LearningRecords.learner_id r)
        /\ snd (LearningRecordsIdRoute.DELETE getServerSession env i db)
           = set_learning_records
               (LearningRecordsIdRoute.recomputeAfterDelete r
                  (filter (fun x => negb (String.eqb (LearningRecords.id x) i))
                     (learning_records db))) db.
Proof.
  intros [session|] env i db;
    unfold LearningRecordsIdRoute.DELETE, withAuth, LearningRecordsIdRoute.DELETE_handler,
      getRecord;
    [|left; reflexivity].
  destruct (single _) as [r|] eqn:Hr; [|left; reflexivity].
  destruct (negb (AuthHelpers.isAdmin (Some session)) && _) eqn:Hmay; [left; reflexivity|].
  destruct (LearningRecordsIdRoute.outsideEditWindow _ _ _); [left; reflexivity|].
  right. exists session, r. split; [reflexivity|]. split; [reflexivity|].
  split; [apply isAdmin_or_owner; exact Hmay|reflexivity].
Qed.

Lemma enrollment_GET_effect :
  forall getServerSession i db,
    snd (EnrollmentsIdRoute.GET getServerSession i db) = db.
Proof.
  intros [session|] i db;
    unfold EnrollmentsIdRoute.GET, withAuth, EnrollmentsIdRoute.GET_handler;
    [|reflexivity].
  destruct (single _); reflexivity.
Qed.

(** *** Invariants of the store *)

Lemma enrollments_update_In :
  forall u i rows e,
    In e rows ->
    exists e',
      In e' (Enrollments.update_eq_id u i rows)
      /\ Enrollments.id e' = Enrollments.id e
      /\ Enrollments.learner_id e' = Enrollments.learner_id e
      /\ Enrollments.course_id e' = Enrollments.course_id e.
Proof.
  intros u i rows e He. unfold Enrollments.update_eq_id.
  exists (if String.eqb (Enrollments.id e) i then Enrollments.apply u e else e).
  split; [apply (in_map (fun r => if String.eqb (Enrollments.id r) i
                                  then Enrollments.apply u r else r)); exact He|].
  destruct (String.eqb (Enrollments.id e) i); repeat split.
Qed.

Lemma enrollments_update_In_inv :
  forall u i rows e',
    In e' (Enrollments.update_eq_id u i rows) ->
    exists e,
      In e rows
      /\ Enrollments.id e' = Enrollments.id e
      /\ Enrollments.learner_id e' = Enrollments.learner_id e
      /\ Enrollments.course_id e' = Enrollments.course_id e.
Proof.
  intros u i rows e' He. unfold Enrollments.update_eq_id in He.
  apply in_map_iff in He. destruct He as [e [<- He]]. exists e. split; [exact He|].
  destruct (String.eqb (Enrollments.id e) i); repeat split.
Qed.

Lemma pair_count_update_eq_id :
  forall u i rows learnerId courseId,
    List.length
      (filter (fun e => String.eqb (Enrollments.learner_id e) learnerId
                        && String.eqb (Enrollments.course_id e) courseId)
         (Enrollments.update_eq_id u i rows))
    = List.length
        (filter (fun e => String.eqb (Enrollments.learner_id e) learnerId
                          && String.eqb (Enrollments.course_id e) courseId) rows).
Proof.
  intros u i rows l c. unfold Enrollments.update_eq_id.
  rewrite filter_map_swap, length_map. f_equal. apply filter_ext.
  intros e. destruct (String.eqb (Enrollments.id e) i); reflexivity.
Qed.

Lemma single_none_short :
  forall (A : Type) (l : list A),
    single l = None -> (List.length l <= 1)%nat -> l = [].
Proof.
  intros A [|a [|b l]] H Hlen; [reflexivity|discriminate H|simpl in Hlen; lia].
Qed.

Lemma filter_length_le_filter :
  forall (A : Type) (p q : A -> bool) (l : list A),
    (List.length (filter p (filter q l)) <= List.length (filter p l))%nat.
Proof.
  intros A p q l. induction l as [|a l IH]; [reflexivity|].
  cbn [filter]. destruct (q a); cbn [filter]; destruct (p a); simpl; lia.
Qed.

Lemma one_enrollment_per_pair_step :
  forall o db, one_enrollment_per_pair db -> one_enrollment_per_pair (perform o db).
Proof.
  intros [[s clock [body|i body|i|body|i body|i]]|s i|s i|s i] db Inv;
    unfold perform, step; cbn [request caller env].
  - destruct (enrollment_POST_effect s clock body db)
      as [->|(session & u & c & e & _ & _ & _ & Hdup & _ & _ & Hl & Hc & ->)]; [exact Inv|].
    intros l' c'. cbn [enrollments set_enrollments].
    rewrite filter_app, length_app. cbn [filter].
    destruct (String.eqb_spec (Enrollments.learner_id e) l') as [El|El];
      [destruct (String.eqb_spec (Enrollments.course_id e) c') as [Ec|Ec]|];
      cbn [andb List.length]; try (specialize (Inv l' c'); lia).
    rewrite Hl in El. rewrite Hc in Ec. subst l' c'.
    rewrite (single_none_short _ _ Hdup (Inv _ _)). simpl. lia.
  - destruct (enrollment_PUT_effect s clock i body db) as [->|(session & e & _ & _ & _ & ->)];
      [exact Inv|].
    intros l' c'. cbn [enrollments set_enrollments]. rewrite pair_count_update_eq_id.
    apply Inv.
  - rewrite enrollment_GET_effect. exact Inv.
  - destruct (record_POST_effect s clock body db) as [->|(session & e & _ & _ & _ & _ & ->)];
      [exact Inv|].
    intros l' c'. destruct (Validations.lc_progress_percentage body);
      cbn [enrollments set_enrollments set_learning_records];
      rewrite ?pair_count_update_eq_id; apply Inv.
  - destruct (record_PUT_effect s clock i body db) as [->|(session & r & _ & _ & _ & ->)];
      [exact Inv|].
    intros l' c'. destruct (Validations.lu_progress_percentage body);
      cbn [enrollments set_enrollments set_learning_records];
      rewrite ?pair_count_update_eq_id; apply Inv.
  - destruct (record_DELETE_effect s clock i db) as [->|(session & r & _ & _ & _ & ->)];
      [exact Inv|].
    intros l' c'. apply Inv.
  - destruct (enrollment_DELETE_effect s i db) as [->|[_ ->]]; [exact Inv|].
    intros l' c'. cbn [enrollments set_enrollments].
    eapply Nat.le_trans; [apply filter_length_le_filter|apply Inv].
  - unfold CoursesIdRoute.DELETE. intros l' c'.
    destruct s as [session|]; [|apply Inv].
    repeat match goal with
           | |- context [match single ?l with _ => _ end] => destruct (single l)
           | |- context [if ?b then _ else _] => destruct b
           end; apply Inv.
  - unfold UsersIdRoute.DELETE. intros l' c'.
    destruct s as [session|]; [|apply Inv].
    repeat match goal with
           | |- context [match single ?l with _ => _ end] => destruct (single l)
           | |- context [if ?b then _ else _] => destruct b
           end; apply Inv.
Qed.

(** X9: no sequence of operations gives a learner a second enrollment in
    the same course: a store with at most one enrollment per learner and
    course stays so. *)
Theorem X9_one_enrollment_per_pair_is_kept :
  forall (ops : list Operation) (db : DB),
    one_enrollment_per_pair db ->
    one_enrollment_per_pair (perform_all ops db).
Proof.
  induction ops as [|o ops IH]; intros db Inv; [exact Inv|].
  unfold perform_all. cbn [fold_left]. apply IH.
  apply one_enrollment_per_pair_step. exact Inv.
Qed.

Lemma X9_one_enrollment_per_pair_is_kept_witness :
  one_enrollment_per_pair
    (perform_all
       [ Serve {| caller := Some Sample.admin1;
                  env := Sample.at_time (Sample.day 0) "enrollment-1";
                  request :=
                    CreateEnrollment
                      {| Validations.ec_learner_id := "learner-1";
                         Validations.ec_course_id := "course-1";
                         Validations.ec_due_date := None;
                         Validations.ec_status := None |} |};
         Serve {| caller := Some Sample.admin1;
                  env := Sample.at_time (Sample.day 1) "enrollment-2";
                  request :=
                    CreateEnrollment
                      {| Validations.ec_learner_id := "learner-1";
                         Validations.ec_course_id := "course-1";
                         Validations.ec_due_date := None;
                         Validations.ec_status := Some in_progress |} |} ]
       Sample.empty_store).
Proof.
  apply X9_one_enrollment_per_pair_is_kept.
  intros learnerId courseId. simpl. lia.
Defined.

Lemma records_update_In_inv :
  forall u i rows r',
    In r' (LearningRecords.update_eq_id u i rows) ->
    exists r,
      In r rows
      /\ LearningRecords.id r' = LearningRecords.id r
      /\ LearningRecords.enrollment_id r' = LearningRecords.enrollment_id r
      /\ LearningRecords.learner_id r' = LearningRecords.learner_id r
      /\ LearningRecords.course_id r' = LearningRecords.course_id r.
Proof.
  intros u i rows r' Hr. unfold LearningRecords.update_eq_id in Hr.
  apply in_map_iff in Hr. destruct Hr as [r [<- Hr]]. exists r. split; [exact Hr|].
  destruct (String.eqb (LearningRecords.id r) i); repeat split.
Qed.

Lemma recomputeAfterDelete_In_inv :
  forall r0 rows r',
    In r' (LearningRecordsIdRoute.recomputeAfterDelete r0 rows) ->
    exists r,
      In r rows
      /\ LearningRecords.id r' = LearningRecords.id r
      /\ LearningRecords.enrollment_id r' = LearningRecords.enrollment_id r
      /\ LearningRecords.learner_id r' = LearningRecords.learner_id r
      /\ LearningRecords.course_id r' = LearningRecords.course_id r.
Proof.
  intros r0 rows r' Hr. unfold LearningRecordsIdRoute.recomputeAfterDelete in Hr.
  destruct (truthy_number _); [|exists r'; repeat split; exact Hr].
  destruct (0 <? _); [|exists r'; repeat split; exact Hr].
  destruct (LearningRecords.latest _); [|exists r'; repeat split; exact Hr].
  apply records_update_In_inv in Hr. exact Hr.
Qed.

(** A referent that survives with its identity keeps the reference. *)
Lemma refers_through :
  forall (rows rows' : list Enrollments.Row) (r : LearningRecords.Row),
    (forall e, In e rows ->
               exists e', In e' rows'
                          /\ Enrollments.id e' = Enrollments.id e
                          /\ Enrollments.learner_id e' = Enrollments.learner_id e
                          /\ Enrollments.course_id e' = Enrollments.course_id e) ->
    (exists e, In e rows
               /\ Enrollments.id e = LearningRecords.enrollment_id r
               /\ Enrollments.learner_id e = LearningRecords.learner_id r
               /\ Enrollments.course_id e = LearningRecords.course_id r) ->
    exists e', In e' rows'
               /\ Enrollments.id e' = LearningRecords.enrollment_id r
               /\ Enrollments.learner_id e' = LearningRecords.learner_id r
               /\ Enrollments.course_id e' = LearningRecords.course_id r.
Proof.
  intros rows rows' r Hmap (e & He & H1 & H2 & H3).
  destruct (Hmap e He) as (e' & He' & I1 & I2 & I3).
  exists e'. repeat split; congruence.
Qed.

Lemma enrollmentOfRecord_In :
  forall body db e,
    enrollmentOfRecord body db = Some e ->
    In e (enrollments db)
    /\ Enrollments.id e = Validations.lc_enrollment_id body
    /\ Enrollments.learner_id e = Validations.lc_learner_id body
    /\ Enrollments.course_id e = Validations.lc_course_id body.
Proof.
  intros body db e H. unfold enrollmentOfRecord in H. apply single_In in H.
  destruct H as [Hin H]. apply andb_prop in H. destruct H as [H H3].
  apply andb_prop in H. destruct H as [H1 H2].
  apply String.eqb_eq in H1, H2, H3. repeat split; assumption.
Qed.

Lemma records_refer_to_enrollments_step :
  forall o db,
    records_refer_to_enrollments db -> records_refer_to_enrollments (perform o db).
Proof.
  intros [[s clock [body|i body|i|body|i body|i]]|s i|s i|s i] db Inv;
    unfold perform, step; cbn [request caller env].
  - destruct (enrollment_POST_effect s clock body db)
      as [->|(session & u & c & e & _ & _ & _ & _ & _ & _ & _ & _ & ->)]; [exact Inv|].
    intros r Hr. cbn [enrollments learning_records set_enrollments] in *.
    apply (refers_through (enrollments db)); [|apply Inv; exact Hr].
    intros x Hx. exists x. split; [apply in_or_app; left; exact Hx|repeat split].
  - destruct (enrollment_PUT_effect s clock i body db) as [->|(session & e & _ & _ & _ & ->)];
      [exact Inv|].
    intros r Hr. cbn [enrollments learning_records set_enrollments] in *.
    apply (refers_through (enrollments db)); [|apply Inv; exact Hr].
    intros x Hx. apply enrollments_update_In. exact Hx.
  - rewrite enrollment_GET_effect. exact Inv.
  - destruct (record_POST_effect s clock body db)
      as [->|(session & e & _ & _ & He & _ & ->)]; [exact Inv|].
    apply enrollmentOfRecord_In in He. destruct He as (He & H1 & H2 & H3).
    assert (Hnew : forall r,
               In r (learning_records db
                     ++ [LearningRecordsRoute.learningRecordData clock body db]) ->
               exists e0, In e0 (enrollments db)
                          /\ Enrollments.id e0 = LearningRecords.enrollment_id r
                          /\ Enrollments.learner_id e0 = LearningRecords.learner_id r
                          /\ Enrollments.course_id e0 = LearningRecords.course_id r).
    { intros r Hr. apply in_app_or in Hr. destruct Hr as [Hr|[<-|[]]].
      - apply Inv. exact Hr.
      - exists e. repeat split; assumption. }
    intros r Hr. destruct (Validations.lc_progress_percentage body);
      cbn [enrollments learning_records set_enrollments set_learning_records] in *.
    + apply (refers_through (enrollments db)); [|apply Hnew; exact Hr].
      intros x Hx. apply enrollments_update_In. exact Hx.
    + apply Hnew. exact Hr.
  - destruct (record_PUT_effect s clock i body db) as [->|(session & r0 & _ & _ & _ & ->)];
      [exact Inv|].
    assert (Hold : forall r,
               In r (LearningRecords.update_eq_id
                       (LearningRecordsIdRoute.updateData (now clock) i r0 body db) i
                       (learning_records db)) ->
               exists e0, In e0 (enrollments db)
                          /\ Enrollments.id e0 = LearningRecords.enrollment_id r
                          /\ Enrollments.learner_id e0 = LearningRecords.learner_id r
                          /\ Enrollments.course_id e0 = LearningRecords.course_id r).
    { intros r Hr. apply records_update_In_inv in Hr.
      destruct Hr as (x & Hx & _ & E1 & E2 & E3).
      destruct (Inv x Hx) as (e0 & He0 & I1 & I2 & I3).
      exists e0. repeat split; congruence. }
    intros r Hr. destruct (Validations.lu_progress_percentage body);
      cbn [enrollments learning_records set_enrollments set_learning_records] in *.
    + apply (refers_through (enrollments db)); [|apply Hold; exact Hr].
      intros x Hx. apply enrollments_update_In. exact Hx.
    + apply Hold. exact Hr.
  - destruct (record_DELETE_effect s clock i db) as [->|(session & r0 & _ & _ & _ & ->)];
      [exact Inv|].
    intros r Hr. cbn [enrollments learning_records set_learning_records] in *.
    apply recomputeAfterDelete_In_inv in Hr. destruct Hr as (x & Hx & _ & E1 & E2 & E3).
    apply filter_In in Hx. destruct Hx as [Hx _].
    destruct (Inv x Hx) as (e0 & He0 & I1 & I2 & I3).
    exists e0. repeat split; congruence.
  - destruct (enrollment_DELETE_effect s i db) as [->|[Hnone ->]]; [exact Inv|].
    intros r Hr. cbn [enrollments learning_records set_enrollments] in *.
    destruct (Inv r Hr) as (e0 & He0 & I1 & I2 & I3).
    exists e0. split; [|repeat split; assumption].
    apply filter_In. split; [exact He0|].
    apply negb_true_iff, String.eqb_neq. intros Hid.
    rewrite (existsb_some _ _ _ r Hr) in Hnone; [discriminate Hnone|].
    apply String.eqb_eq. congruence.
  - unfold CoursesIdRoute.DELETE.
    destruct s as [session|]; [|exact Inv].
    repeat match goal with
           | |- context [match single ?l with _ => _ end] => destruct (single l)
           | |- context [if ?b then _ else _] => destruct b
           end; exact Inv.
  - unfold UsersIdRoute.DELETE.
    destruct s as [session|]; [|exact Inv].
    repeat match goal with
           | |- context [match single ?l with _ => _ end] => destruct (single l)
           | |- context [if ?b then _ else _] => destruct b
           end; exact Inv.
Qed.

(** X10: referential integrity of learning records: through every
    sequence of operations, each learning record keeps referring to an
    existing enrollment of the same learner in the same course; in
    particular an enrollment that records refer to is never deleted. *)
Theorem X10_records_keep_their_enrollment :
  forall (ops : list Operation) (db : DB),
    records_refer_to_enrollments db ->
    records_refer_to_enrollments (perform_all ops db).
Proof.
  induction ops as [|o ops IH]; intros db Inv; [exact Inv|].
  unfold perform_all. cbn [fold_left]. apply IH.
  apply records_refer_to_enrollments_step. exact Inv.
Qed.

Lemma X10_records_keep_their_enrollment_witness :
  records_refer_to_enrollments
    (perform_all
       [ Serve {| caller := Some Sample.learner1;
                  env := Sample.at_time (Sample.day 1) "record-1";
                  request :=
                    CreateLearningRecord
                      (Sample.newRecord (Sample.day 1) None (Some 30) (Some 40)) |};
         DeleteEnrollment (Some Sample.admin1) "enrollment-1" ]
       (Sample.store assigned None [])).
Proof.
  apply X10_records_keep_their_enrollment.
  intros r [].
Defined.

Lemma refers_to_users_and_courses_through :
  forall (db : DB) (rows' : list Enrollments.Row),
    enrollments_refer_to_learners_and_courses db ->
    (forall e', In e' rows' ->
                exists e, In e (enrollments db)
                          /\ Enrollments.id e' = Enrollments.id e
                          /\ Enrollments.learner_id e' = Enrollments.learner_id e
                          /\ Enrollments.course_id e' = Enrollments.course_id e) ->
    enrollments_refer_to_learners_and_courses (set_enrollments rows' db).
Proof.
  intros db rows' Inv Hfrom e' He'. cbn [enrollments users courses set_enrollments] in *.
  destruct (Hfrom e' He') as (e & He & _ & E1 & E2).
  destruct (Inv e He) as [Hu Hc]. rewrite E1, E2. split; assumption.
Qed.

Lemma enrollments_refer_to_learners_and_courses_step :
  forall o db,
    enrollments_refer_to_learners_and_courses db ->
    enrollments_refer_to_learners_and_courses (perform o db).
Proof.
  intros [[s clock [body|i body|i|body|i body|i]]|s i|s i|s i] db Inv;
    unfold perform, step; cbn [request caller env].
  - destruct (enrollment_POST_effect s clock body db)
      as [->|(session & u & c & e & _ & Hu & Hc & _ & _ & _ & Hl & Hcr & ->)];
      [exact Inv|].
    apply single_In in Hu. destruct Hu as [Hu Huid]. apply String.eqb_eq in Huid.
    apply single_In in Hc. destruct Hc as [Hc Hcid]. apply String.eqb_eq in Hcid.
    intros x Hx. cbn [enrollments users courses set_enrollments] in *.
    apply in_app_or in Hx. destruct Hx as [Hx|[<-|[]]]; [apply Inv; exact Hx|].
    split; [exists u|exists c]; split; congruence.
  - destruct (enrollment_PUT_effect s clock i body db) as [->|(session & e & _ & _ & _ & ->)];
      [exact Inv|].
    apply refers_to_users_and_courses_through; [exact Inv|].
    intros e' He'. apply enrollments_update_In_inv in He'. exact He'.
  - rewrite enrollment_GET_effect. exact Inv.
  - destruct (record_POST_effect s clock body db)
      as [->|(session & e & _ & _ & _ & _ & ->)]; [exact Inv|].
    destruct (Validations.lc_progress_percentage body); [|exact Inv].
    intros x Hx. cbn [enrollments users courses set_enrollments set_learning_records] in *.
    apply enrollments_update_In_inv in Hx. destruct Hx as (e0 & He0 & _ & E1 & E2).
    destruct (Inv e0 He0) as [Hu Hc]. rewrite E1, E2. split; assumption.
  - destruct (record_PUT_effect s clock i body db) as [->|(session & r0 & _ & _ & _ & ->)];
      [exact Inv|].
    destruct (Validations.lu_progress_percentage body); [|exact Inv].
    intros x Hx. cbn [enrollments users courses set_enrollments set_learning_records] in *.
    apply enrollments_update_In_inv in Hx. destruct Hx as (e0 & He0 & _ & E1 & E2).
    destruct (Inv e0 He0) as [Hu Hc]. rewrite E1, E2. split; assumption.
  - destruct (record_DELETE_effect s clock i db) as [->|(session & r0 & _ & _ & _ & ->)];
      exact Inv.
  - destruct (enrollment_DELETE_effect s i db) as [->|[_ ->]]; [exact Inv|].
    apply refers_to_users_and_courses_through; [exact Inv|].
    intros e' He'. apply filter_In in He'. exists e'. repeat split. apply He'.
  - unfold CoursesIdRoute.DELETE.
    destruct s as [session|]; [|exact Inv].
    destruct (negb _); [exact Inv|].
    destruct (single _); [|exact Inv].
    rewrite !limit_1_nonempty.
    destruct (existsb _ (enrollments db)) eqn:He; [exact Inv|].
    destruct (existsb _ (learning_records db)); [exact Inv|].
    intros x Hx. cbn [snd enrollments users courses set_courses] in *.
    destruct (Inv x Hx) as [Hu (c & Hc & Hcid)]. split; [exact Hu|].
    exists c. split; [|exact Hcid]. apply filter_In. split; [exact Hc|].
    apply negb_true_iff, String.eqb_neq. intros Hid.
    rewrite (existsb_some _ _ _ x Hx) in He; [discriminate He|].
    apply String.eqb_eq. congruence.
  - unfold UsersIdRoute.DELETE.
    destruct s as [session|]; [|exact Inv].
    destruct (negb _); [exact Inv|].
    destruct (String.eqb i (id (user session))); [exact Inv|].
    destruct (single _); [|exact Inv].
    rewrite !limit_1_nonempty.
    destruct (existsb _ (enrollments db)) eqn:He; [exact Inv|].
    destruct (existsb _ (learning_records db)); [exact Inv|].
    intros x Hx. cbn [snd enrollments users courses set_users] in *.
    destruct (Inv x Hx) as [(u & Hu & Huid) Hc]. split; [|exact Hc].
    exists u. split; [|exact Huid]. apply filter_In. split; [exact Hu|].
    apply negb_true_iff, String.eqb_neq. intros Hid.
    rewrite (existsb_some _ _ _ x Hx) in He; [discriminate He|].
    apply String.eqb_eq. congruence.
Qed.

(** X11: through every sequence of operations, the learner and the course
    of each enrollment stay rows of the store: the user named by
    [learner_id] and the course named by [course_id] of an enrollment are
    never deleted, and an enrollment is only created for an existing
    learner and course.  The admin named by [assigned_by] is not covered:
    the deletion of a user looks at [learner_id] only. *)
Theorem X11_enrollments_keep_their_learner_and_course :
  forall (ops : list Operation) (db : DB),
    enrollments_refer_to_learners_and_courses db ->
    enrollments_refer_to_learners_and_courses (perform_all ops db).
Proof.
  induction ops as [|o ops IH]; intros db Inv; [exact Inv|].
  unfold perform_all. cbn [fold_left]. apply IH.
  apply enrollments_refer_to_learners_and_courses_step. exact Inv.
Qed.

Lemma X11_enrollments_keep_their_learner_and_course_witness :
  enrollments_refer_to_learners_and_courses
    (perform_all
       [ Serve {| caller := Some Sample.admin1;
                  env := Sample.at_time (Sample.day 0) "enrollment-1";
                  request :=
                    CreateEnrollment
                      {| Validations.ec_learner_id := "learner-1";
                         Validations.ec_course_id := "course-1";
                         Validations.ec_due_date := None;
                         Validations.ec_status := None |} |};
         DeleteCourse (Some Sample.admin1) "course-1";
         DeleteUser (Some Sample.admin1) "learner-1" ]
       Sample.empty_store).
Proof.
  apply X11_enrollments_keep_their_learner_and_course.
  intros e [].
Defined.

(** X12: an operation that is refused writes nothing: whenever a handler
    answers with an error, the store is exactly as it was. *)
Theorem X12_refused_operations_write_nothing :
  forall (o : Operation) (db : DB),
    refused o db = true -> perform o db = db.
Proof.
  intros [[s clock [body|i body|i|body|i body|i]]|s i|s i|s i] db;
    unfold refused, perform, step; cbn [request caller env].
  - destruct (enrollment_POST_effect s clock body db)
      as [H|(session & u & c & e & -> & Hu & Hc & Hdup & Hfresh & _)]; [intros _; exact H|].
    unfold EnrollmentsRoute.POST, withAuth, EnrollmentsRoute.POST_handler.
    rewrite Hu, Hc, Hdup, Hfresh. split_handler; intros H; try reflexivity; discriminate H.
  - unfold EnrollmentsIdRoute.PUT, withAuth, EnrollmentsIdRoute.PUT_handler.
    destruct s; split_handler; intros H; try reflexivity; discriminate H.
  - intros _. apply enrollment_GET_effect.
  - unfold LearningRecordsRoute.POST, withAuth, LearningRecordsRoute.POST_handler.
    destruct s; split_handler; intros H; try reflexivity; discriminate H.
  - unfold LearningRecordsIdRoute.PUT, withAuth, LearningRecordsIdRoute.PUT_handler.
    destruct s; split_handler; intros H; try reflexivity; discriminate H.
  - unfold LearningRecordsIdRoute.DELETE, withAuth, LearningRecordsIdRoute.DELETE_handler.
    destruct s; split_handler; intros H; try reflexivity; discriminate H.
  - unfold EnrollmentsIdRoute.DELETE, withAuth, EnrollmentsIdRoute.DELETE_handler.
    destruct s; split_handler; intros H; try reflexivity; discriminate H.
  - unfold CoursesIdRoute.DELETE.
    destruct s; split_handler; intros H; try reflexivity; discriminate H.
  - unfold UsersIdRoute.DELETE.
    destruct s; split_handler; intros H; try reflexivity; discriminate H.
Qed.

Lemma X12_refused_operations_write_nothing_witness :
  perform
    (Serve {| caller := Some Sample.learner1;
              env := Sample.at_time (Sample.day 1) "record-1";
              request :=
                CreateLearningRecord
                  (Sample.newRecord (Sample.day 1) None (Some 30) (Some 100)) |})
    (Sample.store cancelled (Some 40) [])
  = Sample.store cancelled (Some 40) [].
Proof.
  apply X12_refused_operations_write_nothing. reflexivity.
Defined.

(** *** A learner writes only their own rows *)

Lemma unique_by_key :
  forall (A : Type) (key : A -> string) (l : list A) (x y : A),
    NoDup (map key l) -> In x l -> In y l -> key x = key y -> x = y.
Proof.
  intros A key l. induction l as [|z l IH]; intros x y Hnd Hx Hy Hk; [contradiction|].
  cbn [map] in Hnd. inversion Hnd as [|? ? Hnotin Hnd']; subst.
  destruct Hx as [<-|Hx]; destruct Hy as [<-|Hy].
  - reflexivity.
  - exfalso. apply Hnotin. rewrite Hk. apply in_map. exact Hy.
  - exfalso. apply Hnotin. rewrite <- Hk. apply in_map. exact Hx.
  - apply IH; assumption.
Qed.

Lemma enrollments_filter_update_outside :
  forall (q : Enrollments.Row -> bool) u i rows,
    (forall x, In x rows -> Enrollments.id x = i -> q x = false) ->
    (forall x, q (Enrollments.apply u x) = q x) ->
    filter q (Enrollments.update_eq_id u i rows) = filter q rows.
Proof.
  intros q u i rows Hout Hq. unfold Enrollments.update_eq_id.
  induction rows as [|x rows IH]; simpl; [reflexivity|].
  rewrite IH by (intros y Hy; apply Hout; right; exact Hy).
  destruct (String.eqb_spec (Enrollments.id x) i) as [Hid|Hid].
  - rewrite Hq, (Hout x (or_introl eq_refl) Hid). reflexivity.
  - reflexivity.
Qed.

Lemma learner_acts_for_self :
  forall session owner,
    role (user session) = learner -> mayActFor session owner -> owner = id (user session).
Proof.
  intros session owner Hrole [Hadmin|Hown]; [congruence|exact Hown].
Qed.

Lemma not_other :
  forall a b : string, a = b -> negb (String.eqb a b) = false.
Proof.
  intros a b ->. rewrite String.eqb_refl. reflexivity.
Qed.

(** X13: a learner's request leaves every enrollment and every learning
    record of the other learners exactly as it was, in a store whose
    identifiers are unique and whose records refer to enrollments of the
    same learner. *)
Theorem X13_learner_writes_only_own_rows :
  forall (c : Call) (db : DB) (session : Session),
    caller c = Some session ->
    role (user session) = learner ->
    unique_keys db ->
    records_refer_to_enrollments db ->
    enrollments_of_others (id (user session)) (step c db)
    = enrollments_of_others (id (user session)) db
    /\ records_of_others (id (user session)) (step c db)
       = records_of_others (id (user session)) db.
Proof.
  intros [s clock [body|i body|i|body|i body|i]] db session Hs Hrole [Hke Hkr] Href;
    cbn [caller] in Hs; subst s;
    unfold step, enrollments_of_others, records_of_others; cbn [request caller env].
  - unfold EnrollmentsRoute.POST, withAuth, EnrollmentsRoute.POST_handler.
    rewrite (isAdmin_learner session Hrole). split; reflexivity.
  - destruct (enrollment_PUT_effect (Some session) clock i body db)
      as [->|(session' & e & Hs' & Hget & Hmay & ->)]; [split; reflexivity|].
    injection Hs' as <-.
    apply (learner_acts_for_self _ _ Hrole) in Hmay.
    cbn [enrollments learning_records set_enrollments]. split; [|reflexivity].
    apply enrollments_filter_update_outside; [|reflexivity].
    intros x Hx Hid. unfold getEnrollment in Hget. apply single_In in Hget.
    destruct Hget as [He Heid]. apply String.eqb_eq in Heid.
    rewrite (unique_by_key _ Enrollments.id _ x e Hke Hx He ltac:(congruence)).
    apply not_other. exact Hmay.
  - rewrite enrollment_GET_effect. split; reflexivity.
  - destruct (record_POST_effect (Some session) clock body db)
      as [->|(session' & e & Hs' & Hmay & He & _ & ->)]; [split; reflexivity|].
    injection Hs' as <-.
    apply (learner_acts_for_self _ _ Hrole) in Hmay.
    apply enrollmentOfRecord_In in He. destruct He as (He & H1 & H2 & H3).
    assert (Hnew : filter (fun r => negb (String.eqb (LearningRecords.learner_id r)
                                            (id (user session))))
                     (learning_records db
                      ++ [LearningRecordsRoute.learningRecordData clock body db])
                   = filter (fun r => negb (String.eqb (LearningRecords.learner_id r)
                                              (id (user session))))
                       (learning_records db)).
    { rewrite filter_app. cbn [filter LearningRecordsRoute.learningRecordData
                                 LearningRecords.learner_id].
      rewrite (not_other _ _ Hmay). apply app_nil_r. }
    destruct (Validations.lc_progress_percentage body);
      cbn [enrollments learning_records set_enrollments set_learning_records];
      (split; [|exact Hnew]); [|reflexivity].
    apply enrollments_filter_update_outside; [|reflexivity].
    intros x Hx Hid.
    rewrite (unique_by_key _ Enrollments.id _ x e Hke Hx He ltac:(congruence)).
    apply not_other. congruence.
  - destruct (record_PUT_effect (Some session) clock i body db)
      as [->|(session' & r & Hs' & Hget & Hmay & ->)]; [split; reflexivity|].
    injection Hs' as <-.
    apply (learner_acts_for_self _ _ Hrole) in Hmay.
    apply getRecord_In in Hget. destruct Hget as [Hr Hrid].
    assert (Hrec : filter (fun x => negb (String.eqb (LearningRecords.learner_id x)
                                            (id (user session))))
                     (LearningRecords.update_eq_id
                        (LearningRecordsIdRoute.updateData (now clock) i r body db) i
                        (learning_records db))
                   = filter (fun x => negb (String.eqb (LearningRecords.learner_id x)
                                              (id (user session))))
                       (learning_records db)).
    { apply filter_update_eq_id_outside; [|reflexivity].
      intros x Hx Hid.
      rewrite (unique_by_key _ LearningRecords.id _ x r Hkr Hx Hr ltac:(congruence)).
      apply not_other. exact Hmay. }
    destruct (Validations.lu_progress_percentage body);
      cbn [enrollments learning_records set_enrollments set_learning_records];
      (split; [|exact Hrec]); [|reflexivity].
    apply enrollments_filter_update_outside; [|reflexivity].
    intros x Hx Hid.
    destruct (Href r Hr) as (e0 & He0 & I1 & I2 & I3).
    rewrite (unique_by_key _ Enrollments.id _ x e0 Hke Hx He0 ltac:(congruence)).
    apply not_other. congruence.
  - destruct (record_DELETE_effect (Some session) clock i db)
      as [->|(session' & r & Hs' & Hget & Hmay & ->)]; [split; reflexivity|].
    injection Hs' as <-.
    apply (learner_acts_for_self _ _ Hrole) in Hmay.
    apply getRecord_In in Hget. destruct Hget as [Hr Hrid].
    cbn [enrollments learning_records set_learning_records]. split; [reflexivity|].
    assert (Hrest : filter (fun x => negb (String.eqb (LearningRecords.learner_id x)
                                             (id (user session))))
                      (filter (fun x => negb (String.eqb (LearningRecords.id x) i))
                         (learning_records db))
                    = filter (fun x => negb (String.eqb (LearningRecords.learner_id x)
                                               (id (user session))))
                        (learning_records db)).
    { apply filter_remove_outside. intros x Hx Hid.
      rewrite (unique_by_key _ LearningRecords.id _ x r Hkr Hx Hr ltac:(congruence)).
      apply not_other. exact Hmay. }
    rewrite <- Hrest. unfold LearningRecordsIdRoute.recomputeAfterDelete.
    destruct (truthy_number _); [|reflexivity].
    destruct (0 <? _); [|reflexivity].
    destruct (LearningRecords.latest _) as [l|] eqn:Hl; [|reflexivity].
    apply filter_update_eq_id_outside; [|reflexivity].
    intros x Hx Hid.
    apply latest_In in Hl. apply of_enrollment_In in Hl. destruct Hl as [Hl Hle].
    apply filter_In in Hx. destruct Hx as [Hx _].
    apply filter_In in Hl. destruct Hl as [Hl _].
    rewrite (unique_by_key _ LearningRecords.id _ x l Hkr Hx Hl Hid).
    destruct (Href r Hr) as (e0 & He0 & I1 & I2 & I3).
    destruct (Href l Hl) as (e1 & He1 & J1 & J2 & J3).
    assert (e1 = e0)
      by (apply (unique_by_key _ Enrollments.id _ e1 e0 Hke He1 He0); congruence).
    apply not_other. congruence.
Qed.

Lemma X13_learner_writes_only_own_rows_witness :
  enrollments_of_others "learner-2"
    (step {| caller := Some Sample.learner2;
             env := Sample.at_time (Sample.day 0) "unused";
             request :=
               UpdateLearningRecord "record-1" (Sample.recordPatch None None (Some 100)) |}
       (Sample.store in_progress (Some 40)
          [Sample.record1 "record-1" (Sample.day 0) (Some 30) 30 (Sample.day 0)]))
  = [Sample.enrollment1 in_progress (Some 40)]
  /\ records_of_others "learner-2"
       (step {| caller := Some Sample.learner2;
                env := Sample.at_time (Sample.day 0) "unused";
                request :=
                  UpdateLearningRecord "record-1"
                    (Sample.recordPatch None None (Some 100)) |}
          (Sample.store in_progress (Some 40)
             [Sample.record1 "record-1" (Sample.day 0) (Some 30) 30 (Sample.day 0)]))
     = [Sample.record1 "record-1" (Sample.day 0) (Some 30) 30 (Sample.day 0)].
Proof.
  apply (X13_learner_writes_only_own_rows
           {| caller := Some Sample.learner2;
              env := Sample.at_time (Sample.day 0) "unused";
              request :=
                UpdateLearningRecord "record-1" (Sample.recordPatch None None (Some 100)) |}
           (Sample.store in_progress (Some 40)
              [Sample.record1 "record-1" (Sample.day 0) (Some 30) 30 (Sample.day 0)])
           Sample.learner2).
  - reflexivity.
  - reflexivity.
  - split; simpl; (constructor; [intros []|constructor]).
  - intros r [<-|[]]. exists (Sample.enrollment1 in_progress (Some 40)).
    split; [left; reflexivity|repeat split].
Defined.

(** *** What the learner paths never write *)

Lemma Forall2_update_eq_id :
  forall (P : Enrollments.Row -> Enrollments.Row -> Prop) u i rows,
    (forall e, P e e) ->
    (forall e, In e rows -> Enrollments.id e = i -> P e (Enrollments.apply u e)) ->
    Forall2 P rows (Enrollments.update_eq_id u i rows).
Proof.
  intros P u i rows Hrefl Happly. unfold Enrollments.update_eq_id.
  induction rows as [|e rows IH]; cbn [map]; constructor.
  - destruct (String.eqb_spec (Enrollments.id e) i) as [Hid|Hid].
    + apply Happly; [left; reflexivity|exact Hid].
    + apply Hrefl.
  - apply IH. intros x Hx. apply Happly. right. exact Hx.
Qed.

Lemma Forall2_same :
  forall (A : Type) (P : A -> A -> Prop) (l : list A),
    (forall a, P a a) -> Forall2 P l l.
Proof.
  intros A P l H. induction l; constructor; auto.
Qed.

Lemma learner_kind_learnerUpdateData :
  forall now e body,
    learner_kind (EnrollmentsIdRoute.learnerUpdateData now e body (Enrollments.touched now)).
Proof.
  intros now e body. unfold learner_kind, EnrollmentsIdRoute.learnerUpdateData.
  destruct (Validations.eu_progress_percentage body) as [p|];
    destruct (Validations.eu_status body) as [[| | |]|];
    destruct (Enrollments.status e);
    destruct (Validations.eu_started_at body) as [ts|];
    destruct (Validations.eu_completed_at body) as [tc|];
    cbn [EnrollmentStatus_eqb andb orb];
    repeat match goal with
           | |- context [option_Z_eqb ?a ?b] => destruct (option_Z_eqb a b)
           end;
    cbn; split; auto.
Qed.

Lemma learner_kind_create :
  forall now e p, learner_kind (LearningRecordsRoute.updateData now e p).
Proof.
  intros now e p. unfold learner_kind, LearningRecordsRoute.updateData.
  destruct (EnrollmentStatus_eqb (Enrollments.status e) assigned);
    destruct (p =? 100); cbn; split; auto.
Qed.

Lemma learner_kind_update :
  forall now p, learner_kind (LearningRecordsIdRoute.enrollmentUpdateData now p).
Proof.
  intros now p. unfold learner_kind, LearningRecordsIdRoute.enrollmentUpdateData.
  destruct (p =? 100); cbn; split; auto.
Qed.

Lemma kept_from_learners_refl : forall e, kept_from_learners e e.
Proof.
  intros e. repeat split; auto.
Qed.

Lemma kept_from_learners_apply :
  forall u e, learner_kind u -> kept_from_learners e (Enrollments.apply u e).
Proof.
  intros u e [Hd Hs]. unfold kept_from_learners. cbn [Enrollments.apply
    Enrollments.status Enrollments.due_date Enrollments.learner_id Enrollments.course_id
    Enrollments.assigned_by Enrollments.assigned_at].
  rewrite Hd. cbn [override].
  destruct Hs as [->|[->| ->]]; repeat split; auto; discriminate.
Qed.

(** X14: apart from an admin's own enrollment writes, no request ever
    cancels an enrollment, puts it back to assigned, changes its due date,
    or changes who it belongs to, which course it is for, or who assigned
    it and when. *)
Theorem X14_learner_paths_never_cancel_or_reschedule :
  forall (c : Call) (db : DB),
    privileged_write c = false ->
    Forall2 kept_from_learners (enrollments db) (enrollments (step c db)).
Proof.
  intros [s clock [body|i body|i|body|i body|i]] db Hpriv;
    unfold privileged_write in Hpriv; cbn [request caller] in Hpriv;
    unfold step; cbn [request caller env].
  - unfold EnrollmentsRoute.POST, withAuth, EnrollmentsRoute.POST_handler.
    destruct s as [session|]; [rewrite Hpriv|];
      apply Forall2_same, kept_from_learners_refl.
  - destruct (enrollment_PUT_effect s clock i body db)
      as [->|(session & e & -> & _ & _ & ->)];
      [apply Forall2_same, kept_from_learners_refl|].
    rewrite Hpriv. cbn [enrollments set_enrollments].
    apply Forall2_update_eq_id; [apply kept_from_learners_refl|].
    intros x _ _. apply kept_from_learners_apply, learner_kind_learnerUpdateData.
  - rewrite enrollment_GET_effect. apply Forall2_same, kept_from_learners_refl.
  - destruct (record_POST_effect s clock body db)
      as [->|(session & e & _ & _ & _ & _ & ->)];
      [apply Forall2_same, kept_from_learners_refl|].
    destruct (Validations.lc_progress_percentage body);
      cbn [enrollments set_enrollments set_learning_records];
      [|apply Forall2_same, kept_from_learners_refl].
    apply Forall2_update_eq_id; [apply kept_from_learners_refl|].
    intros x _ _. apply kept_from_learners_apply, learner_kind_create.
  - destruct (record_PUT_effect s clock i body db)
      as [->|(session & r & _ & _ & _ & ->)];
      [apply Forall2_same, kept_from_learners_refl|].
    destruct (Validations.lu_progress_percentage body);
      cbn [enrollments set_enrollments set_learning_records];
      [|apply Forall2_same, kept_from_learners_refl].
    apply Forall2_update_eq_id; [apply kept_from_learners_refl|].
    intros x _ _. apply kept_from_learners_apply, learner_kind_update.
  - destruct (record_DELETE_effect s clock i db)
      as [->|(session & r & _ & _ & _ & ->)];
      apply Forall2_same, kept_from_learners_refl.
Qed.

Lemma X14_learner_paths_never_cancel_or_reschedule_witness :
  Forall2 kept_from_learners
    (enrollments (Sample.store assigned (Some 0) []))
    (enrollments
       (step {| caller := Some Sample.learner1;
                env := Sample.at_time (Sample.day 1) "unused";
                request :=
                  UpdateEnrollmentProgress "enrollment-1"
                    {| Validations.eu_progress_percentage := Some 10;
                       Validations.eu_status := Some cancelled;
                       Validations.eu_due_date := Some "2030-01-01";
                       Validations.eu_started_at := None;
                       Validations.eu_completed_at := None |} |}
          (Sample.store assigned (Some 0) []))).
Proof.
  apply (X14_learner_paths_never_cancel_or_reschedule
           {| caller := Some Sample.learner1;
              env := Sample.at_time (Sample.day 1) "unused";
              request :=
                UpdateEnrollmentProgress "enrollment-1"
                  {| Validations.eu_progress_percentage := Some 10;
                     Validations.eu_status := Some cancelled;
                     Validations.eu_due_date := Some "2030-01-01";
                     Validations.eu_started_at := None;
                     Validations.eu_completed_at := None |} |}
           (Sample.store assigned (Some 0) [])).
  reflexivity.
Defined.

(** X15: apart from an admin's own enrollment writes, an enrollment
    enters [completed] only when the request carries progress 100 or the
    stored progress is 100 already: a lower progress is never raised to
    100 to let a completion through. *)
Theorem X15_completion_needs_full_progress :
  forall (c : Call) (db : DB),
    privileged_write c = false ->
    Forall2 (completes_on_evidence (request_progress (request c)))
      (enrollments db) (enrollments (step c db)).
Proof.
  assert (Hrefl : forall p e, completes_on_evidence p e e)
    by (intros p e H1 H2; contradiction).
  intros [s clock [body|i body|i|body|i body|i]] db Hpriv;
    unfold privileged_write in Hpriv; cbn [request caller] in Hpriv;
    unfold step; cbn [request caller env request_progress].
  - unfold EnrollmentsRoute.POST, withAuth, EnrollmentsRoute.POST_handler.
    destruct s as [session|]; [rewrite Hpriv|]; apply Forall2_same, Hrefl.
  - destruct (enrollment_PUT_effect s clock i body db)
      as [->|(session & e & -> & Hget & _ & ->)]; [apply Forall2_same, Hrefl|].
    rewrite Hpriv. cbn [enrollments set_enrollments].
    apply Forall2_update_eq_id; [apply Hrefl|].
    intros x Hx Hid.
    assert (x = e).
    { unfold getEnrollment in Hget.
      assert (Hin : In x (filter (fun e => String.eqb (Enrollments.id e) i)
                            (enrollments db)))
        by (apply filter_In; split; [exact Hx|apply String.eqb_eq; exact Hid]).
      destruct (filter _ (enrollments db)) as [|a [|b l]]; try discriminate Hget.
      injection Hget as <-. destruct Hin as [<-|[]]. reflexivity. }
    subst x. intros Hold Hnew. revert Hnew.
    unfold EnrollmentsIdRoute.learnerUpdateData.
    destruct (Validations.eu_progress_percentage body) as [p|];
      destruct (Validations.eu_status body) as [[| | |]|];
      destruct (Enrollments.status e) eqn:Hst;
      destruct (Validations.eu_started_at body) as [ts|];
      destruct (Validations.eu_completed_at body) as [tc|];
      cbn [EnrollmentStatus_eqb andb orb option_Z_eqb];
      try destruct (Z.eqb_spec p 100) as [->|Hp];
      try (destruct (option_Z_eqb (Enrollments.progress_percentage e) (Some 100)) eqn:Hprog);
      cbn; rewrite ?Hst; intros Hnew;
      try discriminate Hnew; try (contradiction Hold; reflexivity);
      try (left; reflexivity);
      right; destruct (Enrollments.progress_percentage e) as [q|];
      try discriminate Hprog; cbn in Hprog; apply Z.eqb_eq in Hprog; subst q; reflexivity.
  - rewrite enrollment_GET_effect. apply Forall2_same, Hrefl.
  - destruct (record_POST_effect s clock body db)
      as [->|(session & e & _ & _ & _ & _ & ->)]; [apply Forall2_same, Hrefl|].
    destruct (Validations.lc_progress_percentage body) as [p|];
      cbn [enrollments set_enrollments set_learning_records];
      [|apply Forall2_same, Hrefl].
    apply Forall2_update_eq_id; [apply Hrefl|].
    intros x _ _ Hold Hnew. left. revert Hnew.
    unfold LearningRecordsRoute.updateData.
    destruct (Z.eqb_spec p 100) as [->|Hp]; [reflexivity|].
    destruct (EnrollmentStatus_eqb (Enrollments.status e) assigned); cbn; intros Hnew;
      [discriminate Hnew|contradiction].
  - destruct (record_PUT_effect s clock i body db)
      as [->|(session & r & _ & _ & _ & ->)]; [apply Forall2_same, Hrefl|].
    destruct (Validations.lu_progress_percentage body) as [p|];
      cbn [enrollments set_enrollments set_learning_records];
      [|apply Forall2_same, Hrefl].
    apply Forall2_update_eq_id; [apply Hrefl|].
    intros x _ _ Hold Hnew. left. revert Hnew.
    unfold LearningRecordsIdRoute.enrollmentUpdateData.
    destruct (Z.eqb_spec p 100) as [->|Hp]; [reflexivity|].
    cbn. intros Hnew. contradiction.
  - destruct (record_DELETE_effect s clock i db)
      as [->|(session & r & _ & _ & _ & ->)]; apply Forall2_same, Hrefl.
Qed.

Lemma X15_completion_needs_full_progress_witness :
  Forall2 (completes_on_evidence (Some 100))
    (enrollments (Sample.store in_progress (Some 40) []))
    (enrollments
       (step {| caller := Some Sample.learner1;
                env := Sample.at_time (Sample.day 1) "unused";
                request :=
                  UpdateEnrollmentProgress "enrollment-1"
                    (Sample.enrollmentPatch (Some completed) (Some 100) None None) |}
          (Sample.store in_progress (Some 40) []))).
Proof.
  apply (X15_completion_needs_full_progress
           {| caller := Some Sample.learner1;
              env := Sample.at_time (Sample.day 1) "unused";
              request :=
                UpdateEnrollmentProgress "enrollment-1"
                  (Sample.enrollmentPatch (Some completed) (Some 100) None None) |}
           (Sample.store in_progress (Some 40) [])).
  reflexivity.
Defined.

(** *** Writes that reconcile the running total *)

(** X16: an update that changes the duration of the latest record of its
    enrollment leaves the enrollment reconciled, whatever the totals
    stored before. *)
Theorem X16_update_of_latest_record_reconciles :
  forall (getServerSession : option Session) (env : Env) (learningRecordId : uuid)
         (body : Validations.LearningRecordUpdateSchema) (db db' : DB)
         (r r' : LearningRecords.Row) (status d : Z),
    LearningRecordsIdRoute.PUT getServerSession env learningRecordId body db
    = (Success status r', db') ->
    getRecord learningRecordId db = Some r ->
    LearningRecords.latest
      (LearningRecords.of_enrollment (LearningRecords.enrollment_id r)
         (learning_records db)) = Some r ->
    LearningRecordsIdRoute.sessionDurationMinutes r body = Some d ->
    LearningRecords.session_duration_minutes r <> Some d ->
    reconciled (LearningRecords.enrollment_id r) db'.
Proof.
  intros s env i body db db' r r' status d Hput Hget Hlatest Hd Hchange.
  apply PUT_learning_record_success in Hput. destruct Hput as (r0 & Hget0 & _ & Hrows).
  rewrite Hget in Hget0. injection Hget0 as <-.
  intros l Hl. rewrite Hrows in Hl |- *.
  rewrite sum_of_durations_total.
  rewrite of_enrollment_update_eq_id in Hl |- *.
  unfold LearningRecords.update_eq_id in Hl at 1.
  rewrite latest_map in Hl by (intros x; destruct (String.eqb _ _); reflexivity).
  rewrite Hlatest in Hl. cbn [option_map] in Hl.
  pose proof (getRecord_In _ _ _ Hget) as [_ Hid]. rewrite Hid, String.eqb_refl in Hl.
  injection Hl as <-.
  unfold getRecord in Hget. rewrite (total_after_update _ _ _ _ Hget).
  cbn [LearningRecords.apply LearningRecordsIdRoute.updateData
       LearningRecords.cumulative_learning_minutes
       LearningRecords.session_duration_minutes
       LearningRecords.u_cumulative_learning_minutes
       LearningRecords.u_session_duration_minutes].
  unfold LearningRecordsIdRoute.cumulativeLearningMinutes. rewrite Hd.
  assert (Hne : option_Z_eqb (Some d) (LearningRecords.session_duration_minutes r) = false).
  { destruct (LearningRecords.session_duration_minutes r) as [d'|]; [|reflexivity].
    cbn. apply Z.eqb_neq. intros ->. apply Hchange. reflexivity. }
  rewrite Hne. cbn [negb override or_zero].
  unfold LearningRecordsIdRoute.otherRecords. rewrite total_minutes_with_duration.
  reflexivity.
Qed.

Lemma X16_update_of_latest_record_reconciles_witness :
  reconciled "enrollment-1"
    (snd (LearningRecordsIdRoute.PUT (Some Sample.learner1)
            (Sample.at_time (Sample.day 1) "unused") "record-2"
            (Sample.recordPatch None (Some 45) None)
            (Sample.store in_progress (Some 40)
               [Sample.record1 "record-1" (Sample.day 0) (Some 30) 999 (Sample.day 0);
                Sample.record1 "record-2" (Sample.day 1) (Some 20) 0 (Sample.day 1)]))).
Proof.
  eapply (X16_update_of_latest_record_reconciles (Some Sample.learner1)
           (Sample.at_time (Sample.day 1) "unused") "record-2"
           (Sample.recordPatch None (Some 45) None)
           (Sample.store in_progress (Some 40)
              [Sample.record1 "record-1" (Sample.day 0) (Some 30) 999 (Sample.day 0);
               Sample.record1 "record-2" (Sample.day 1) (Some 20) 0 (Sample.day 1)])
           _ (Sample.record1 "record-2" (Sample.day 1) (Some 20) 0 (Sample.day 1))
           _ 200 45).
  - reflexivity.
  - reflexivity.
  - reflexivity.
  - reflexivity.
  - discriminate.
Defined.



Lemma created_record_total :
  forall getServerSession env body db db' status r,
    LearningRecordsRoute.POST getServerSession env body db = (Success status r, db') ->
    learning_records db' = learning_records db ++ [r]
    /\ LearningRecords.id r = gen_id env
    /\ LearningRecords.enrollment_id r = Validations.lc_enrollment_id body
    /\ LearningRecords.session_start_time r = Validations.lc_session_start_time body
    /\ LearningRecords.cumulative_learning_minutes r
       = Some (sum_of_durations (Validations.lc_enrollment_id body) (learning_records db)
               + or_zero (LearningRecords.session_duration_minutes r)).
Proof.
  intros s env body db db' status r H.
  apply POST_learning_record_success in H. destruct H as [-> Hrows].
  split; [exact Hrows|]. repeat split.
  cbn [LearningRecordsRoute.learningRecordData
       LearningRecords.cumulative_learning_minutes
       LearningRecords.session_duration_minutes].
  unfold LearningRecordsRoute.cumulativeLearningMinutes,
    LearningRecordsRoute.existingRecords.
  rewrite total_minutes_with_duration, sum_of_durations_total. reflexivity.
Qed.

(** X18: the creation of a record that starts after every record its
    enrollment already has leaves the enrollment reconciled, whatever the
    totals stored before. *)
Theorem X18_create_in_order_reconciles :
  forall (getServerSession : option Session) (env : Env)
         (body : Validations.LearningRecordCreateSchema) (db db' : DB)
         (status : Z) (r : LearningRecords.Row),
    LearningRecordsRoute.POST getServerSession env body db = (Success status r, db') ->
    (forall x, In x (learning_records db) ->
               LearningRecords.enrollment_id x = Validations.lc_enrollment_id body ->
               LearningRecords.session_start_time x
               < Validations.lc_session_start_time body) ->
    reconciled (Validations.lc_enrollment_id body) db'.
Proof.
  intros s env body db db' status r Hpost Horder.
  pose proof (created_record_total s env body db db' status r Hpost)
    as (Hrows & _ & He & Hr & Hcum).
  intros l Hl. rewrite Hrows in Hl |- *.
  unfold LearningRecords.of_enrollment in Hl. rewrite filter_app in Hl.
  cbn [filter] in Hl. rewrite He, String.eqb_refl in Hl.
  rewrite latest_app_last in Hl.
  - injection Hl as <-. rewrite Hcum. f_equal.
    rewrite !sum_of_durations_total. unfold LearningRecords.of_enrollment.
    rewrite filter_app, total_minutes_app. cbn [filter].
    rewrite He, String.eqb_refl, total_minutes_cons, total_minutes_nil. lia.
  - intros x Hx. apply filter_In in Hx. destruct Hx as [Hx Hxe].
    apply String.eqb_eq in Hxe. rewrite Hr. apply Horder; assumption.
Qed.

Lemma X18_create_in_order_reconciles_witness :
  reconciled "enrollment-1"
    (snd (LearningRecordsRoute.POST (Some Sample.learner1)
            (Sample.at_time (Sample.day 2) "record-3")
            (Sample.newRecord (Sample.day 2) None (Some 20) None)
            (Sample.store in_progress (Some 40)
               [Sample.record1 "record-1" (Sample.day 0) (Some 30) 999 (Sample.day 0);
                Sample.record1 "record-2" (Sample.day 1) None 7 (Sample.day 1)]))).
Proof.
  eapply (X18_create_in_order_reconciles (Some Sample.learner1)
            (Sample.at_time (Sample.day 2) "record-3")
            (Sample.newRecord (Sample.day 2) None (Some 20) None)
            (Sample.store in_progress (Some 40)
               [Sample.record1 "record-1" (Sample.day 0) (Some 30) 999 (Sample.day 0);
                Sample.record1 "record-2" (Sample.day 1) None 7 (Sample.day 1)])
            _ 201).
  - reflexivity.
  - intros x [<-|[<-|[]]] _; vm_compute; reflexivity.
Defined.

Lemma created_record_fresh :
  forall getServerSession env body db db' status r,
    LearningRecordsRoute.POST getServerSession env body db = (Success status r, db') ->
    forall x, In x (learning_records db) -> LearningRecords.id x <> gen_id env.
Proof.
  intros [session|] env body db db' status r;
    unfold LearningRecordsRoute.POST, withAuth, LearningRecordsRoute.POST_handler;
    [|discriminate].
  destruct (existsb _ (learning_records db)) eqn:Hfresh.
  - split_handler; intros H; discriminate H.
  - intros _ x Hx Hid.
    rewrite (existsb_some _ _ _ x Hx) in Hfresh; [discriminate Hfresh|].
    apply String.eqb_eq. exact Hid.
Qed.

Lemma sum_of_durations_recompute :
  forall e r rows,
    sum_of_durations e (LearningRecordsIdRoute.recomputeAfterDelete r rows)
    = sum_of_durations e rows.
Proof.
  intros e r rows. unfold LearningRecordsIdRoute.recomputeAfterDelete.
  destruct (truthy_number _); [|reflexivity].
  destruct (0 <? _); [|reflexivity].
  destruct (LearningRecords.latest _); [|reflexivity].
  rewrite !sum_of_durations_total, of_enrollment_update_eq_id.
  apply total_minutes_only_cumulative.
Qed.

Lemma filter_all :
  forall (A : Type) (p : A -> bool) (l : list A),
    (forall x, In x l -> p x = true) -> filter p l = l.
Proof.
  intros A p l H. apply forallb_filter_id, forallb_forall. exact H.
Qed.

(** X19: creating a learning record and then deleting it leaves the
    table with the identifiers it had, in the same order, and every
    enrollment with the sum of durations it had. *)
Theorem X19_create_then_delete_restores_totals :
  forall (s1 s2 : option Session) (env1 env2 : Env)
         (body : Validations.LearningRecordCreateSchema) (db db1 db2 : DB)
         (status1 status2 : Z) (r : LearningRecords.Row) (u : unit),
    LearningRecordsRoute.POST s1 env1 body db = (Success status1 r, db1) ->
    LearningRecordsIdRoute.DELETE s2 env2 (LearningRecords.id r) db1
    = (Success status2 u, db2) ->
    map LearningRecords.id (learning_records db2)
    = map LearningRecords.id (learning_records db)
    /\ forall e,
        sum_of_durations e (learning_records db2)
        = sum_of_durations e (learning_records db).
Proof.
  intros s1 s2 env1 env2 body db db1 db2 st1 st2 r u Hpost Hdel.
  pose proof (created_record_fresh _ _ _ _ _ _ _ Hpost) as Hfresh.
  pose proof (created_record_total _ _ _ _ _ _ _ Hpost) as (Hrows1 & Hid & _).
  apply DELETE_learning_record_success in Hdel. destruct Hdel as (r0 & _ & Hrows2).
  assert (Hback : filter (fun x => negb (String.eqb (LearningRecords.id x)
                                           (LearningRecords.id r)))
                    (learning_records db1)
                  = learning_records db).
  { rewrite Hrows1, filter_app. cbn [filter]. rewrite String.eqb_refl. cbn [negb].
    rewrite app_nil_r. apply filter_all. intros x Hx.
    apply negb_true_iff, String.eqb_neq. rewrite Hid. apply Hfresh. exact Hx. }
  rewrite Hrows2, Hback. split.
  - apply recomputeAfterDelete_ids.
  - intros e. apply sum_of_durations_recompute.
Qed.

Lemma X19_create_then_delete_restores_totals_witness :
  sum_of_durations "enrollment-1"
    (learning_records
       (snd (LearningRecordsIdRoute.DELETE (Some Sample.learner1)
               (Sample.at_time (Sample.day 2) "unused") "record-3"
               (snd (LearningRecordsRoute.POST (Some Sample.learner1)
                       (Sample.at_time (Sample.day 2) "record-3")
                       (Sample.newRecord (Sample.day 2) None (Some 20) None)
                       (Sample.store in_progress (Some 40)
                          [Sample.record1 "record-1" (Sample.day 0) (Some 30) 30
                             (Sample.day 0)]))))))
  = sum_of_durations "enrollment-1"
      (learning_records
         (Sample.store in_progress (Some 40)
            [Sample.record1 "record-1" (Sample.day 0) (Some 30) 30 (Sample.day 0)])).
Proof.
  eapply (X19_create_then_delete_restores_totals (Some Sample.learner1)
            (Some Sample.learner1) (Sample.at_time (Sample.day 2) "record-3")
            (Sample.at_time (Sample.day 2) "unused")
            (Sample.newRecord (Sample.day 2) None (Some 20) None)
            (Sample.store in_progress (Some 40)
               [Sample.record1 "record-1" (Sample.day 0) (Some 30) 30 (Sample.day 0)])
            _ _ 201 200 _ tt).
  - reflexivity.
  - reflexivity.
Defined.

(** *** Enrollment and access *)

Lemma enrollment_POST_success :
  forall getServerSession env body db status e db',
    EnrollmentsRoute.POST getServerSession env body db = (Success status e, db') ->
    single
      (filter
         (fun x =>
            String.eqb (Enrollments.learner_id x) (Validations.ec_learner_id body)
            && String.eqb (Enrollments.course_id x) (Validations.ec_course_id body))
         (enrollments db)) = None
    /\ (forall x, In x (enrollments db) -> Enrollments.id x <> Enrollments.id e)
    /\ Enrollments.learner_id e = Validations.ec_learner_id body
    /\ Enrollments.course_id e = Validations.ec_course_id body
    /\ enrollments db' = enrollments db ++ [e]
    /\ learning_records db' = learning_records db.
Proof.
  intros [session|] env body db status e db';
    unfold EnrollmentsRoute.POST, withAuth, EnrollmentsRoute.POST_handler;
    [|discriminate].
  destruct (negb (AuthHelpers.isAdmin (Some session))); [discriminate|].
  destruct (single (filter _ (users db))) as [u|]; [|discriminate].
  destruct (Users.role u) as [[|]|]; try discriminate.
  destruct (single (filter _ (courses db))) as [c|]; [|discriminate].
  destruct (Courses.is_active c) as [[|]|]; cbn [negb]; try discriminate.
  destruct (single (filter _ (enrollments db))) eqn:Hdup; [discriminate|].
  destruct (existsb _ (enrollments db)) eqn:Hfresh; [discriminate|].
  intros H. injection H as _ <- <-. split; [reflexivity|]. split; [|repeat split].
  intros x Hx Hid. cbn [Enrollments.id] in Hid.
  rewrite (existsb_some _ _ _ x Hx) in Hfresh; [discriminate Hfresh|].
  apply String.eqb_eq. exact Hid.
Qed.

Lemma access_filter :
  forall courseId learnerId rows,
    filter (fun e => String.eqb (Enrollments.course_id e) courseId
                     && String.eqb (Enrollments.learner_id e) learnerId) rows
    = filter (fun e => String.eqb (Enrollments.learner_id e) learnerId
                       && String.eqb (Enrollments.course_id e) courseId) rows.
Proof.
  intros c l rows. apply filter_ext. intros e. apply andb_comm.
Qed.

Lemma canAccessCourse_learner :
  forall courseId session g db,
    role (user session) = learner ->
    AuthHelpers.canAccessCourse courseId (Some session) g (Resolved db)
    = Resolved
        (is_some
           (single
              (filter (fun e => String.eqb (Enrollments.learner_id e) (id (user session))
                                && String.eqb (Enrollments.course_id e) courseId)
                 (enrollments db)))).
Proof.
  intros c session g db Hrole.
  unfold AuthHelpers.canAccessCourse, AuthHelpers.currentSession.
  cbn [AuthHelpers.isAuthenticated is_some negb].
  rewrite (isAdmin_learner session Hrole), access_filter. reflexivity.
Qed.

(** X20: enrolling a learner in a course is what gives them access to
    it, and deleting the enrollment takes the access away: in a store
    with at most one enrollment per learner and course, [canAccessCourse]
    says no before the creation, yes after it, and no again after the
    deletion. *)
Theorem X20_course_access_follows_enrollment :
  forall (learnerSession : Session) (g : Outcome (option Session)) (db : DB),
    role (user learnerSession) = learner ->
    one_enrollment_per_pair db ->
    (forall s env body status e db',
        EnrollmentsRoute.POST s env body db = (Success status e, db') ->
        Validations.ec_learner_id body = id (user learnerSession) ->
        AuthHelpers.canAccessCourse (Validations.ec_course_id body) (Some learnerSession) g
          (Resolved db) = Resolved false
        /\ AuthHelpers.canAccessCourse (Validations.ec_course_id body)
             (Some learnerSession) g (Resolved db') = Resolved true)
    /\ (forall s i status u db' e,
           EnrollmentsIdRoute.DELETE s i db = (Success status u, db') ->
           getEnrollment i db = Some e ->
           Enrollments.learner_id e = id (user learnerSession) ->
           AuthHelpers.canAccessCourse (Enrollments.course_id e) (Some learnerSession) g
             (Resolved db) = Resolved true
           /\ AuthHelpers.canAccessCourse (Enrollments.course_id e)
                (Some learnerSession) g (Resolved db') = Resolved false).
Proof.
  intros ls g db Hrole Hpair. split.
  - intros s env body status e db' Hpost Hl.
    apply enrollment_POST_success in Hpost.
    destruct Hpost as (Hdup & _ & Hel & Hec & Hrows & _).
    rewrite !canAccessCourse_learner by exact Hrole.
    rewrite Hl in Hdup, Hel.
    pose proof (single_none_short _ _ Hdup (Hpair _ _)) as Hnil.
    rewrite Hrows, filter_app, Hnil. cbn [filter app].
    rewrite Hel, Hec, !String.eqb_refl. split; reflexivity.
  - intros s i status u db' e Hdel Hget Hl.
    rewrite !canAccessCourse_learner by exact Hrole.
    unfold getEnrollment in Hget. apply single_In in Hget. destruct Hget as [He Hid].
    apply String.eqb_eq in Hid.
    assert (Hone : filter (fun x => String.eqb (Enrollments.learner_id x) (id (user ls))
                                    && String.eqb (Enrollments.course_id x)
                                         (Enrollments.course_id e))
                     (enrollments db) = [e]).
    { assert (Hin : In e (filter (fun x => String.eqb (Enrollments.learner_id x)
                                              (id (user ls))
                                            && String.eqb (Enrollments.course_id x)
                                                 (Enrollments.course_id e))
                            (enrollments db))).
      { apply filter_In. split; [exact He|]. rewrite Hl, !String.eqb_refl. reflexivity. }
      specialize (Hpair (id (user ls)) (Enrollments.course_id e)).
      destruct (filter _ (enrollments db)) as [|a [|b l]];
        [contradiction| |simpl in Hpair; lia].
      destruct Hin as [->|[]]. reflexivity. }
    rewrite Hone. split; [reflexivity|].
    destruct (enrollment_DELETE_effect s i db) as [Hsame|[_ Hdb]].
    + exfalso. revert Hdel Hsame.
      unfold EnrollmentsIdRoute.DELETE, withAuth, EnrollmentsIdRoute.DELETE_handler.
      destruct s as [session|]; [|discriminate].
      split_handler; intros Hdel Hsame; try discriminate Hdel.
      injection Hdel as _ _ <-.
      assert (Hin : In e (enrollments db)) by exact He.
      rewrite <- Hsame in Hin at 1. cbn [snd enrollments set_enrollments] in Hin.
      apply filter_In in Hin. destruct Hin as [_ Hne].
      rewrite Hid, String.eqb_refl in Hne. discriminate Hne.
    + rewrite Hdel in Hdb. cbn [snd] in Hdb. rewrite Hdb.
      cbn [enrollments set_enrollments]. rewrite filter_comm, Hone. cbn [filter].
      rewrite Hid, String.eqb_refl. reflexivity.
Qed.

Lemma X20_course_access_follows_enrollment_witness :
  AuthHelpers.canAccessCourse "course-1" (Some Sample.learner1) Thrown
    (Resolved Sample.empty_store) = Resolved false
  /\ AuthHelpers.canAccessCourse "course-1" (Some Sample.learner1) Thrown
       (Resolved
          (snd (EnrollmentsRoute.POST (Some Sample.admin1)
                  (Sample.at_time (Sample.day 0) "enrollment-1")
                  {| Validations.ec_learner_id := "learner-1";
                     Validations.ec_course_id := "course-1";
                     Validations.ec_due_date := None;
                     Validations.ec_status := None |} Sample.empty_store)))
     = Resolved true.
Proof.
  assert (Hpair : one_enrollment_per_pair Sample.empty_store).
  { intros learnerId courseId. simpl. lia. }
  destruct (X20_course_access_follows_enrollment Sample.learner1 Thrown
              Sample.empty_store eq_refl Hpair) as [Hcreate _].
  exact (Hcreate (Some Sample.admin1) (Sample.at_time (Sample.day 0) "enrollment-1")
           {| Validations.ec_learner_id := "learner-1";
              Validations.ec_course_id := "course-1";
              Validations.ec_due_date := None;
              Validations.ec_status := None |} 201 _ _ eq_refl eq_refl).
Defined.

(** *** Reading back what was created *)

Lemma fresh_row_by_id :
  forall (A : Type) (key : A -> string) (rows : list A) (a : A),
    (forall x, In x rows -> key x <> key a) ->
    filter (fun x => String.eqb (key x) (key a)) (rows ++ [a]) = [a].
Proof.
  intros A key rows a Hfresh. rewrite filter_app, filter_none.
  - cbn [filter app]. rewrite String.eqb_refl. reflexivity.
  - intros x Hx. apply String.eqb_neq. apply Hfresh. exact Hx.
Qed.

(** X21: an enrollment that was just created is read back, unchanged and
    without a change of the store, by every admin and by the learner it
    is for; every other learner is told that it does not exist. *)
Theorem X21_created_enrollment_is_read_back :
  forall (getServerSession : option Session) (env : Env)
         (body : Validations.EnrollmentCreateSchema) (db db' : DB) (status : Z)
         (e : Enrollments.Row) (reader : Session),
    EnrollmentsRoute.POST getServerSession env body db = (Success status e, db') ->
    EnrollmentsIdRoute.GET (Some reader) (Enrollments.id e) db'
    = if UserRole_eqb (role (user reader)) admin
         || String.eqb (Validations.ec_learner_id body) (id (user reader))
      then (Success 200 e, db')
      else (Failure NotFound, db').
Proof.
  intros s env body db db' status e reader Hpost.
  apply enrollment_POST_success in Hpost.
  destruct Hpost as (_ & Hfresh & Hl & _ & Hrows & _).
  unfold EnrollmentsIdRoute.GET, withAuth, EnrollmentsIdRoute.GET_handler.
  rewrite Hrows, (fresh_row_by_id _ Enrollments.id _ e Hfresh).
  unfold AuthHelpers.isAdmin.
  destruct (UserRole_eqb (role (user reader)) admin); cbn [negb orb]; [reflexivity|].
  cbn [filter]. rewrite Hl.
  destruct (String.eqb (Validations.ec_learner_id body) (id (user reader)));
    reflexivity.
Qed.

Lemma X21_created_enrollment_is_read_back_witness :
  exists e db',
    EnrollmentsRoute.POST (Some Sample.admin1) (Sample.at_time (Sample.day 0) "enrollment-1")
      {| Validations.ec_learner_id := "learner-1";
         Validations.ec_course_id := "course-1";
         Validations.ec_due_date := None;
         Validations.ec_status := None |} Sample.empty_store
    = (Success 201 e, db')
    /\ EnrollmentsIdRoute.GET (Some Sample.learner1) (Enrollments.id e) db'
       = (Success 200 e, db')
    /\ EnrollmentsIdRoute.GET (Some Sample.learner2) (Enrollments.id e) db'
       = (Failure NotFound, db').
Proof.
  eexists. eexists. split; [vm_compute; reflexivity|]. split.
  - exact (X21_created_enrollment_is_read_back (Some Sample.admin1)
             (Sample.at_time (Sample.day 0) "enrollment-1")
             {| Validations.ec_learner_id := "learner-1";
                Validations.ec_course_id := "course-1";
                Validations.ec_due_date := None;
                Validations.ec_status := None |} Sample.empty_store _ 201 _
             Sample.learner1 eq_refl).
  - exact (X21_created_enrollment_is_read_back (Some Sample.admin1)
             (Sample.at_time (Sample.day 0) "enrollment-1")
             {| Validations.ec_learner_id := "learner-1";
                Validations.ec_course_id := "course-1";
                Validations.ec_due_date := None;
                Validations.ec_status := None |} Sample.empty_store _ 201 _
             Sample.learner2 eq_refl).
Defined.

Lemma record_POST_author :
  forall session env body db status r db',
    LearningRecordsRoute.POST (Some session) env body db = (Success status r, db') ->
    AuthHelpers.isAdmin (Some session) = true
    \/ Validations.lc_learner_id body = id (user session).
Proof.
  intros session env body db status r db'.
  unfold LearningRecordsRoute.POST, withAuth, LearningRecordsRoute.POST_handler.
  destruct (negb (Validations.learningRecordCreateSchema body)); [discriminate|].
  destruct (AuthHelpers.isAdmin (Some session)) eqn:Hadm; [left; reflexivity|].
  cbn [negb andb].
  destruct (String.eqb (Validations.lc_learner_id body) (id (user session))) eqn:Hown.
  - intros _. right. apply String.eqb_eq. exact Hown.
  - cbn [negb]. discriminate.
Qed.

(** X22: a learning record that was just created is read back, unchanged
    and without a change of the store, by the caller who created it and
    by every admin, and is refused with Forbidden to every learner other
    than the one it belongs to. *)
Theorem X22_created_record_is_read_back :
  forall (author : Session) (env : Env)
         (body : Validations.LearningRecordCreateSchema) (db db' : DB) (status : Z)
         (r : LearningRecords.Row),
    LearningRecordsRoute.POST (Some author) env body db = (Success status r, db') ->
    LearningRecordsIdRoute.GET (Some author) (LearningRecords.id r) db'
    = (Success 200 r, db')
    /\ forall reader : Session,
        LearningRecordsIdRoute.GET (Some reader) (LearningRecords.id r) db'
        = if UserRole_eqb (role (user reader)) admin
             || String.eqb (Validations.lc_learner_id body) (id (user reader))
          then (Success 200 r, db')
          else (Failure Forbidden, db').
Proof.
  intros author env body db db' status r Hpost.
  assert (Hread : forall reader : Session,
             LearningRecordsIdRoute.GET (Some reader) (LearningRecords.id r) db'
             = if UserRole_eqb (role (user reader)) admin
                  || String.eqb (Validations.lc_learner_id body) (id (user reader))
               then (Success 200 r, db')
               else (Failure Forbidden, db')).
  { intros reader.
    pose proof (created_record_fresh _ _ _ _ _ _ _ Hpost) as Hfresh.
    apply POST_learning_record_success in Hpost. destruct Hpost as [Hr Hrows].
    assert (Hid : LearningRecords.id r = gen_id env) by (rewrite Hr; reflexivity).
    assert (Hl : LearningRecords.learner_id r = Validations.lc_learner_id body)
      by (rewrite Hr; reflexivity).
    rewrite <- Hid in Hfresh.
    unfold LearningRecordsIdRoute.GET, withAuth, LearningRecordsIdRoute.GET_handler,
      AuthHelpers.canAccessLearningRecord, AuthHelpers.currentSession.
    cbn [AuthHelpers.isAuthenticated is_some negb].
    rewrite Hrows, (fresh_row_by_id _ LearningRecords.id _ r Hfresh).
    unfold AuthHelpers.isAdmin, single.
    destruct (UserRole_eqb (role (user reader)) admin); cbn [orb]; [reflexivity|].
    rewrite Hl.
    destruct (String.eqb (Validations.lc_learner_id body) (id (user reader)));
      reflexivity. }
  split; [|exact Hread].
  rewrite Hread. destruct (record_POST_author _ _ _ _ _ _ _ Hpost) as [Hadm|Hown].
  - unfold AuthHelpers.isAdmin in Hadm. rewrite Hadm. reflexivity.
  - rewrite Hown, String.eqb_refl, orb_true_r. reflexivity.
Qed.

Lemma X22_created_record_is_read_back_witness :
  exists r db',
    LearningRecordsRoute.POST (Some Sample.learner1)
      (Sample.at_time (Sample.day 2) "record-3")
      (Sample.newRecord (Sample.day 2) None (Some 20) None)
      (Sample.store in_progress (Some 40)
         [Sample.record1 "record-1" (Sample.day 0) (Some 30) 30 (Sample.day 0)])
    = (Success 201 r, db')
    /\ LearningRecordsIdRoute.GET (Some Sample.learner1) (LearningRecords.id r) db'
       = (Success 200 r, db')
    /\ LearningRecordsIdRoute.GET (Some Sample.learner2) (LearningRecords.id r) db'
       = (Failure Forbidden, db').
Proof.
  eexists. eexists. split; [vm_compute; reflexivity|].
  destruct (X22_created_record_is_read_back Sample.learner1
              (Sample.at_time (Sample.day 2) "record-3")
              (Sample.newRecord (Sample.day 2) None (Some 20) None)
              (Sample.store in_progress (Some 40)
                 [Sample.record1 "record-1" (Sample.day 0) (Some 30) 30 (Sample.day 0)])
              _ 201 _ eq_refl) as [Hauthor Hreader].
  split; [exact Hauthor|exact (Hreader Sample.learner2)].
Defined.

(** *** The page list of the pagination component *)

Import PaginationComponent.

Lemma PageItem_eqb_eq : forall a b, PageItem_eqb a b = true <-> a = b.
Proof.
  intros [n|] [m|]; simpl; split; intros H; try discriminate H; try reflexivity.
  - apply Z.eqb_eq in H. subst. reflexivity.
  - injection H as ->. apply Z.eqb_refl.
Qed.

Lemma Set_add_new :
  forall set value, ~ In value set -> Set_add set value = set ++ [value].
Proof.
  intros set value Hnot. unfold Set_add.
  destruct (existsb _ set) eqn:Hex; [|reflexivity].
  apply existsb_exists in Hex. destruct Hex as [x [Hx Heq]].
  apply PageItem_eqb_eq in Heq. subst x. contradiction.
Qed.

Lemma Set_add_old :
  forall set value, In value set -> Set_add set value = set.
Proof.
  intros set value Hin. unfold Set_add.
  destruct (existsb _ set) eqn:Hex; [reflexivity|].
  assert (existsb (PageItem_eqb value) set = true) as Hex'.
  { apply existsb_exists. exists value. split; [exact Hin|]. apply PageItem_eqb_eq.
    reflexivity. }
  rewrite Hex' in Hex. discriminate Hex.
Qed.

Lemma Set_of_fresh :
  forall pages set,
    NoDup (set ++ pages) -> fold_left Set_add pages set = set ++ pages.
Proof.
  induction pages as [|x pages IH]; intros set Hnd; cbn [fold_left].
  - rewrite app_nil_r. reflexivity.
  - rewrite Set_add_new.
    + rewrite IH; rewrite <- app_assoc; [reflexivity|exact Hnd].
    + apply NoDup_remove_2 in Hnd. intros Hin. apply Hnd. apply in_or_app. left.
      exact Hin.
Qed.

Lemma filter_adjacent_NoDup :
  forall arr before,
    NoDup arr ->
    (forall previous, before = Some previous -> ~ In previous arr) ->
    filter_adjacent before arr = arr.
Proof.
  induction arr as [|x arr IH]; intros before Hnd Hbefore; [reflexivity|].
  cbn [filter_adjacent]. inversion Hnd as [|? ? Hx Hnd']; subst.
  rewrite IH; [|exact Hnd'|intros p Hp; injection Hp as <-; exact Hx].
  assert (Hkeep : match x with
                  | ellipsis => true
                  | page _ => match before with
                              | None => true
                              | Some previous => negb (PageItem_eqb previous x)
                              end
                  end = true).
  { destruct x as [n|]; [|reflexivity]. destruct before as [p|]; [|reflexivity].
    destruct (PageItem_eqb p (page n)) eqn:Heq; [|reflexivity].
    apply PageItem_eqb_eq in Heq. subst p. exfalso.
    apply (Hbefore (page n) eq_refl). left. reflexivity. }
  rewrite Hkeep. reflexivity.
Qed.

Lemma pushRange_consecutive :
  forall from to pages, pushRange from to pages = pages ++ map page (consecutive from to).
Proof.
  intros from to pages. unfold pushRange, consecutive. rewrite map_map. reflexivity.
Qed.

Lemma consecutive_In :
  forall from to n, In n (consecutive from to) <-> from <= n <= to.
Proof.
  intros from to n. unfold consecutive. rewrite in_map_iff. split.
  - intros [k [<- Hk]]. apply in_seq in Hk. lia.
  - intros H. exists (Z.to_nat (n - from)). split; [lia|]. apply in_seq. lia.
Qed.

Lemma increasing_from :
  forall (count start : nat) (from : Z),
    StronglySorted Z.lt (map (fun k => from + Z.of_nat k) (seq start count)).
Proof.
  induction count as [|count IH]; intros start from; cbn [seq map]; constructor.
  - apply IH.
  - apply Forall_forall. intros x Hx. apply in_map_iff in Hx.
    destruct Hx as [k [<- Hk]]. apply in_seq in Hk. lia.
Qed.

Lemma consecutive_increasing :
  forall from to, StronglySorted Z.lt (consecutive from to).
Proof.
  intros from to. apply increasing_from.
Qed.

Lemma increasing_app :
  forall l1 l2 : list Z,
    StronglySorted Z.lt l1 -> StronglySorted Z.lt l2 ->
    (forall x y, In x l1 -> In y l2 -> x < y) ->
    StronglySorted Z.lt (l1 ++ l2).
Proof.
  induction l1 as [|a l1 IH]; intros l2 H1 H2 Hlt; [exact H2|].
  cbn [app]. inversion H1 as [|? ? Hs Ha]; subst. constructor.
  - apply IH; [exact Hs|exact H2|]. intros x y Hx Hy. apply Hlt; [right; exact Hx|exact Hy].
  - apply Forall_app. split; [exact Ha|]. apply Forall_forall. intros y Hy.
    apply Hlt; [left; reflexivity|exact Hy].
Qed.

Lemma increasing_NoDup :
  forall l : list Z, StronglySorted Z.lt l -> NoDup l.
Proof.
  induction l as [|a l IH]; intros H; constructor; inversion H as [|? ? Hs Ha]; subst.
  - intros Hin. rewrite Forall_forall in Ha. specialize (Ha a Hin). lia.
  - apply IH. exact Hs.
Qed.

Lemma numbers_app :
  forall l1 l2, numbers (l1 ++ l2) = numbers l1 ++ numbers l2.
Proof.
  intros l1 l2. unfold numbers. apply flat_map_app.
Qed.

Lemma numbers_pages : forall l, numbers (map page l) = l.
Proof.
  induction l as [|a l IH]; [reflexivity|]. cbn. f_equal. exact IH.
Qed.

Lemma ellipses_app :
  forall l1 l2, ellipses (l1 ++ l2) = (ellipses l1 + ellipses l2)%nat.
Proof.
  intros l1 l2. unfold ellipses. rewrite filter_app, length_app. reflexivity.
Qed.

Lemma ellipses_pages : forall l, ellipses (map page l) = 0%nat.
Proof.
  induction l as [|a l IH]; [reflexivity|]. exact IH.
Qed.

Lemma pages_NoDup : forall l, NoDup l -> NoDup (map page l).
Proof.
  induction l as [|a l IH]; intros H; cbn [map]; constructor;
    inversion H as [|? ? Ha Hl]; subst.
  - intros Hin. apply in_map_iff in Hin. destruct Hin as [x [Hx Hin]].
    injection Hx as ->. contradiction.
  - apply IH. exact Hl.
Qed.

Lemma ellipsis_not_page : forall l, ~ In ellipsis (map page l).
Proof.
  intros l H. apply in_map_iff in H. destruct H as [x [Hx _]]. discriminate Hx.
Qed.

Lemma page_In : forall n l, In (page n) (map page l) <-> In n l.
Proof.
  intros n l. rewrite in_map_iff. split.
  - intros [x [Hx Hin]]. injection Hx as ->. exact Hin.
  - intros H. exists n. split; [reflexivity|exact H].
Qed.

Lemma numbers_In : forall n l, In (page n) l <-> In n (numbers l).
Proof.
  intros n l. unfold numbers. rewrite in_flat_map. split.
  - intros H. exists (page n). split; [exact H|left; reflexivity].
  - intros [[m|] [Hx Hin]]; [|contradiction]. destruct Hin as [->|[]]. exact Hx.
Qed.

Lemma ellipses_In : forall l, In ellipsis l -> (0 < ellipses l)%nat.
Proof.
  induction l as [|[n|] l IH]; intros H.
  - contradiction.
  - destruct H as [H|H]; [discriminate H|]. exact (IH H).
  - unfold ellipses. simpl. lia.
Qed.

Lemma increasing_one_ellipsis_NoDup :
  forall l, StronglySorted Z.lt (numbers l) -> (ellipses l <= 1)%nat -> NoDup l.
Proof.
  induction l as [|[n|] l IH]; intros Hsorted Hone; constructor.
  - intros Hin. apply numbers_In in Hin. cbn in Hsorted.
    inversion Hsorted as [|? ? _ Hall]; subst. rewrite Forall_forall in Hall.
    specialize (Hall n Hin). lia.
  - apply IH; [|exact Hone]. cbn in Hsorted. inversion Hsorted; assumption.
  - intros Hin. apply ellipses_In in Hin. unfold ellipses in Hone, Hin.
    simpl in Hone. lia.
  - apply IH; [exact Hsorted|]. unfold ellipses in *. simpl in Hone. lia.
Qed.

Lemma generatePageNumbers_of_NoDup :
  forall pages, NoDup pages -> filter_adjacent None (Set_of pages) = pages.
Proof.
  intros pages Hnd. unfold Set_of. rewrite Set_of_fresh by exact Hnd.
  cbn [app]. apply filter_adjacent_NoDup; [exact Hnd|]. intros p Hp. discriminate Hp.
Qed.

(** The three shapes of the page list. *)
Lemma near_start_increasing :
  forall t s,
    0 <= s -> 1 < t ->
    StronglySorted Z.lt
      (numbers (map page (1 :: consecutive 2 (Z.min t (s + 3)))
                ++ (if t >? s + 3 then [ellipsis; page t] else []))).
Proof.
  intros t s Hs Ht. rewrite numbers_app, numbers_pages.
  apply increasing_app.
  - constructor; [apply consecutive_increasing|].
    apply Forall_forall. intros x Hx. apply consecutive_In in Hx. lia.
  - destruct (t >? s + 3); cbn; repeat constructor.
  - intros x y Hx Hy. destruct (t >? s + 3) eqn:Hgt; [|contradiction].
    apply Z.gtb_lt in Hgt. destruct Hy as [<-|[]].
    destruct Hx as [<-|Hx]; [lia|]. apply consecutive_In in Hx. lia.
Qed.

Lemma generatePageNumbers_near_start :
  forall currentPage totalPages showSiblings,
    0 <= showSiblings -> 1 < totalPages -> currentPage <= showSiblings + 2 ->
    generatePageNumbers currentPage totalPages showSiblings
    = map page (1 :: consecutive 2 (Z.min totalPages (showSiblings + 3)))
      ++ (if totalPages >? showSiblings + 3 then [ellipsis; page totalPages] else []).
Proof.
  intros c t s Hs Ht Hc. unfold generatePageNumbers.
  apply Z.leb_le in Hc. rewrite Hc. rewrite pushRange_consecutive.
  pose proof (near_start_increasing t s Hs Ht) as Hinc.
  assert (Hone : le (ellipses
                    (map page (1 :: consecutive 2 (Z.min t (s + 3)))
                     ++ (if t >? s + 3 then [ellipsis; page t] else []))) 1).
  { rewrite ellipses_app, ellipses_pages. destruct (t >? s + 3); cbn; lia. }
  pose proof (increasing_one_ellipsis_NoDup _ Hinc Hone) as Hnd.
  rewrite <- (generatePageNumbers_of_NoDup _ Hnd). do 2 f_equal.
  destruct (t >? s + 3); [reflexivity|]. rewrite app_nil_r. reflexivity.
Qed.

Lemma near_end_increasing :
  forall t s,
    0 <= s -> 1 < t ->
    StronglySorted Z.lt
      (numbers (([page 1] ++ (if t >? s + 3 then [ellipsis] else []))
                ++ map page (consecutive (Z.max 2 (t - s - 2)) t))).
Proof.
  intros t s Hs Ht. rewrite !numbers_app, numbers_pages.
  replace (numbers (if t >? s + 3 then [ellipsis] else [])) with (@nil Z)
    by (destruct (t >? s + 3); reflexivity).
  cbn. constructor; [apply consecutive_increasing|].
  apply Forall_forall. intros x Hx. apply consecutive_In in Hx. lia.
Qed.

Lemma generatePageNumbers_near_end :
  forall currentPage totalPages showSiblings,
    0 <= showSiblings -> 1 < totalPages ->
    showSiblings + 2 < currentPage -> totalPages - showSiblings - 1 <= currentPage ->
    generatePageNumbers currentPage totalPages showSiblings
    = ([page 1] ++ (if totalPages >? showSiblings + 3 then [ellipsis] else []))
      ++ map page (consecutive (Z.max 2 (totalPages - showSiblings - 2)) totalPages).
Proof.
  intros c t s Hs Ht Hc Hend. unfold generatePageNumbers.
  apply Z.leb_gt in Hc. rewrite Hc. apply Z.geb_le in Hend. rewrite Hend.
  pose proof (near_end_increasing t s Hs Ht) as Hinc.
  assert (Hone : le (ellipses
                    (([page 1] ++ (if t >? s + 3 then [ellipsis] else []))
                     ++ map page (consecutive (Z.max 2 (t - s - 2)) t))) 1).
  { rewrite !ellipses_app, ellipses_pages. destruct (t >? s + 3); cbn; lia. }
  pose proof (increasing_one_ellipsis_NoDup _ Hinc Hone) as Hnd.
  rewrite <- (generatePageNumbers_of_NoDup _ Hnd).
  rewrite pushRange_consecutive. do 3 f_equal.
  destruct (t >? s + 3); [reflexivity|]. rewrite app_nil_r. reflexivity.
Qed.

Lemma middle_increasing :
  forall c t s,
    0 <= s -> s + 2 < c -> c < t - s - 1 ->
    StronglySorted Z.lt
      (numbers (([page 1; ellipsis] ++ map page (consecutive (c - s) (c + s)))
                ++ [page t])).
Proof.
  intros c t s Hs Hc Hend. rewrite !numbers_app, numbers_pages. cbn [numbers flat_map app].
  constructor.
  - apply increasing_app; [apply consecutive_increasing|repeat constructor|].
    intros x y Hx [<-|[]]. apply consecutive_In in Hx. lia.
  - apply Forall_app. split; [|constructor; [lia|constructor]].
    apply Forall_forall. intros x Hx. apply consecutive_In in Hx. lia.
Qed.

Lemma generatePageNumbers_middle :
  forall currentPage totalPages showSiblings,
    0 <= showSiblings ->
    showSiblings + 2 < currentPage -> currentPage < totalPages - showSiblings - 1 ->
    generatePageNumbers currentPage totalPages showSiblings
    = ([page 1; ellipsis]
       ++ map page (consecutive (currentPage - showSiblings) (currentPage + showSiblings)))
      ++ [page totalPages].
Proof.
  intros c t s Hs Hc Hend. unfold generatePageNumbers.
  pose proof (middle_increasing c t s Hs Hc Hend) as Hinc.
  assert (Hone : le (ellipses
                    (([page 1; ellipsis] ++ map page (consecutive (c - s) (c + s)))
                     ++ [page t])) 1).
  { rewrite !ellipses_app, ellipses_pages. cbn. lia. }
  pose proof (increasing_one_ellipsis_NoDup _ Hinc Hone) as Hnd.
  apply Z.leb_gt in Hc. rewrite Hc.
  assert (Hmid : (c >=? t - s - 1) = false) by (rewrite Z.geb_leb; apply Z.leb_gt; lia).
  rewrite Hmid. rewrite pushRange_consecutive.
  rewrite <- (filter_adjacent_NoDup _ None Hnd) by (intros p Hp; discriminate Hp).
  f_equal. unfold Set_of.
  change (([page 1] ++ [ellipsis]) ++ map page (consecutive (c - s) (c + s)))
    with ([page 1; ellipsis] ++ map page (consecutive (c - s) (c + s))).
  rewrite fold_left_app.
  pose proof (NoDup_app_remove_r _ _ Hnd) as Hnd1.
  rewrite (Set_of_fresh _ [] Hnd1). cbn [app fold_left].
  rewrite (Set_add_old _ ellipsis) by (right; left; reflexivity).
  apply Set_add_new. intros Hin.
  apply NoDup_remove_2 in Hnd. apply Hnd. rewrite app_nil_r. exact Hin.
Qed.

Lemma hd_error_app :
  forall (A : Type) (a : A) (l1 l2 : list A),
    hd_error l1 = Some a -> hd_error (l1 ++ l2) = Some a.
Proof.
  intros A a [|x l1] l2 H; [discriminate H|exact H].
Qed.

Lemma well_formed_of_shape :
  forall c t pages,
    hd_error pages = Some (page 1) ->
    In c (numbers pages) -> In t (numbers pages) ->
    StronglySorted Z.lt (numbers pages) ->
    (forall n, In n (numbers pages) -> 1 <= n <= t) ->
    (ellipses pages <= 1)%nat ->
    well_formed c t pages.
Proof.
  intros c t pages Hhd Hc Ht Hinc Hin Hone. constructor; try assumption.
  - apply numbers_In. exact Hc.
  - apply numbers_In. exact Ht.
  - intros n Hn. apply Hin. apply numbers_In. exact Hn.
Qed.

(** X23: for a current page between 1 and the number of pages, what the
    component renders is a list that starts with page 1, contains the
    current and the last page, has its page numbers in strictly
    increasing order between 1 and the number of pages, and has at most
    one ellipsis. *)
Theorem X23_page_list_is_well_formed :
  forall (currentPage totalPages showSiblings : Z) (rendered : Rendered),
    0 <= showSiblings ->
    1 <= currentPage <= totalPages ->
    Pagination currentPage totalPages showSiblings = Some rendered ->
    well_formed currentPage totalPages (pageNumbers rendered).
Proof.
  intros c t s r Hs Hc. unfold Pagination.
  destruct (t <=? 1) eqn:Ht; [discriminate|]. apply Z.leb_gt in Ht.
  intros H. injection H as <-. cbn [pageNumbers].
  destruct (Z_le_gt_dec c (s + 2)) as [Hstart|Hstart];
    [|destruct (Z_lt_le_dec c (t - s - 1)) as [Hend|Hend]].
  - rewrite generatePageNumbers_near_start by lia.
    pose proof (near_start_increasing t s Hs Ht) as Hinc.
    apply well_formed_of_shape; try exact Hinc.
    + reflexivity.
    + rewrite numbers_app, numbers_pages. apply in_or_app. left.
      destruct (Z.eq_dec c 1) as [->|Hne]; [left; reflexivity|right].
      apply consecutive_In. lia.
    + rewrite numbers_app, numbers_pages. apply in_or_app.
      destruct (t >? s + 3) eqn:Hgt; [right; left; reflexivity|left; right].
      apply consecutive_In. rewrite Z.gtb_ltb in Hgt. apply Z.ltb_ge in Hgt. lia.
    + intros n. rewrite numbers_app, numbers_pages. intros Hn.
      apply in_app_or in Hn. destruct Hn as [[<-|Hn]|Hn].
      * lia.
      * apply consecutive_In in Hn. lia.
      * destruct (t >? s + 3); [|contradiction]. destruct Hn as [<-|[]]. lia.
    + rewrite ellipses_app, ellipses_pages. destruct (t >? s + 3); cbn; lia.
  - rewrite generatePageNumbers_middle by lia.
    pose proof (middle_increasing c t s Hs ltac:(lia) Hend) as Hinc.
    apply well_formed_of_shape; try exact Hinc.
    + reflexivity.
    + rewrite !numbers_app, numbers_pages. apply in_or_app. left. right.
      apply consecutive_In. lia.
    + rewrite !numbers_app. apply in_or_app. right. left. reflexivity.
    + intros n. rewrite !numbers_app, numbers_pages. intros Hn.
      apply in_app_or in Hn. destruct Hn as [[<-|Hn]|[<-|[]]]; try lia.
      apply consecutive_In in Hn. lia.
    + rewrite !ellipses_app, ellipses_pages. cbn. lia.
  - rewrite generatePageNumbers_near_end by lia.
    pose proof (near_end_increasing t s Hs Ht) as Hinc.
    apply well_formed_of_shape; try exact Hinc.
    + reflexivity.
    + rewrite !numbers_app, numbers_pages. apply in_or_app. right.
      apply consecutive_In. lia.
    + rewrite !numbers_app, numbers_pages. apply in_or_app. right.
      apply consecutive_In. lia.
    + intros n. rewrite !numbers_app, numbers_pages. intros Hn.
      apply in_app_or in Hn. destruct Hn as [Hn|Hn].
      * destruct (t >? s + 3); destruct Hn as [<-|[]]; lia.
      * apply consecutive_In in Hn. lia.
    + rewrite !ellipses_app, ellipses_pages. destruct (t >? s + 3); cbn; lia.
Qed.

Lemma X23_page_list_is_well_formed_witness :
  well_formed 5 10
    [page 1; ellipsis; page 4; page 5; page 6; page 10].
Proof.
  apply (X23_page_list_is_well_formed 5 10 1
           {| previousDisabled := false;
              pageNumbers := [page 1; ellipsis; page 4; page 5; page 6; page 10];
              nextDisabled := false |}).
  - lia.
  - lia.
  - reflexivity.
Defined.

(** X24: when the current page is far from both ends, the list is page 1,
    one ellipsis, the window around the current page and the last page.
    The second ellipsis that the code pushes is lost in the set, so the
    pages left out between the window and the last page are not marked. *)
Theorem X24_second_ellipsis_is_dropped :
  forall currentPage totalPages showSiblings : Z,
    0 <= showSiblings ->
    showSiblings + 2 < currentPage ->
    currentPage < totalPages - showSiblings - 1 ->
    generatePageNumbers currentPage totalPages showSiblings
    = [page 1; ellipsis]
      ++ map page (consecutive (currentPage - showSiblings) (currentPage + showSiblings))
      ++ [page totalPages]
    /\ ellipses (generatePageNumbers currentPage totalPages showSiblings) = 1%nat
    /\ forall n, currentPage + showSiblings < n < totalPages ->
                 ~ In (page n) (generatePageNumbers currentPage totalPages showSiblings).
Proof.
  intros c t s Hs Hc Hend.
  rewrite (generatePageNumbers_middle c t s Hs Hc Hend). split; [|split].
  - rewrite <- app_assoc. reflexivity.
  - rewrite !ellipses_app, ellipses_pages. reflexivity.
  - intros n Hn Hin. apply numbers_In in Hin.
    rewrite !numbers_app, numbers_pages in Hin.
    apply in_app_or in Hin. destruct Hin as [[Hin|Hin]|[Hin|[]]]; try lia.
    apply consecutive_In in Hin. lia.
Qed.

Lemma X24_second_ellipsis_is_dropped_witness :
  generatePageNumbers 5 10 1
  = [page 1; ellipsis; page 4; page 5; page 6; page 10]
  /\ ~ In (page 8) (generatePageNumbers 5 10 1).
Proof.
  destruct (X24_second_ellipsis_is_dropped 5 10 1) as (Hshape & _ & Hgap);
    [lia|lia|lia|].
  split; [exact Hshape|apply Hgap; lia].
Defined.
